(** * filter-reputation: a shallow embedding of the session reputation engine

    The repository holds two programs (two [package main] files):

    - the historical engine ([Module Historical]), which scores a session
      from its transactions and keeps per-address summaries in [ipScoring];
    - the incremental adjuster ([Module Incremental]), which nudges
      per-resource trust values with [applyReward] / [applyPenalty].

    Go's [float64] arithmetic is kept behind the interface [Float64]: every
    function of the source is written once against it.  Two instances are
    given.  [Q_Float64] reads the arithmetic exactly (rational numbers) and
    carries the universal laws; [B64_Float64] is IEEE binary64 (Rocq's
    primitive floats, with Go's [math.Max] / [math.Min]) and evaluates the
    concrete scenarios bit for bit.  Go's [int] is a 64-bit integer: its
    additions are written with their wrap-around.  [strings.ToLower] of
    Go's standard library is kept behind the interface [Strings], whose one
    law is the function's ASCII path: the facts about the adjuster hold for
    every such function, and the examples on ASCII names are computed with
    that path. *)

From Stdlib Require Import ZArith NArith QArith Qminmax Lqa Lia List Bool Ascii String.
From Stdlib Require Import Floats.PrimFloat Floats.FloatOps Floats.FloatAxioms Floats.SpecFloat.
From Stdlib Require Import Numbers.Cyclic.Int63.Uint63.
From stdpp Require Import base option list gmap strings fin_maps.

Local Open Scope Z_scope.

(** ** Go's [int] *)

Definition minInt : Z := - 2 ^ 63.
Definition maxInt : Z := 2 ^ 63 - 1.

(** Two's-complement wrap-around of a 64-bit signed integer. *)
Definition wrap (z : Z) : Z := (z + 2 ^ 63) mod 2 ^ 64 - 2 ^ 63.

Definition int_add (a b : Z) : Z := wrap (a + b).
Definition int_incr (a : Z) : Z := int_add a 1.

Definition in_int (z : Z) : Prop := minInt <= z <= maxInt.

(** ** Go's [float64], as an interface *)

Class Float64 (F : Type) := {
  f_lit : Q -> F;            (* a decimal constant of the source *)
  f_of_int : Z -> F;         (* the conversion float64(n) *)
  f_add : F -> F -> F;
  f_sub : F -> F -> F;
  f_mul : F -> F -> F;
  f_div : F -> F -> F;
  f_ltb : F -> F -> bool;    (* x < y *)
  f_Max : F -> F -> F;       (* math.Max *)
  f_Min : F -> F -> F        (* math.Min *)
}.

Declare Scope f64_scope.
Delimit Scope f64_scope with f64.
Infix "+!" := f_add (at level 50, left associativity) : f64_scope.
Infix "-!" := f_sub (at level 50, left associativity) : f64_scope.
Infix "*!" := f_mul (at level 40, left associativity) : f64_scope.
Infix "/!" := f_div (at level 40, left associativity) : f64_scope.
Infix "<!" := f_ltb (at level 70, no associativity) : f64_scope.
Notation "x >! y" := (f_ltb y x) (at level 70, no associativity) : f64_scope.

(** *** Exact reading: rational numbers *)

Definition Qltb (x y : Q) : bool := negb (Qle_bool y x).

#[export] Instance Q_Float64 : Float64 Q := {|
  f_lit := fun q => q;
  f_of_int := inject_Z;
  f_add := Qplus;
  f_sub := Qminus;
  f_mul := Qmult;
  f_div := Qdiv;
  f_ltb := Qltb;
  f_Max := fun x y => if Qltb y x then x else y;
  f_Min := fun x y => if Qltb x y then x else y
|}.

(** *** IEEE binary64 reading: primitive floats *)

Module B64.

(** float64(n) for a 64-bit [n]: the conversion rounds to nearest. *)
Definition of_int (z : Z) : float :=
  if z =? minInt then PrimFloat.opp (PrimFloat.mul (PrimFloat.of_uint63 (Uint63.of_Z (2 ^ 62))) (PrimFloat.of_uint63 2%uint63))
  else if z <? 0 then PrimFloat.opp (PrimFloat.of_uint63 (Uint63.of_Z (- z)))
  else PrimFloat.of_uint63 (Uint63.of_Z z).

(** A decimal constant [n/d] of the source, rounded to nearest once
    (numerator and denominator are exact, the division rounds). *)
Definition lit (q : Q) : float :=
  PrimFloat.div (of_int (Qnum q)) (of_int (Zpos (Qden q))).

Definition is_pos_inf (x : float) : bool := PrimFloat.eqb x PrimFloat.infinity.
Definition is_neg_inf (x : float) : bool := PrimFloat.eqb x PrimFloat.neg_infinity.

(** math.Max of Go's standard library, special cases included. *)
Definition Max (x y : float) : float :=
  if is_pos_inf x || is_pos_inf y then PrimFloat.infinity
  else if PrimFloat.is_nan x || PrimFloat.is_nan y then PrimFloat.nan
  else if PrimFloat.is_zero x && PrimFloat.eqb x y then
    (if PrimFloat.get_sign x then y else x)
  else if PrimFloat.ltb y x then x else y.

(** math.Min of Go's standard library, special cases included. *)
Definition Min (x y : float) : float :=
  if is_neg_inf x || is_neg_inf y then PrimFloat.neg_infinity
  else if PrimFloat.is_nan x || PrimFloat.is_nan y then PrimFloat.nan
  else if PrimFloat.is_zero x && PrimFloat.eqb x y then
    (if PrimFloat.get_sign x then x else y)
  else if PrimFloat.ltb x y then x else y.

End B64.

#[export] Instance B64_Float64 : Float64 float := {|
  f_lit := B64.lit;
  f_of_int := B64.of_int;
  f_add := PrimFloat.add;
  f_sub := PrimFloat.sub;
  f_mul := PrimFloat.mul;
  f_div := PrimFloat.div;
  f_ltb := PrimFloat.ltb;
  f_Max := B64.Max;
  f_Min := B64.Min
|}.

(** ** Time, runtime panics *)

(** A [time.Time] instant, in nanoseconds since the zero [Time], and a
    [time.Duration], in nanoseconds. *)
Definition Time := Z.
Definition Duration := Z.
Definition Hour : Duration := 3600 * 1000000000.
Definition Time_Add (t : Time) (d : Duration) : Time := t + d.
Definition Time_Before (t u : Time) : bool := t <? u.

(** What a handler ends with: a value, or a Go runtime panic. *)
Inductive PanicKind : Type :=
| IndexOutOfRange (index : Z) (len : Z)
| InterfaceConversion.

Inductive result (A : Type) : Type :=
| Ok (a : A)
| Panic (p : PanicKind).
Arguments Ok {A} a.
Arguments Panic {A} p.

#[export] Instance result_ret : MRet result := fun A a => Ok a.

#[export] Instance result_bind : MBind result := fun A B k r =>
  match r with
  | Ok a => k a
  | Panic p => Panic p
  end.

Definition is_Ok {A : Type} (r : result A) : bool :=
  match r with Ok _ => true | Panic _ => false end.

(** [len(s)], an [int].  A slice holds between 0 and [maxInt] elements,
    so [len(s) - k] for the small constants [k] of the source never wraps;
    it is written with the subtraction of [Z]. *)
Definition len {A : Type} (s : list A) : Z := Z.of_nat (length s).

(** [s[i]] on a slice: a panic when the index is out of range. *)
Definition index {A : Type} (s : list A) (i : Z) : result A :=
  if (0 <=? i) && (i <? len s) then
    match s !! Z.to_nat i with
    | Some a => Ok a
    | None => Panic (IndexOutOfRange i (len s))
    end
  else Panic (IndexOutOfRange i (len s)).


(** ** Network addresses *)

(** A [net.IP] is kept by its printed form; the nil address prints as
    <nil>, as [IP.String] does. *)
Definition IP := option string.

Definition IP_String (ip : IP) : string :=
  match ip with
  | Some s => s
  | None => "<nil>"
  end.

(** The implementations of the interface [net.Addr]. *)
Inductive Addr : Type :=
| TCPAddr (ip : IP) (port : Z)
| UDPAddr (ip : IP) (port : Z)
| IPAddr (ip : IP)
| UnixAddr (name : string) (net : string).

(** The checked type assertion of [src] to a TCP address, with its [ok]. *)
Definition asTCPAddr (src : Addr) : option IP :=
  match src with
  | TCPAddr ip _ => Some ip
  | _ => None
  end.

(** ** Events, as the filter framework delivers them *)

Inductive Event : Type :=
| LinkConnect (timestamp : Time) (rdns fcrdns : string) (src dest : Addr)
| LinkDisconnect (timestamp : Time)
| LinkIdentify (timestamp : Time) (method hostname : string)
| LinkAuth (timestamp : Time) (result_ username : string)
| LinkTLS (timestamp : Time) (tlsString : string)
| TxReset (timestamp : Time) (messageId : string)
| TxBegin (timestamp : Time) (messageId : string)
| TxMail (timestamp : Time) (messageId result_ from : string)
| TxRcpt (timestamp : Time) (messageId result_ to : string)
| TxData (timestamp : Time) (messageId result_ : string)
| TxCommit (timestamp : Time) (messageId : string) (messageSize : Z)
| TxRollback (timestamp : Time) (messageId : string).

Definition isLinkConnect (ev : Event) : bool :=
match ev with
| LinkConnect _ _ _ _ _ => true
| _ => false
end.

(** * The historical engine *)

Module Historical.

Section Engine.

Context {F : Type} `{Float64 F}.
Local Open Scope f64_scope.

Record Scoring : Type := mkScoring {
  Timestamp : Time;
  Score : F;
  AuthFailures : Z;
  AuthSuccesses : Z;
  Resets : Z;
  RcptCount : Z;
  DataCount : Z;
  CommitCount : Z;
  RollbackCount : Z
}.

Record Transaction : Type := mkTransaction {
  beginTime : Time;
  endTime : Time;
  mailFromOK : bool;
  rcptToOK : Z;
  rcptToTempfail : Z;
  rcptToPermfail : Z;
  sawData : bool;
  committed : bool
}.

Record SessionData : Type := mkSessionData {
  skip : bool;
  connectTime : Time;
  disconnectTime : Time;
  addr : IP;
  rdns : bool;
  fcrdns : bool;
  cmdHelo : bool;
  cmdEhlo : bool;
  heloname : string;
  cmdAuth : bool;
  authok : Z;
  authfail : Z;
  cmdTLS : bool;
  tlsString : string;
  nResets : Z;
  transactions : list Transaction
}.

(** *** Scoring *)

Definition validSenderWeight : F := f_lit 0.4.
Definition dataWeight : F := f_lit 0.3.
Definition commitWeight : F := f_lit 0.3.
Definition successfulRecipientWeight : F := f_lit 0.1.
Definition failedRecipientPenalty : F := f_lit 0.2.

Definition scoreTransaction (tx : Transaction) : F :=
  let baseScore := f_lit 0 in
  let baseScore := if mailFromOK tx then baseScore +! validSenderWeight else baseScore in
  let baseScore := if sawData tx then baseScore +! dataWeight else baseScore in
  let baseScore := if committed tx then baseScore +! commitWeight else baseScore in
  let baseScore := baseScore +! f_of_int (rcptToOK tx) *! successfulRecipientWeight in
  let baseScore :=
    baseScore -! f_of_int (int_add (rcptToTempfail tx) (rcptToPermfail tx)) *! failedRecipientPenalty in
  f_Max (f_lit 0) (f_Min (f_lit 1) baseScore).

Definition authSuccessWeight : F := f_lit 0.1.
Definition authFailurePenalty : F := f_lit 0.1.
Definition tlsWeight : F := f_lit 0.2.
Definition rdnsWeight : F := f_lit 0.1.
Definition fcrdnsWeight : F := f_lit 0.1.
Definition resetPenalty : F := f_lit 0.05.

Definition scoreSession (session : SessionData) : F :=
  let baseScore := f_lit 0 in
  let totalTransactions := len (transactions session) in
  let baseScore :=
    if 0 <? totalTransactions then
      let transactionScore :=
        fold_left (fun acc tx => acc +! scoreTransaction tx) (transactions session) (f_lit 0) in
      baseScore +! transactionScore /! f_of_int totalTransactions
    else baseScore in
  let baseScore := baseScore +! f_of_int (authok session) *! authSuccessWeight in
  let baseScore := baseScore -! f_of_int (authfail session) *! authFailurePenalty in
  let baseScore := if cmdTLS session then baseScore +! tlsWeight else baseScore in
  let baseScore := if rdns session then baseScore +! rdnsWeight else baseScore in
  let baseScore := if fcrdns session then baseScore +! fcrdnsWeight else baseScore in
  let baseScore := baseScore -! f_of_int (nResets session) *! resetPenalty in
  f_Max (f_lit 0) (f_Min (f_lit 1) baseScore).

(** *** Field assignments on the session record *)

Definition set_skip (v : bool) (s : SessionData) : SessionData :=
mkSessionData v (connectTime s) (disconnectTime s) (addr s) (rdns s) (fcrdns s)
  (cmdHelo s) (cmdEhlo s) (heloname s) (cmdAuth s) (authok s) (authfail s) (cmdTLS s)
  (tlsString s) (nResets s) (transactions s).

Definition set_connectTime (v : Time) (s : SessionData) : SessionData :=
mkSessionData (skip s) v (disconnectTime s) (addr s) (rdns s) (fcrdns s) (cmdHelo s)
  (cmdEhlo s) (heloname s) (cmdAuth s) (authok s) (authfail s) (cmdTLS s) (tlsString s)
  (nResets s) (transactions s).

Definition set_disconnectTime (v : Time) (s : SessionData) : SessionData :=
mkSessionData (skip s) (connectTime s) v (addr s) (rdns s) (fcrdns s) (cmdHelo s)
  (cmdEhlo s) (heloname s) (cmdAuth s) (authok s) (authfail s) (cmdTLS s) (tlsString s)
  (nResets s) (transactions s).

Definition set_addr (v : IP) (s : SessionData) : SessionData :=
mkSessionData (skip s) (connectTime s) (disconnectTime s) v (rdns s) (fcrdns s)
  (cmdHelo s) (cmdEhlo s) (heloname s) (cmdAuth s) (authok s) (authfail s) (cmdTLS s)
  (tlsString s) (nResets s) (transactions s).

Definition set_rdns (v : bool) (s : SessionData) : SessionData :=
mkSessionData (skip s) (connectTime s) (disconnectTime s) (addr s) v (fcrdns s)
  (cmdHelo s) (cmdEhlo s) (heloname s) (cmdAuth s) (authok s) (authfail s) (cmdTLS s)
  (tlsString s) (nResets s) (transactions s).

Definition set_fcrdns (v : bool) (s : SessionData) : SessionData :=
mkSessionData (skip s) (connectTime s) (disconnectTime s) (addr s) (rdns s) v
  (cmdHelo s) (cmdEhlo s) (heloname s) (cmdAuth s) (authok s) (authfail s) (cmdTLS s)
  (tlsString s) (nResets s) (transactions s).

Definition set_cmdHelo (v : bool) (s : SessionData) : SessionData :=
mkSessionData (skip s) (connectTime s) (disconnectTime s) (addr s) (rdns s) (fcrdns s) v
  (cmdEhlo s) (heloname s) (cmdAuth s) (authok s) (authfail s) (cmdTLS s) (tlsString s)
  (nResets s) (transactions s).

Definition set_cmdEhlo (v : bool) (s : SessionData) : SessionData :=
mkSessionData (skip s) (connectTime s) (disconnectTime s) (addr s) (rdns s) (fcrdns s)
  (cmdHelo s) v (heloname s) (cmdAuth s) (authok s) (authfail s) (cmdTLS s)
  (tlsString s) (nResets s) (transactions s).

Definition set_heloname (v : string) (s : SessionData) : SessionData :=
mkSessionData (skip s) (connectTime s) (disconnectTime s) (addr s) (rdns s) (fcrdns s)
  (cmdHelo s) (cmdEhlo s) v (cmdAuth s) (authok s) (authfail s) (cmdTLS s) (tlsString s)
  (nResets s) (transactions s).

Definition set_cmdAuth (v : bool) (s : SessionData) : SessionData :=
mkSessionData (skip s) (connectTime s) (disconnectTime s) (addr s) (rdns s) (fcrdns s)
  (cmdHelo s) (cmdEhlo s) (heloname s) v (authok s) (authfail s) (cmdTLS s)
  (tlsString s) (nResets s) (transactions s).

Definition set_authok (v : Z) (s : SessionData) : SessionData :=
mkSessionData (skip s) (connectTime s) (disconnectTime s) (addr s) (rdns s) (fcrdns s)
  (cmdHelo s) (cmdEhlo s) (heloname s) (cmdAuth s) v (authfail s) (cmdTLS s)
  (tlsString s) (nResets s) (transactions s).

Definition set_authfail (v : Z) (s : SessionData) : SessionData :=
mkSessionData (skip s) (connectTime s) (disconnectTime s) (addr s) (rdns s) (fcrdns s)
  (cmdHelo s) (cmdEhlo s) (heloname s) (cmdAuth s) (authok s) v (cmdTLS s) (tlsString s)
  (nResets s) (transactions s).

Definition set_cmdTLS (v : bool) (s : SessionData) : SessionData :=
mkSessionData (skip s) (connectTime s) (disconnectTime s) (addr s) (rdns s) (fcrdns s)
  (cmdHelo s) (cmdEhlo s) (heloname s) (cmdAuth s) (authok s) (authfail s) v
  (tlsString s) (nResets s) (transactions s).

Definition set_tlsString (v : string) (s : SessionData) : SessionData :=
mkSessionData (skip s) (connectTime s) (disconnectTime s) (addr s) (rdns s) (fcrdns s)
  (cmdHelo s) (cmdEhlo s) (heloname s) (cmdAuth s) (authok s) (authfail s) (cmdTLS s) v
  (nResets s) (transactions s).

Definition set_nResets (v : Z) (s : SessionData) : SessionData :=
mkSessionData (skip s) (connectTime s) (disconnectTime s) (addr s) (rdns s) (fcrdns s)
  (cmdHelo s) (cmdEhlo s) (heloname s) (cmdAuth s) (authok s) (authfail s) (cmdTLS s)
  (tlsString s) v (transactions s).

Definition set_transactions (v : list Transaction) (s : SessionData) : SessionData :=
mkSessionData (skip s) (connectTime s) (disconnectTime s) (addr s) (rdns s) (fcrdns s)
  (cmdHelo s) (cmdEhlo s) (heloname s) (cmdAuth s) (authok s) (authfail s) (cmdTLS s)
  (tlsString s) (nResets s) v.

(** *** Field assignments on a transaction *)

Definition set_endTime (v : Time) (s : Transaction) : Transaction :=
mkTransaction (beginTime s) v (mailFromOK s) (rcptToOK s) (rcptToTempfail s)
  (rcptToPermfail s) (sawData s) (committed s).

Definition set_mailFromOK (v : bool) (s : Transaction) : Transaction :=
mkTransaction (beginTime s) (endTime s) v (rcptToOK s) (rcptToTempfail s)
  (rcptToPermfail s) (sawData s) (committed s).

Definition set_rcptToOK (v : Z) (s : Transaction) : Transaction :=
mkTransaction (beginTime s) (endTime s) (mailFromOK s) v (rcptToTempfail s)
  (rcptToPermfail s) (sawData s) (committed s).

Definition set_rcptToTempfail (v : Z) (s : Transaction) : Transaction :=
mkTransaction (beginTime s) (endTime s) (mailFromOK s) (rcptToOK s) v (rcptToPermfail s)
  (sawData s) (committed s).

Definition set_rcptToPermfail (v : Z) (s : Transaction) : Transaction :=
mkTransaction (beginTime s) (endTime s) (mailFromOK s) (rcptToOK s) (rcptToTempfail s) v
  (sawData s) (committed s).

Definition set_sawData (v : bool) (s : Transaction) : Transaction :=
mkTransaction (beginTime s) (endTime s) (mailFromOK s) (rcptToOK s) (rcptToTempfail s)
  (rcptToPermfail s) v (committed s).

Definition set_committed (v : bool) (s : Transaction) : Transaction :=
mkTransaction (beginTime s) (endTime s) (mailFromOK s) (rcptToOK s) (rcptToTempfail s)
  (rcptToPermfail s) (sawData s) v.

(** *** Summaries and their aggregation *)

(** The four counters of [summarizeSession], updated by one transaction. *)
Definition summarizeStep (acc : Z * Z * Z * Z) (tx : Transaction) : Z * Z * Z * Z :=
let '(rcptCount, dataCount, commitCount, rollbackCount) := acc in
let rcptCount :=
  int_add rcptCount (int_add (int_add (rcptToOK tx) (rcptToTempfail tx)) (rcptToPermfail tx)) in
let dataCount := if sawData tx then int_incr dataCount else dataCount in
if committed tx
then (rcptCount, dataCount, int_incr commitCount, rollbackCount)
else (rcptCount, dataCount, commitCount, int_incr rollbackCount).

(** [now] is the reading of [time.Now()]. *)
Definition summarizeSession (now : Time) (session : SessionData) : Scoring :=
let '(rcptCount, dataCount, commitCount, rollbackCount) :=
  fold_left summarizeStep (transactions session) (0, 0, 0, 0) in
{| Timestamp := now;
   Score := scoreSession session;
   AuthFailures := authfail session;
   AuthSuccesses := authok session;
   Resets := nResets session;
   RcptCount := rcptCount;
   DataCount := dataCount;
   CommitCount := commitCount;
   RollbackCount := rollbackCount |}.

(** The zero value [Scoring{}]. *)
Definition zeroScoring : Scoring := mkScoring 0 (f_lit 0) 0 0 0 0 0 0 0.

Definition aggregateStep (aggregate score : Scoring) : Scoring :=
{| Timestamp := Timestamp aggregate;
   Score := Score aggregate +! Score score;
   AuthFailures := int_add (AuthFailures aggregate) (AuthFailures score);
   AuthSuccesses := int_add (AuthSuccesses aggregate) (AuthSuccesses score);
   Resets := int_add (Resets aggregate) (Resets score);
   RcptCount := int_add (RcptCount aggregate) (RcptCount score);
   DataCount := int_add (DataCount aggregate) (DataCount score);
   CommitCount := int_add (CommitCount aggregate) (CommitCount score);
   RollbackCount := int_add (RollbackCount aggregate) (RollbackCount score) |}.

Definition set_Score (v : F) (s : Scoring) : Scoring :=
mkScoring (Timestamp s) v (AuthFailures s) (AuthSuccesses s) (Resets s) (RcptCount s)
  (DataCount s) (CommitCount s) (RollbackCount s).

Definition aggregateScoring (scores : list Scoring) : Scoring :=
if len scores =? 0 then zeroScoring
else
  let totalScores := len scores in
  let aggregate := fold_left aggregateStep scores zeroScoring in
  set_Score (Score aggregate /! f_of_int totalScores) aggregate.

(** *** The process state

    One session, the shared map [ipScoring] (every access below happens
    with [ipScoringMutex] held, so each handler is one atomic step on it),
    and what was written to standard error. *)

Inductive LogEntry : Type :=
| LogConnect (ip : string) (score : F)
| LogDisconnect (ip : string) (score : F)
| LogTxBegin (timestamp : Time)
| LogTxMail (timestamp : Time)
| LogTxCommit (score : F)
| LogTxRollback (score : F)
| LogSweepDelete (ip : string).

Record State : Type := mkState {
  session : SessionData;
  ipScoring : gmap string (list Scoring);
  stderr : list LogEntry
}.

Definition set_session (v : SessionData) (st : State) : State :=
mkState v (ipScoring st) (stderr st).

Definition set_ipScoring (v : gmap string (list Scoring)) (st : State) : State :=
mkState (session st) v (stderr st).

Definition Fprintf (e : LogEntry) (st : State) : State :=
mkState (session st) (ipScoring st) (stderr st ++ [e]).

(** What the session allocator hands out: [&SessionData{}]. *)
Definition zeroSessionData : SessionData :=
mkSessionData false 0 0 None false false false false "" false 0 0 false "" 0 [].

(** *** Event handlers *)

Definition linkConnectCb (timestamp : Time) (rdns_ fcrdns_ : string) (src dest : Addr)
  (st : State) : result State :=
match asTCPAddr src with
| None => Ok (set_session (set_skip true (session st)) st)
| Some ip =>
  let s := set_transactions [] (session st) in
  let s := set_connectTime timestamp s in
  let s := set_addr ip s in
  let s := set_rdns (negb (String.eqb rdns_ "<unknown>")) s in
  let s := set_fcrdns (String.eqb fcrdns_ "ok" || String.eqb fcrdns_ "pass") s in
  let st := set_session s st in
  let found := ipScoring st !! IP_String (addr s) in
  let scorings := default [] found in
  let exists_ := bool_decide (is_Some found) in
  let score :=
    if negb exists_ || (len scorings <? 5) then f_lit 0.5
    else Score (aggregateScoring scorings) in
  Ok (Fprintf (LogConnect (IP_String ip) score) st)
end.

Definition linkDisconnectCb (now : Time) (timestamp : Time) (st : State) : result State :=
if skip (session st) then Ok st
else
  let s := set_disconnectTime timestamp (session st) in
  let st := set_session s st in
  let key := IP_String (addr s) in
  let st :=
    set_ipScoring
      (<[key := default [] (ipScoring st !! key) ++ [summarizeSession now s]]> (ipScoring st)) st in
  Ok (Fprintf (LogDisconnect key (scoreSession s)) st).

Definition linkIdentifyCb (timestamp : Time) (method hostname : string) (st : State)
  : result State :=
if skip (session st) then Ok st
else
  let s := session st in
  let s := if String.eqb method "HELO" then set_cmdHelo true s else s in
  let s := if String.eqb method "EHLO" then set_cmdEhlo true s else s in
  Ok (set_session (set_heloname hostname s) st).

Definition linkAuthCb (timestamp : Time) (result_ username : string) (st : State)
  : result State :=
if skip (session st) then Ok st
else
  let s := set_cmdAuth true (session st) in
  let s :=
    if String.eqb result_ "ok" then set_authok (int_incr (authok s)) s
    else set_authfail (int_incr (authfail s)) s in
  Ok (set_session s st).

Definition linkTLSCb (timestamp : Time) (tlsString_ : string) (st : State) : result State :=
if skip (session st) then Ok st
else Ok (set_session (set_tlsString tlsString_ (set_cmdTLS true (session st))) st).

Definition txResetCb (timestamp : Time) (messageId : string) (st : State) : result State :=
if skip (session st) then Ok st
else Ok (set_session (set_nResets (int_incr (nResets (session st))) (session st)) st).

Definition txBeginCb (timestamp : Time) (messageId : string) (st : State) : result State :=
if skip (session st) then Ok st
else
  let tx := mkTransaction timestamp 0 false 0 0 0 false false in
  let s := set_transactions (transactions (session st) ++ [tx]) (session st) in
  Ok (Fprintf (LogTxBegin timestamp) (set_session s st)).

(** [tx := transactions[len(transactions)-1]] followed by assignments
    through the pointer [tx]: the last element is read (a panic on an
    empty slice) and the updated transaction is the one the slice holds. *)
Definition withLastTx (f : Transaction -> Transaction) (s : SessionData)
  : result (Transaction * SessionData) :=
let i := len (transactions s) - 1 in
tx ← index (transactions s) i;
Ok (f tx, set_transactions (<[Z.to_nat i := f tx]> (transactions s)) s).

Definition txMailCb (timestamp : Time) (messageId result_ from : string) (st : State)
  : result State :=
if skip (session st) then Ok st
else
  let st := Fprintf (LogTxMail timestamp) st in
  '(_, s) ← withLastTx
    (fun tx => if String.eqb result_ "ok" then set_mailFromOK true tx else tx) (session st);
  Ok (set_session s st).

Definition txRcptCb (timestamp : Time) (messageId result_ to : string) (st : State)
  : result State :=
if skip (session st) then Ok st
else
  '(_, s) ← withLastTx
    (fun tx =>
       if String.eqb result_ "ok" then set_rcptToOK (int_incr (rcptToOK tx)) tx
       else if String.eqb result_ "tempfail" then set_rcptToTempfail (int_incr (rcptToTempfail tx)) tx
       else if String.eqb result_ "permfail" then set_rcptToPermfail (int_incr (rcptToPermfail tx)) tx
       else tx) (session st);
  Ok (set_session s st).

Definition txDataCb (timestamp : Time) (messageId result_ : string) (st : State)
  : result State :=
if skip (session st) then Ok st
else
  '(_, s) ← withLastTx (set_sawData true) (session st);
  Ok (set_session s st).

Definition txCommitCb (timestamp : Time) (messageId : string) (messageSize : Z) (st : State)
  : result State :=
if skip (session st) then Ok st
else
  '(tx, s) ← withLastTx (fun tx => set_committed true (set_endTime timestamp tx)) (session st);
  Ok (Fprintf (LogTxCommit (scoreTransaction tx)) (set_session s st)).

Definition txRollbackCb (timestamp : Time) (messageId : string) (st : State) : result State :=
if skip (session st) then Ok st
else
  '(tx, s) ← withLastTx (set_endTime timestamp) (session st);
  Ok (Fprintf (LogTxRollback (scoreTransaction tx)) (set_session s st)).

(** *** Dispatch *)

(** The handler registered for each event ([main]); [now] is the clock
    reading while the handler runs. *)
Definition dispatch (now : Time) (ev : Event) (st : State) : result State :=
match ev with
| LinkConnect t r f src dest => linkConnectCb t r f src dest st
| LinkDisconnect t => linkDisconnectCb now t st
| LinkIdentify t m h => linkIdentifyCb t m h st
| LinkAuth t r u => linkAuthCb t r u st
| LinkTLS t s => linkTLSCb t s st
| TxReset t m => txResetCb t m st
| TxBegin t m => txBeginCb t m st
| TxMail t m r f => txMailCb t m r f st
| TxRcpt t m r to => txRcptCb t m r to st
| TxData t m r => txDataCb t m r st
| TxCommit t m n => txCommitCb t m n st
| TxRollback t m => txRollbackCb t m st
end.

(** A sequence of deliveries, each with its clock reading; a panic ends
    the process. *)
Fixpoint run (evs : list (Time * Event)) (st : State) : result State :=
match evs with
| [] => Ok st
| (now, ev) :: evs => st' ← dispatch now ev st; run evs st'
end.

(** *** The maintenance sweep ([init])

    One pass of the loop body, with the mutex held.  [now ip] is the
    reading of [time.Now()] when the key [ip] is visited. *)

Definition sweepVisit (now : string -> Time) (acc : result State)
  (entry : string * list Scoring) : result State :=
st ← acc;
let '(ip, scoring) := entry in
if 100 <? len scoring then
  Ok (set_ipScoring
        (<[ip := drop (Z.to_nat (len scoring - 100)) scoring]> (ipScoring st)) st)
else
  newest ← index scoring (len scoring - 1);
  if Time_Before (Time_Add (Timestamp newest) (5 * 24 * Hour)) (now ip) then
    let st := Fprintf (LogSweepDelete ip) st in
    Ok (set_ipScoring (delete ip (ipScoring st)) st)
  else Ok st.

(** [for ip, scoring := range ipScoring]: every key present when the
    pass starts is visited once, in an order the map chooses. *)
Definition sweep (now : string -> Time) (st : State) : result State :=
fold_left (sweepVisit now) (map_to_list (ipScoring st)) (Ok st).

End Engine.

Arguments Scoring : clear implicits.
Arguments LogEntry : clear implicits.
Arguments State : clear implicits.

End Historical.

(** * The incremental adjuster *)

(** ** [strings.ToLower]

    The handlers lower-case the reverse-DNS name and the HELO name with
    [strings.ToLower] of Go's standard library.  On a string whose bytes
    are all below 0x80 that function takes its ASCII path: the bytes 'A'
    to 'Z' are shifted to 'a' to 'z' and the others are kept,
    [ToLowerASCII] below.  On any other string it maps the UTF-8 runes
    through the Unicode tables (and rewrites invalid UTF-8), which are no
    part of this repository: the development takes the function as the
    operation [ToLower] of the interface [Strings], with its ASCII path as
    the one law, and every fact about the adjuster is proved for every
    such function. *)
Definition lower_ascii (c : ascii) : ascii :=
let n := N_of_ascii c in
if ((65 <=? n) && (n <=? 90))%N then ascii_of_N (n + 32) else c.

Fixpoint ToLowerASCII (s : string) : string :=
match s with
| EmptyString => EmptyString
| String c r => String (lower_ascii c) (ToLowerASCII r)
end.

(** Every byte is below [utf8.RuneSelf]. *)
Fixpoint isASCII (s : string) : bool :=
match s with
| EmptyString => true
| String c r => (N_of_ascii c <? 128)%N && isASCII r
end.

Class Strings : Type := {
  ToLower : string -> string;
  ToLower_ASCII : forall s : string, isASCII s = true -> ToLower s = ToLowerASCII s
}.

(** The ASCII path on every string: the member of the interface that the
    examples on ASCII names are computed with. *)
Definition ASCIIStrings : Strings :=
{| ToLower := ToLowerASCII; ToLower_ASCII := fun _ _ => eq_refl |}.

Module Incremental.

Section Engine.

Context {F : Type} `{Float64 F} {HS : Strings}.
Local Open Scope f64_scope.

Definition basePenalty : F := f_lit 0.1.
Definition baseReward : F := f_lit 0.05.

Definition degradationFactors : gmap string F :=
list_to_map
  [ ("IP", f_lit 1);
    ("rDNS", f_lit 0.8);
    ("heloname", f_lit 0.6);
    ("mailFrom", f_lit 0.4);
    ("mailDomain", f_lit 0.2);
    ("recipient", f_lit 0.5) ].

Definition ipWeight : F := f_lit 0.5.
Definition rdnsWeight : F := f_lit 0.3.
Definition helonameWeight : F := f_lit 0.2.

Definition clamp (value min max : F) : F :=
if value <! min then min
else if value >! max then max
else value.

(** [m[k]] on a map of floats: the zero value when the key is absent. *)
Definition at_key (m : gmap string F) (k : string) : F := default (f_lit 0) (m !! k).

Definition applyPenalty (resourceType : string) (reputationScore : F) : F :=
let penalty := basePenalty *! at_key degradationFactors resourceType in
clamp (reputationScore -! penalty) (f_lit 0) (f_lit 1).

Definition applyReward (resourceType : string) (reputationScore : F) : F :=
let reward := baseReward *! at_key degradationFactors resourceType in
clamp (reputationScore +! reward) (f_lit 0) (f_lit 1).

Record Reputation : Type := mkReputation {
  ipAddress : gmap string F;
  rdns : gmap string F;
  hostname : gmap string F
}.

Definition NewReputation : Reputation := mkReputation ∅ ∅ ∅.

Definition IPAddress (r : Reputation) (ip_ : IP) : F :=
match ipAddress r !! IP_String ip_ with
| Some score => score
| None => f_lit 0.5
end.

Definition ReverseDNS (r : Reputation) (hostname_ : string) : F :=
match rdns r !! hostname_ with
| Some score => score
| None => f_lit 0.5
end.

Definition Hostname (r : Reputation) (hostname_ : string) : F :=
match hostname r !! hostname_ with
| Some score => score
| None => f_lit 0.5
end.

Definition MailFrom (r : Reputation) (hostname_ : string) : F := f_lit 0.5.

Definition MailFromDomain (r : Reputation) (hostname_ : string) : F := f_lit 0.5.

Record SessionData : Type := mkSessionData {
  hasReverseDNS : bool;
  hasFcReverseDNS : bool;
  hasStartTLS : bool;
  hasAuth : bool;
  hasEHLO : bool;
  rDNS : string;
  ip : IP;
  heloname : string;
  txBegin : Z;
  txData : Z;
  txCommit : Z;
  txRollback : Z;
  txMailFrom : Z;
  txRcptTo : Z;
  rsetCount : Z;
  failedAuth : Z;
  failedMail : Z;
  failedRcpt : Z;
  overallReputation : F;
  ipReputation : F;
  rdnsReputation : F;
  heloReputation : F
}.

(** What the session allocator hands out: [&SessionData{}]. *)
Definition zeroSessionData : SessionData :=
mkSessionData false false false false false "" None "" 0 0 0 0 0 0 0 0 0 0
  (f_lit 0) (f_lit 0) (f_lit 0) (f_lit 0).

(** *** Field assignments on the session record *)

Definition set_hasReverseDNS (v : bool) (s : SessionData) : SessionData :=
mkSessionData v (hasFcReverseDNS s) (hasStartTLS s) (hasAuth s) (hasEHLO s) (rDNS s)
  (ip s) (heloname s) (txBegin s) (txData s) (txCommit s) (txRollback s) (txMailFrom s)
  (txRcptTo s) (rsetCount s) (failedAuth s) (failedMail s) (failedRcpt s)
  (overallReputation s) (ipReputation s) (rdnsReputation s) (heloReputation s).

Definition set_hasFcReverseDNS (v : bool) (s : SessionData) : SessionData :=
mkSessionData (hasReverseDNS s) v (hasStartTLS s) (hasAuth s) (hasEHLO s) (rDNS s)
  (ip s) (heloname s) (txBegin s) (txData s) (txCommit s) (txRollback s) (txMailFrom s)
  (txRcptTo s) (rsetCount s) (failedAuth s) (failedMail s) (failedRcpt s)
  (overallReputation s) (ipReputation s) (rdnsReputation s) (heloReputation s).

Definition set_hasStartTLS (v : bool) (s : SessionData) : SessionData :=
mkSessionData (hasReverseDNS s) (hasFcReverseDNS s) v (hasAuth s) (hasEHLO s) (rDNS s)
  (ip s) (heloname s) (txBegin s) (txData s) (txCommit s) (txRollback s) (txMailFrom s)
  (txRcptTo s) (rsetCount s) (failedAuth s) (failedMail s) (failedRcpt s)
  (overallReputation s) (ipReputation s) (rdnsReputation s) (heloReputation s).

Definition set_hasAuth (v : bool) (s : SessionData) : SessionData :=
mkSessionData (hasReverseDNS s) (hasFcReverseDNS s) (hasStartTLS s) v (hasEHLO s)
  (rDNS s) (ip s) (heloname s) (txBegin s) (txData s) (txCommit s) (txRollback s)
  (txMailFrom s) (txRcptTo s) (rsetCount s) (failedAuth s) (failedMail s) (failedRcpt s)
  (overallReputation s) (ipReputation s) (rdnsReputation s) (heloReputation s).

Definition set_hasEHLO (v : bool) (s : SessionData) : SessionData :=
mkSessionData (hasReverseDNS s) (hasFcReverseDNS s) (hasStartTLS s) (hasAuth s) v
  (rDNS s) (ip s) (heloname s) (txBegin s) (txData s) (txCommit s) (txRollback s)
  (txMailFrom s) (txRcptTo s) (rsetCount s) (failedAuth s) (failedMail s) (failedRcpt s)
  (overallReputation s) (ipReputation s) (rdnsReputation s) (heloReputation s).

Definition set_rDNS (v : string) (s : SessionData) : SessionData :=
mkSessionData (hasReverseDNS s) (hasFcReverseDNS s) (hasStartTLS s) (hasAuth s)
  (hasEHLO s) v (ip s) (heloname s) (txBegin s) (txData s) (txCommit s) (txRollback s)
  (txMailFrom s) (txRcptTo s) (rsetCount s) (failedAuth s) (failedMail s) (failedRcpt s)
  (overallReputation s) (ipReputation s) (rdnsReputation s) (heloReputation s).

Definition set_ip (v : IP) (s : SessionData) : SessionData :=
mkSessionData (hasReverseDNS s) (hasFcReverseDNS s) (hasStartTLS s) (hasAuth s)
  (hasEHLO s) (rDNS s) v (heloname s) (txBegin s) (txData s) (txCommit s) (txRollback s)
  (txMailFrom s) (txRcptTo s) (rsetCount s) (failedAuth s) (failedMail s) (failedRcpt s)
  (overallReputation s) (ipReputation s) (rdnsReputation s) (heloReputation s).

Definition set_heloname (v : string) (s : SessionData) : SessionData :=
mkSessionData (hasReverseDNS s) (hasFcReverseDNS s) (hasStartTLS s) (hasAuth s)
  (hasEHLO s) (rDNS s) (ip s) v (txBegin s) (txData s) (txCommit s) (txRollback s)
  (txMailFrom s) (txRcptTo s) (rsetCount s) (failedAuth s) (failedMail s) (failedRcpt s)
  (overallReputation s) (ipReputation s) (rdnsReputation s) (heloReputation s).

Definition set_txBegin (v : Z) (s : SessionData) : SessionData :=
mkSessionData (hasReverseDNS s) (hasFcReverseDNS s) (hasStartTLS s) (hasAuth s)
  (hasEHLO s) (rDNS s) (ip s) (heloname s) v (txData s) (txCommit s) (txRollback s)
  (txMailFrom s) (txRcptTo s) (rsetCount s) (failedAuth s) (failedMail s) (failedRcpt s)
  (overallReputation s) (ipReputation s) (rdnsReputation s) (heloReputation s).

Definition set_txData (v : Z) (s : SessionData) : SessionData :=
mkSessionData (hasReverseDNS s) (hasFcReverseDNS s) (hasStartTLS s) (hasAuth s)
  (hasEHLO s) (rDNS s) (ip s) (heloname s) (txBegin s) v (txCommit s) (txRollback s)
  (txMailFrom s) (txRcptTo s) (rsetCount s) (failedAuth s) (failedMail s) (failedRcpt s)
  (overallReputation s) (ipReputation s) (rdnsReputation s) (heloReputation s).

Definition set_txCommit (v : Z) (s : SessionData) : SessionData :=
mkSessionData (hasReverseDNS s) (hasFcReverseDNS s) (hasStartTLS s) (hasAuth s)
  (hasEHLO s) (rDNS s) (ip s) (heloname s) (txBegin s) (txData s) v (txRollback s)
  (txMailFrom s) (txRcptTo s) (rsetCount s) (failedAuth s) (failedMail s) (failedRcpt s)
  (overallReputation s) (ipReputation s) (rdnsReputation s) (heloReputation s).

Definition set_txRollback (v : Z) (s : SessionData) : SessionData :=
mkSessionData (hasReverseDNS s) (hasFcReverseDNS s) (hasStartTLS s) (hasAuth s)
  (hasEHLO s) (rDNS s) (ip s) (heloname s) (txBegin s) (txData s) (txCommit s) v
  (txMailFrom s) (txRcptTo s) (rsetCount s) (failedAuth s) (failedMail s) (failedRcpt s)
  (overallReputation s) (ipReputation s) (rdnsReputation s) (heloReputation s).

Definition set_txMailFrom (v : Z) (s : SessionData) : SessionData :=
mkSessionData (hasReverseDNS s) (hasFcReverseDNS s) (hasStartTLS s) (hasAuth s)
  (hasEHLO s) (rDNS s) (ip s) (heloname s) (txBegin s) (txData s) (txCommit s)
  (txRollback s) v (txRcptTo s) (rsetCount s) (failedAuth s) (failedMail s)
  (failedRcpt s) (overallReputation s) (ipReputation s) (rdnsReputation s)
  (heloReputation s).

Definition set_txRcptTo (v : Z) (s : SessionData) : SessionData :=
mkSessionData (hasReverseDNS s) (hasFcReverseDNS s) (hasStartTLS s) (hasAuth s)
  (hasEHLO s) (rDNS s) (ip s) (heloname s) (txBegin s) (txData s) (txCommit s)
  (txRollback s) (txMailFrom s) v (rsetCount s) (failedAuth s) (failedMail s)
  (failedRcpt s) (overallReputation s) (ipReputation s) (rdnsReputation s)
  (heloReputation s).

Definition set_rsetCount (v : Z) (s : SessionData) : SessionData :=
mkSessionData (hasReverseDNS s) (hasFcReverseDNS s) (hasStartTLS s) (hasAuth s)
  (hasEHLO s) (rDNS s) (ip s) (heloname s) (txBegin s) (txData s) (txCommit s)
  (txRollback s) (txMailFrom s) (txRcptTo s) v (failedAuth s) (failedMail s)
  (failedRcpt s) (overallReputation s) (ipReputation s) (rdnsReputation s)
  (heloReputation s).

Definition set_failedAuth (v : Z) (s : SessionData) : SessionData :=
mkSessionData (hasReverseDNS s) (hasFcReverseDNS s) (hasStartTLS s) (hasAuth s)
  (hasEHLO s) (rDNS s) (ip s) (heloname s) (txBegin s) (txData s) (txCommit s)
  (txRollback s) (txMailFrom s) (txRcptTo s) (rsetCount s) v (failedMail s)
  (failedRcpt s) (overallReputation s) (ipReputation s) (rdnsReputation s)
  (heloReputation s).

Definition set_failedMail (v : Z) (s : SessionData) : SessionData :=
mkSessionData (hasReverseDNS s) (hasFcReverseDNS s) (hasStartTLS s) (hasAuth s)
  (hasEHLO s) (rDNS s) (ip s) (heloname s) (txBegin s) (txData s) (txCommit s)
  (txRollback s) (txMailFrom s) (txRcptTo s) (rsetCount s) (failedAuth s) v
  (failedRcpt s) (overallReputation s) (ipReputation s) (rdnsReputation s)
  (heloReputation s).

Definition set_failedRcpt (v : Z) (s : SessionData) : SessionData :=
mkSessionData (hasReverseDNS s) (hasFcReverseDNS s) (hasStartTLS s) (hasAuth s)
  (hasEHLO s) (rDNS s) (ip s) (heloname s) (txBegin s) (txData s) (txCommit s)
  (txRollback s) (txMailFrom s) (txRcptTo s) (rsetCount s) (failedAuth s) (failedMail s)
  v (overallReputation s) (ipReputation s) (rdnsReputation s) (heloReputation s).

Definition set_overallReputation (v : F) (s : SessionData) : SessionData :=
mkSessionData (hasReverseDNS s) (hasFcReverseDNS s) (hasStartTLS s) (hasAuth s)
  (hasEHLO s) (rDNS s) (ip s) (heloname s) (txBegin s) (txData s) (txCommit s)
  (txRollback s) (txMailFrom s) (txRcptTo s) (rsetCount s) (failedAuth s) (failedMail s)
  (failedRcpt s) v (ipReputation s) (rdnsReputation s) (heloReputation s).

Definition set_ipReputation (v : F) (s : SessionData) : SessionData :=
mkSessionData (hasReverseDNS s) (hasFcReverseDNS s) (hasStartTLS s) (hasAuth s)
  (hasEHLO s) (rDNS s) (ip s) (heloname s) (txBegin s) (txData s) (txCommit s)
  (txRollback s) (txMailFrom s) (txRcptTo s) (rsetCount s) (failedAuth s) (failedMail s)
  (failedRcpt s) (overallReputation s) v (rdnsReputation s) (heloReputation s).

Definition set_rdnsReputation (v : F) (s : SessionData) : SessionData :=
mkSessionData (hasReverseDNS s) (hasFcReverseDNS s) (hasStartTLS s) (hasAuth s)
  (hasEHLO s) (rDNS s) (ip s) (heloname s) (txBegin s) (txData s) (txCommit s)
  (txRollback s) (txMailFrom s) (txRcptTo s) (rsetCount s) (failedAuth s) (failedMail s)
  (failedRcpt s) (overallReputation s) (ipReputation s) v (heloReputation s).

Definition set_heloReputation (v : F) (s : SessionData) : SessionData :=
mkSessionData (hasReverseDNS s) (hasFcReverseDNS s) (hasStartTLS s) (hasAuth s)
  (hasEHLO s) (rDNS s) (ip s) (heloname s) (txBegin s) (txData s) (txCommit s)
  (txRollback s) (txMailFrom s) (txRcptTo s) (rsetCount s) (failedAuth s) (failedMail s)
  (failedRcpt s) (overallReputation s) (ipReputation s) (rdnsReputation s) v.

(** The global [reputation], one session, and standard error. *)
Inductive LogEntry : Type :=
| LogReputation (overall : F)
| LogLinkDisconnect
| LogIPUpdated (v : F)
| LogRDNSUpdated (v : F)
| LogHostnameUpdated (v : F).

Record State : Type := mkState {
  session : SessionData;
  reputation : Reputation;
  stderr : list LogEntry
}.

Definition set_session (v : SessionData) (st : State) : State :=
mkState v (reputation st) (stderr st).

Definition Fprintf (e : LogEntry) (st : State) : State :=
mkState (session st) (reputation st) (stderr st ++ [e]).

Definition Feedback (st : State) : State :=
let s := session st in
let r := reputation st in
let overallReputation_ := overallReputation s in
let ipFeedback := overallReputation_ *! ipWeight in
let rdnsFeedback := overallReputation_ *! rdnsWeight in
let hostnameFeedback := overallReputation_ *! helonameWeight in
let s := set_ipReputation (clamp ((ipReputation s +! ipFeedback) /! f_lit 2) (f_lit 0) (f_lit 1)) s in
let s := set_rdnsReputation (clamp ((rdnsReputation s +! rdnsFeedback) /! f_lit 2) (f_lit 0) (f_lit 1)) s in
let s := set_heloReputation (clamp ((heloReputation s +! hostnameFeedback) /! f_lit 2) (f_lit 0) (f_lit 1)) s in
let r := mkReputation (<[IP_String (ip s) := ipReputation s]> (ipAddress r)) (rdns r) (hostname r) in
let r := mkReputation (ipAddress r) (<[rDNS s := rdnsReputation s]> (rdns r)) (hostname r) in
let r := mkReputation (ipAddress r) (rdns r) (<[heloname s := heloReputation s]> (hostname r)) in
let st := mkState s r (stderr st) in
let st := Fprintf (LogIPUpdated (ipReputation s)) st in
let st := Fprintf (LogRDNSUpdated (rdnsReputation s)) st in
Fprintf (LogHostnameUpdated (heloReputation s)) st.

(** The unchecked type assertion of [src] to a TCP address: a panic on
    any other address. *)
Definition mustTCPAddr (src : Addr) : result IP :=
match src with
| TCPAddr ip_ _ => Ok ip_
| _ => Panic InterfaceConversion
end.

Definition linkConnectCb (timestamp : Time) (rdns_ fcrdns_ : string) (src dest : Addr)
  (st : State) : result State :=
ip_ ← mustTCPAddr src;
let s := set_ip ip_ (session st) in
let s := set_rDNS (ToLower rdns_) s in
let s := set_hasReverseDNS (negb (String.eqb rdns_ "<unknown>")) s in
let s := set_hasFcReverseDNS (negb (String.eqb fcrdns_ "ok")) s in
let ipScore := IPAddress (reputation st) (ip s) in
let rdnsScore := ReverseDNS (reputation st) (rDNS s) in
let overallReputation_ := ((ipScore *! ipWeight) +! (rdnsScore *! rdnsWeight)) /! f_lit 2 in
let '(ipScore, rdnsScore) :=
  if negb (hasReverseDNS s)
  then (applyPenalty "rDNS" ipScore, applyPenalty "rDNS" rdnsScore)
  else (applyReward "rDNS" ipScore, applyReward "rDNS" rdnsScore) in
let '(ipScore, rdnsScore) :=
  if negb (hasFcReverseDNS s)
  then (applyPenalty "FCrDNS" ipScore, applyPenalty "rDNS" rdnsScore)
  else (applyReward "FCrDNS" ipScore, applyReward "rDNS" rdnsScore) in
let s := set_overallReputation overallReputation_ s in
let s := set_ipReputation ipScore s in
let s := set_rdnsReputation rdnsScore s in
Ok (Fprintf (LogReputation overallReputation_) (set_session s st)).

Definition linkDisconnectCb (timestamp : Time) (st : State) : result State :=
Ok (Feedback (Fprintf LogLinkDisconnect st)).

Definition linkIdentifyCb (timestamp : Time) (method hostname_ : string) (st : State)
  : result State :=
let s := set_hasEHLO (String.eqb method "EHLO") (session st) in
let s := set_heloname (ToLower hostname_) s in
let ipScore := IPAddress (reputation st) (ip s) in
let rdnsScore := ReverseDNS (reputation st) (rDNS s) in
let helonameScore := Hostname (reputation st) (heloname s) in
let '(ipScore, rdnsScore, helonameScore) :=
  if hasReverseDNS s then
    if negb (String.eqb (ToLower hostname_) (rDNS s))
    then (applyPenalty "heloname" ipScore, applyPenalty "heloname" rdnsScore,
          applyPenalty "heloname" helonameScore)
    else (applyReward "heloname" ipScore, applyReward "heloname" rdnsScore,
          applyReward "heloname" helonameScore)
  else (ipScore, rdnsScore, helonameScore) in
let s := set_heloReputation helonameScore s in
let overallReputation_ :=
  ((ipScore *! ipWeight) +! (rdnsScore *! rdnsWeight) +! (helonameScore *! helonameWeight))
  /! f_lit 3 in
let s := set_overallReputation overallReputation_ s in
Ok (Fprintf (LogReputation overallReputation_) (set_session s st)).

Definition linkAuthCb (timestamp : Time) (result_ username : string) (st : State)
  : result State :=
let s := session st in
if negb (String.eqb result_ "ok")
then Ok (set_session (set_failedAuth (int_incr (failedAuth s)) s) st)
else Ok (set_session (set_hasAuth true s) st).

Definition linkTLSCb (timestamp : Time) (tlsString : string) (st : State) : result State :=
Ok (set_session (set_hasStartTLS true (session st)) st).

Definition txResetCb (timestamp : Time) (messageId : string) (st : State) : result State :=
Ok (set_session (set_rsetCount (int_add (rsetCount (session st)) 1) (session st)) st).

Definition txBeginCb (timestamp : Time) (messageId : string) (st : State) : result State :=
Ok (set_session (set_txBegin (int_add (txBegin (session st)) 1) (session st)) st).

Definition txMailCb (timestamp : Time) (messageId result_ from : string) (st : State)
  : result State :=
let s := set_txMailFrom (int_add (txMailFrom (session st)) 1) (session st) in
let s :=
  if negb (String.eqb result_ "ok") then
    let s := set_failedMail (int_incr (failedMail s)) s in
    set_overallReputation (applyPenalty "mailFrom" (overallReputation s)) s
  else set_overallReputation (applyReward "mailFrom" (overallReputation s)) s in
Ok (Fprintf (LogReputation (overallReputation s)) (set_session s st)).

Definition txRcptCb (timestamp : Time) (messageId result_ to : string) (st : State)
  : result State :=
let s := set_txRcptTo (int_add (txRcptTo (session st)) 1) (session st) in
let s :=
  if negb (String.eqb result_ "ok") then
    let s := set_failedRcpt (int_incr (failedRcpt s)) s in
    set_overallReputation (applyPenalty "recipient" (overallReputation s)) s
  else set_overallReputation (applyReward "recipient" (overallReputation s)) s in
Ok (Fprintf (LogReputation (overallReputation s)) (set_session s st)).

Definition txDataCb (timestamp : Time) (messageId result_ : string) (st : State)
  : result State :=
Ok (set_session (set_txData (int_add (txData (session st)) 1) (session st)) st).

Definition txCommitCb (timestamp : Time) (messageId : string) (messageSize : Z) (st : State)
  : result State :=
Ok (set_session (set_txCommit (int_add (txCommit (session st)) 1) (session st)) st).

Definition txRollbackCb (timestamp : Time) (messageId : string) (st : State) : result State :=
Ok (set_session (set_txRollback (int_add (txRollback (session st)) 1) (session st)) st).

(** *** Dispatch *)

Definition dispatch (ev : Event) (st : State) : result State :=
match ev with
| LinkConnect t r f src dest => linkConnectCb t r f src dest st
| LinkDisconnect t => linkDisconnectCb t st
| LinkIdentify t m h => linkIdentifyCb t m h st
| LinkAuth t r u => linkAuthCb t r u st
| LinkTLS t s => linkTLSCb t s st
| TxReset t m => txResetCb t m st
| TxBegin t m => txBeginCb t m st
| TxMail t m r f => txMailCb t m r f st
| TxRcpt t m r to => txRcptCb t m r to st
| TxData t m r => txDataCb t m r st
| TxCommit t m n => txCommitCb t m n st
| TxRollback t m => txRollbackCb t m st
end.

Fixpoint run (evs : list Event) (st : State) : result State :=
match evs with
| [] => Ok st
| ev :: evs => st' ← dispatch ev st; run evs st'
end.

End Engine.

Arguments Reputation : clear implicits.
Arguments SessionData : clear implicits.
Arguments LogEntry : clear implicits.
Arguments State : clear implicits.

End Incremental.

(** * The specification's wording

    Definitions that follow the sentences of the specification, to be
    compared with the functions of the source above. *)

Module Spec.

(** Event sequences of a session of the historical engine in which every
    mail, rcpt, data, commit and rollback event finds a transaction:
    [skipped] says that the session is marked skip, [hasTx] that it holds
    a transaction. *)
Fixpoint txAfterBegin (skipped hasTx : bool) (evs : list Event) : bool :=
match evs with
| [] => true
| ev :: evs =>
  match ev with
  | LinkConnect _ _ _ src _ =>
    match asTCPAddr src with
    | None => txAfterBegin true hasTx evs
    | Some _ => txAfterBegin skipped false evs
    end
  | TxBegin _ _ => txAfterBegin skipped (hasTx || negb skipped) evs
  | TxMail _ _ _ _ | TxRcpt _ _ _ _ | TxData _ _ _ | TxCommit _ _ _ | TxRollback _ _ =>
    (skipped || hasTx) && txAfterBegin skipped hasTx evs
  | _ => txAfterBegin skipped hasTx evs
  end
end.

(** The session holds a transaction. *)
Definition hasTx (s : Historical.SessionData) : bool :=
match Historical.transactions s with
| [] => false
| _ :: _ => true
end.

(** Event sequences whose connect events all come from a TCP address. *)
Definition connectsFromTCP (evs : list Event) : bool :=
forallb
  (fun ev =>
     match ev with
     | LinkConnect _ _ _ src _ => bool_decide (is_Some (asTCPAddr src))
     | _ => true
     end) evs.

Section Exact.

Local Open Scope Q_scope.

(** A weight that counts when its flag is set. *)
Definition weight (b : bool) (w : Q) : Q := if b then w else 0.

(** Clamping into [0,1]. *)
Definition clamp01 (x : Q) : Q := Qmax 0 (Qmin 1 x).

Definition sum (l : list Q) : Q := fold_right Qplus 0 l.

(** The arithmetic mean of a list. *)
Definition mean (l : list Q) : Q := sum l / inject_Z (Z.of_nat (length l)).

(** The mean of a list that has an element, and 0 of the empty list. *)
Definition meanOrZero (l : list Q) : Q :=
match l with
| [] => 0
| _ :: _ => mean l
end.

(** Transaction Scorer: 0.4 for an accepted sender, 0.3 for a data phase,
    0.3 for a commit, 0.1 per accepted recipient, minus 0.2 per failed
    recipient (temp-fail and perm-fail together), clamped. *)
Definition txScore (tx : Historical.Transaction) : Q :=
clamp01
  (weight (Historical.mailFromOK tx) 0.4
   + weight (Historical.sawData tx) 0.3
   + weight (Historical.committed tx) 0.3
   + 0.1 * inject_Z (Historical.rcptToOK tx)
   - 0.2 * (inject_Z (Historical.rcptToTempfail tx) + inject_Z (Historical.rcptToPermfail tx))).

(** Session Scorer: the mean of the transaction scores (0 without
    transactions), the authentication, TLS and DNS terms, the reset
    penalty, clamped. *)
Definition sessionScore (s : Historical.SessionData) : Q :=
clamp01
  (meanOrZero (map Historical.scoreTransaction (Historical.transactions s))
   + 0.1 * inject_Z (Historical.authok s)
   - 0.1 * inject_Z (Historical.authfail s)
   + weight (Historical.cmdTLS s) 0.2
   + weight (Historical.rdns s) 0.1
   + weight (Historical.fcrdns s) 0.1
   - 0.05 * inject_Z (Historical.nResets s)).

(** The blend of Feedback for one resource class, as the specification
    words it: the mean of the current trust and of the overall trust
    weighted by the class, clamped into [0,1]. *)
Definition blended (current overall classWeight : Q) : Q :=
clamp01 ((current + overall * classWeight) / 2).

End Exact.

Section Generic.

Context {F : Type} `{Float64 F} {HS : Strings}.
Local Open Scope f64_scope.

(** The mean as a float computes it: the sum from the left, divided by
    the count. *)
Definition meanF (l : list F) : F := fold_left f_add l (f_lit 0) /! f_of_int (len l).

(** priorTrust(key): the neutral prior 0.5 below 5 summaries, the mean
    of all stored scores otherwise. *)
Definition priorTrust (store : gmap string (list (Historical.Scoring F))) (key : string) : F :=
match store !! key with
| Some l => if (length l <? 5)%nat then f_lit 0.5 else meanF (map Historical.Score l)
| None => f_lit 0.5
end.

Definition fiveDays : Duration := 5 * 24 * 3600 * 1000000000.

(** What one sweep pass leaves under a key that holds [l]: the most
    recent 100 entries when there are more than 100; otherwise nothing
    when the newest entry is older than 5 days at [now]; otherwise [l]. *)
Definition sweepEntry (now : Time) (l : list (Historical.Scoring F))
  : option (list (Historical.Scoring F)) :=
if (100 <? length l)%nat then Some (drop (length l - 100) l)
else
  match last l with
  | Some newest => if Historical.Timestamp newest + fiveDays <? now then None else Some l
  | None => Some l
  end.

(** A trust value rewarded or penalized, first for reverse-DNS presence,
    then for forward confirmation. *)
Definition adjusted (present confirmed : bool) (cls1 cls2 : string) (v : F) : F :=
let v := if present then Incremental.applyReward cls1 v else Incremental.applyPenalty cls1 v in
if confirmed then Incremental.applyReward cls2 v else Incremental.applyPenalty cls2 v.

(** The overall trust at connect as the specification words it: the
    blend of the adjusted IP trust (0.5) and the adjusted reverse-DNS
    trust (0.3). *)
Definition connectOverall (r : Incremental.Reputation F) (ip_ : IP) (rdns_ fcrdns_ : string) : F :=
let present := negb (String.eqb rdns_ "<unknown>") in
let confirmed := String.eqb fcrdns_ "ok" || String.eqb fcrdns_ "pass" in
(adjusted present confirmed "rDNS" "FCrDNS" (Incremental.IPAddress r ip_) *! Incremental.ipWeight)
+! (adjusted present confirmed "rDNS" "rDNS" (Incremental.ReverseDNS r (ToLower rdns_))
    *! Incremental.rdnsWeight).

End Generic.

(** A binary64 value that is a number of [0,1], or not a number. *)
Definition b64_in_unit (r : float) : Prop :=
PrimFloat.is_nan r = true \/ (PrimFloat.leb 0 r = true /\ PrimFloat.leb r 1 = true).

End Spec.

(** * Events, tallies and ranges

    The vocabulary of the facts on whole sessions: which kind an event is,
    how many events or records of a kind a list holds, and when the scores
    of a store or the trust values of the adjuster lie in [0,1]. *)

(** ** Kinds of events *)

Definition isLinkDisconnect (ev : Event) : bool :=
match ev with
| LinkDisconnect _ => true
| _ => false
end.

Definition isLinkIdentify (ev : Event) : bool :=
match ev with
| LinkIdentify _ _ _ => true
| _ => false
end.

Definition isTxBegin (ev : Event) : bool :=
match ev with
| TxBegin _ _ => true
| _ => false
end.

Definition isTxReset (ev : Event) : bool :=
match ev with
| TxReset _ _ => true
| _ => false
end.

Definition isTxMail (ev : Event) : bool :=
match ev with
| TxMail _ _ _ _ => true
| _ => false
end.

Definition isTxMailFail (ev : Event) : bool :=
match ev with
| TxMail _ _ r _ => negb (String.eqb r "ok")
| _ => false
end.

Definition isTxRcpt (ev : Event) : bool :=
match ev with
| TxRcpt _ _ _ _ => true
| _ => false
end.

Definition isTxRcptFail (ev : Event) : bool :=
match ev with
| TxRcpt _ _ r _ => negb (String.eqb r "ok")
| _ => false
end.

Definition isTxData (ev : Event) : bool :=
match ev with
| TxData _ _ _ => true
| _ => false
end.

Definition isTxCommit (ev : Event) : bool :=
match ev with
| TxCommit _ _ _ => true
| _ => false
end.

Definition isTxRollback (ev : Event) : bool :=
match ev with
| TxRollback _ _ => true
| _ => false
end.

(** An authentication counts as successful when its result is ["ok"],
    as failed otherwise: the test of both link-auth handlers. *)
Definition isAuthOk (ev : Event) : bool :=
match ev with
| LinkAuth _ r _ => String.eqb r "ok"
| _ => false
end.

Definition isAuthFail (ev : Event) : bool :=
match ev with
| LinkAuth _ r _ => negb (String.eqb r "ok")
| _ => false
end.

(** An event between the connect and the disconnect of a session. *)
Definition withinSession (ev : Event) : bool :=
negb (isLinkConnect ev) && negb (isLinkDisconnect ev).

(** The HELO name a session holds after the events [evs], when it held [h]
    before: the lower-cased name of the last identify. *)
Fixpoint lastHelo {HS : Strings} (evs : list Event) (h : string) : string :=
match evs with
| [] => h
| LinkIdentify _ _ name :: evs => lastHelo evs (ToLower name)
| _ :: evs => lastHelo evs h
end.

(** ** Tallies

    The number of elements of a list that satisfy [p], and the sum of a
    field over a list, as unbounded integers. *)
Fixpoint countZ {A : Type} (p : A -> bool) (l : list A) : Z :=
match l with
| [] => 0
| x :: l => (if p x then 1 else 0) + countZ p l
end.

Fixpoint sumZ {A : Type} (f : A -> Z) (l : list A) : Z :=
match l with
| [] => 0
| x :: l => f x + sumZ f l
end.

(** The recipients of a transaction, whatever their outcome. *)
Definition rcptTotal (tx : Historical.Transaction) : Z :=
Historical.rcptToOK tx + Historical.rcptToTempfail tx + Historical.rcptToPermfail tx.

(** What [summarizeSession] counts as a rollback. *)
Definition notCommitted (tx : Historical.Transaction) : bool := negb (Historical.committed tx).

(** ** Ranges *)

Definition unitQ (x : Q) : Prop := (0 <= x <= 1)%Q.

(** The order on flags: [false] below [true]. *)
Definition leb_bool (a b : bool) : Prop := a = true -> b = true.

(** No key of a store holds the empty sequence. *)
Definition nonEmptyEntries {F : Type} (store : gmap string (list (Historical.Scoring F))) : Prop :=
forall k l, store !! k = Some l -> l <> [].

(** Every score a store holds lies in [0,1]. *)
Definition scoresInUnit (store : gmap string (list (Historical.Scoring Q))) : Prop :=
forall k l, store !! k = Some l -> Forall (fun s => unitQ (Historical.Score s)) l.

(** Every entry of a trust table, every table of the adjuster and every
    trust value of a session lies in [0,1]. *)
Definition tableInUnit (m : gmap string Q) : Prop := forall k v, m !! k = Some v -> unitQ v.

Definition tablesInUnit (r : Incremental.Reputation Q) : Prop :=
tableInUnit (Incremental.ipAddress r) /\ tableInUnit (Incremental.rdns r)
/\ tableInUnit (Incremental.hostname r).

Definition sessionInUnit (s : Incremental.SessionData Q) : Prop :=
unitQ (Incremental.overallReputation s) /\ unitQ (Incremental.ipReputation s)
/\ unitQ (Incremental.rdnsReputation s) /\ unitQ (Incremental.heloReputation s).

(** * Facts *)

(** ** Integers *)

Lemma wrap_in_int (z : Z) : in_int z -> wrap z = z.
Proof.
  unfold in_int, minInt, maxInt, wrap. intros Hz.
  rewrite Z.mod_small by lia. lia.
Qed.

(** ** Exact arithmetic *)

Lemma Qltb_true (x y : Q) : Qltb x y = true <-> (x < y)%Q.
Proof.
  unfold Qltb. rewrite negb_true_iff. split.
  - intros Hb. apply Qnot_le_lt. intros Hle. apply Qle_bool_iff in Hle. congruence.
  - intros Hlt. destruct (Qle_bool y x) eqn:Hb; [|reflexivity].
    apply Qle_bool_iff in Hb. exfalso. apply (Qlt_not_le _ _ Hlt Hb).
Qed.

Lemma Qltb_false (x y : Q) : Qltb x y = false <-> (y <= x)%Q.
Proof.
  unfold Qltb. rewrite negb_false_iff. apply Qle_bool_iff.
Qed.

(** Case analysis on every comparison of the goal. *)
Ltac q_case a b :=
  let Hc := fresh "Hc" in
  destruct (Qltb a b) eqn:Hc; [apply Qltb_true in Hc | apply Qltb_false in Hc].

Ltac q_cases :=
  repeat match goal with
  | H : context [Qltb ?a ?b] |- _ => q_case a b
  | |- context [Qltb ?a ?b] => q_case a b
  end.

Lemma clamp01_spec (x : Q) :
  (f_Max (f_lit 0) (f_Min (f_lit 1) x) == Spec.clamp01 x)%Q.
Proof.
  unfold Spec.clamp01. cbn [f_Max f_Min f_lit Q_Float64].
  destruct (Q.min_spec 1 x) as [[H1 ->]|[H1 ->]];
  [destruct (Q.max_spec 0 1) as [[H2 ->]|[H2 ->]] | destruct (Q.max_spec 0 x) as [[H2 ->]|[H2 ->]]];
  q_cases; lra.
Qed.

Lemma clamp01_range (x : Q) : (0 <= Spec.clamp01 x <= 1)%Q.
Proof.
  unfold Spec.clamp01.
  destruct (Q.min_spec 1 x) as [[H1 ->]|[H1 ->]];
  [destruct (Q.max_spec 0 1) as [[H2 ->]|[H2 ->]] | destruct (Q.max_spec 0 x) as [[H2 ->]|[H2 ->]]];
  lra.
Qed.

#[export] Instance clamp01_proper : Proper (Qeq ==> Qeq) Spec.clamp01.
Proof. intros x y Hxy. unfold Spec.clamp01. now rewrite Hxy. Qed.

Lemma scoreTransaction_exact (tx : Historical.Transaction) :
  in_int (Historical.rcptToTempfail tx + Historical.rcptToPermfail tx) ->
  (Historical.scoreTransaction tx == Spec.txScore tx)%Q.
Proof.
  intros Hsum. unfold Historical.scoreTransaction, Spec.txScore.
  rewrite clamp01_spec. apply clamp01_proper.
  unfold int_add. rewrite (wrap_in_int _ Hsum).
  unfold Historical.validSenderWeight, Historical.dataWeight, Historical.commitWeight,
    Historical.successfulRecipientWeight, Historical.failedRecipientPenalty.
  cbn [f_add f_sub f_mul f_lit f_of_int Q_Float64].
  rewrite inject_Z_plus.
  destruct (Historical.mailFromOK tx), (Historical.sawData tx), (Historical.committed tx);
    unfold Spec.weight; lra.
Qed.

Lemma fold_left_sum {A : Type} (f : A -> Q) (l : list A) (a : Q) :
  (fold_left (fun acc x => f_add acc (f x)) l a == a + Spec.sum (map f l))%Q.
Proof.
  revert a. induction l as [|x l IH]; intros a; cbn [fold_left map Spec.sum fold_right].
  - lra.
  - rewrite IH. cbn [f_add Q_Float64]. fold (Spec.sum (map f l)). lra.
Qed.

(** The base of [scoreSession]: the mean of the transaction scores. *)
Lemma transactions_mean (txs : list Historical.Transaction) :
  ((if 0 <? len txs then
      f_add (f_lit 0)
        (f_div (fold_left (fun acc tx => f_add acc (Historical.scoreTransaction tx)) txs (f_lit 0))
               (f_of_int (len txs)))
    else f_lit 0)
   == Spec.meanOrZero (map Historical.scoreTransaction txs))%Q.
Proof.
  destruct txs as [|tx txs].
  - reflexivity.
  - replace (0 <? len (tx :: txs)) with true
      by (symmetry; apply Z.ltb_lt; unfold len; cbn [length]; lia).
    rewrite fold_left_sum. cbn [map Spec.meanOrZero]. unfold Spec.mean, len.
    cbn [map length]. rewrite length_map.
    cbn [f_add f_div f_lit f_of_int Q_Float64].
    rewrite !Qplus_0_l. reflexivity.
Qed.

Lemma scoreSession_exact (s : Historical.SessionData) :
  (Historical.scoreSession s == Spec.sessionScore s)%Q.
Proof.
  unfold Historical.scoreSession, Spec.sessionScore.
  rewrite clamp01_spec. apply clamp01_proper.
  cbv zeta.
  pose proof (transactions_mean (Historical.transactions s)) as Hbase.
  revert Hbase.
  generalize (Spec.meanOrZero (map Historical.scoreTransaction (Historical.transactions s))).
  match goal with
  | |- forall q, (?base == q)%Q -> _ => generalize base
  end.
  intros x y Hxy.
  unfold Historical.authSuccessWeight, Historical.authFailurePenalty, Historical.tlsWeight,
    Historical.rdnsWeight, Historical.fcrdnsWeight, Historical.resetPenalty.
  cbn [f_add f_sub f_mul f_lit f_of_int Q_Float64].
  destruct (Historical.cmdTLS s), (Historical.rdns s), (Historical.fcrdns s);
    unfold Spec.weight; lra.
Qed.

(** ** The transaction scorer *)

(** C1.  In exact arithmetic the score of every transaction whose
    failed-recipient count fits an [int] is the clamped sum of the
    specification (0.4 sender, 0.3 data, 0.3 commit, 0.1 per accepted
    recipient, minus 0.2 per temp- or perm-failed recipient) and lies in
    [0,1]; a transaction with accepted sender, data, commit, 2 accepted and
    0 failed recipients scores 1, exactly 1.0 in binary64 too. *)
Theorem scoreTransaction_spec :
  (forall tx : Historical.Transaction,
     in_int (Historical.rcptToTempfail tx + Historical.rcptToPermfail tx) ->
     (Historical.scoreTransaction tx == Spec.txScore tx)%Q /\
     (0 <= Historical.scoreTransaction tx <= 1)%Q) /\
  (forall bt et : Time,
     (Historical.scoreTransaction (Historical.mkTransaction bt et true 2 0 0 true true) == 1)%Q) /\
  (forall bt et : Time,
     Historical.scoreTransaction (F:=float)
       (Historical.mkTransaction bt et true 2 0 0 true true) = 1%float).
Proof.
  split; [|split].
  - intros tx Hsum. pose proof (scoreTransaction_exact tx Hsum) as Heq. split; [exact Heq|].
    rewrite Heq. apply clamp01_range.
  - intros bt et. rewrite scoreTransaction_exact by (cbn; unfold in_int, minInt, maxInt; lia).
    vm_compute. reflexivity.
  - intros bt et. vm_compute. reflexivity.
Qed.

Lemma scoreTransaction_spec_witness :
  let tx := Historical.mkTransaction 0 0 true 0 1 0 false false in
  in_int (Historical.rcptToTempfail tx + Historical.rcptToPermfail tx) /\
  (Historical.scoreTransaction tx == Spec.txScore tx)%Q /\
  (0 <= Historical.scoreTransaction tx <= 1)%Q.
Proof.
  intros tx.
  assert (Hsum : in_int (Historical.rcptToTempfail tx + Historical.rcptToPermfail tx))
    by (vm_compute; split; discriminate).
  exact (conj Hsum (proj1 scoreTransaction_spec tx Hsum)).
Defined.

(** ** The session scorer *)

(** C2.  In exact arithmetic the score of every session is the mean of
    its transactions' scores (0 without transactions) plus 0.1 per
    authentication success, minus 0.1 per failure, plus 0.2 for TLS, 0.1
    for reverse DNS, 0.1 for forward-confirmed reverse DNS, minus 0.05 per
    reset, clamped to [0,1]. *)
Theorem scoreSession_spec (s : Historical.SessionData) :
  (Historical.scoreSession s == Spec.sessionScore s)%Q /\
  (0 <= Historical.scoreSession s <= 1)%Q.
Proof.
  pose proof (scoreSession_exact s) as Heq. split; [exact Heq|].
  rewrite Heq. apply clamp01_range.
Qed.

(** ** The prior trust computed at connect *)

Section PriorTrust.

Context {F : Type} `{Float64 F}.

Lemma aggregate_fold_Score (l : list (Historical.Scoring F)) (a : Historical.Scoring F) :
  Historical.Score (fold_left Historical.aggregateStep l a)
  = fold_left f_add (map Historical.Score l) (Historical.Score a).
Proof.
  revert a. induction l as [|s l IH]; intros a; [reflexivity|].
  cbn [fold_left map]. rewrite IH. reflexivity.
Qed.

Lemma aggregateScoring_Score (l : list (Historical.Scoring F)) :
  l <> [] ->
  Historical.Score (Historical.aggregateScoring l) = Spec.meanF (map Historical.Score l).
Proof.
  intros Hl. unfold Historical.aggregateScoring, Spec.meanF.
  destruct (len l =? 0) eqn:Hlen.
  - apply Z.eqb_eq in Hlen. unfold len in Hlen. destruct l; [congruence|cbn in Hlen; lia].
  - cbn [Historical.set_Score Historical.Score]. rewrite aggregate_fold_Score.
    unfold len. rewrite length_map. reflexivity.
Qed.

(** The score that [linkConnectCb] computes and prints. *)
Lemma linkConnectCb_score (st : Historical.State F) (t : Time) (r f : string)
    (ip : IP) (port : Z) (dest : Addr) :
  Historical.linkConnectCb t r f (TCPAddr ip port) dest st
  = Ok (Historical.Fprintf
          (Historical.LogConnect (IP_String ip)
             (Spec.priorTrust (Historical.ipScoring st) (IP_String ip)))
          (Historical.set_session
             (Historical.set_fcrdns (String.eqb f "ok" || String.eqb f "pass")
                (Historical.set_rdns (negb (String.eqb r "<unknown>"))
                   (Historical.set_addr ip
                      (Historical.set_connectTime t
                         (Historical.set_transactions [] (Historical.session st))))))
             st)).
Proof.
  unfold Historical.linkConnectCb. cbn [asTCPAddr].
  cbn [Historical.set_session Historical.ipScoring Historical.addr Historical.set_fcrdns
       Historical.set_rdns Historical.set_addr].
  do 2 f_equal. unfold Spec.priorTrust.
  destruct (Historical.ipScoring st !! IP_String ip) as [l|] eqn:Hl;
    cbv [default from_option id].
  - rewrite bool_decide_eq_true_2 by eauto. cbn [negb orb].
    unfold len.
    destruct (Z.of_nat (length l) <? 5) eqn:H5.
    + apply Z.ltb_lt in H5. replace (length l <? 5)%nat with true; [reflexivity|].
      symmetry. apply Nat.ltb_lt. lia.
    + apply Z.ltb_ge in H5. replace (length l <? 5)%nat with false.
      * f_equal. apply aggregateScoring_Score. intros ->. cbn in H5. lia.
      * symmetry. apply Nat.ltb_ge. lia.
  - rewrite bool_decide_eq_false_2 by (intros [? ?]; congruence). reflexivity.
Qed.

End PriorTrust.

Lemma meanF_exact (l : list Q) : (Spec.meanF l == Spec.mean l)%Q.
Proof.
  unfold Spec.meanF, Spec.mean, len.
  pose proof (fold_left_sum (fun x => x) l (f_lit 0)) as Hs. rewrite map_id in Hs.
  cbn [f_add f_div f_lit f_of_int Q_Float64] in *.
  rewrite Hs, Qplus_0_l. reflexivity.
Qed.

(** C3.  The score that the connect handler of the historical engine
    computes for the connecting address is priorTrust of the stored
    summaries: 0.5 when fewer than 5 summaries are stored (whatever their
    values), otherwise the mean of all stored scores, which in exact
    arithmetic is the arithmetic mean; five summaries scored
    0.2, 0.4, 0.6, 0.8, 1.0 give 0.6, in binary64 too. *)
Theorem priorTrust_spec :
  (forall (F : Type) (HF : Float64 F) (st : Historical.State F) (t : Time) (r f : string)
          (ip : IP) (port : Z) (dest : Addr),
     exists st',
       Historical.linkConnectCb t r f (TCPAddr ip port) dest st = Ok st' /\
       Historical.stderr st'
       = Historical.stderr st
         ++ [Historical.LogConnect (IP_String ip)
               (Spec.priorTrust (Historical.ipScoring st) (IP_String ip))]) /\
  (forall (F : Type) (HF : Float64 F) (store : gmap string (list (Historical.Scoring F)))
          (key : string),
     (forall l, store !! key = Some l -> (length l < 5)%nat) ->
     Spec.priorTrust store key = f_lit 0.5) /\
  (forall (store : gmap string (list (Historical.Scoring Q))) (key : string)
          (l : list (Historical.Scoring Q)),
     store !! key = Some l -> (5 <= length l)%nat ->
     (Spec.priorTrust store key == Spec.mean (map Historical.Score l))%Q) /\
  (forall (store : gmap string (list (Historical.Scoring Q))) (key : string)
          (l : list (Historical.Scoring Q)),
     store !! key = Some l ->
     Forall2 Qeq (map Historical.Score l) [0.2; 0.4; 0.6; 0.8; 1.0]%Q ->
     (Spec.priorTrust store key == 0.6)%Q) /\
  (forall (store : gmap string (list (Historical.Scoring float))) (key : string)
          (l : list (Historical.Scoring float)),
     store !! key = Some l ->
     map Historical.Score l = map (f_lit (F:=float)) [0.2; 0.4; 0.6; 0.8; 1.0]%Q ->
     Spec.priorTrust store key = f_lit 0.6).
Proof.
  split; [|split; [|split; [|split]]].
  - intros F HF st t r f ip port dest. eexists. split; [apply linkConnectCb_score|].
    reflexivity.
  - intros F HF store key Hshort. unfold Spec.priorTrust.
    destruct (store !! key) as [l|]; [|reflexivity].
    specialize (Hshort l eq_refl). apply Nat.ltb_lt in Hshort. now rewrite Hshort.
  - intros store key l Hl Hlen. unfold Spec.priorTrust. rewrite Hl.
    replace (length l <? 5)%nat with false by (symmetry; apply Nat.ltb_ge; lia).
    apply meanF_exact.
  - intros store key l Hl Hscores. unfold Spec.priorTrust. rewrite Hl.
    pose proof (Forall2_length _ _ _ Hscores) as Hlen. rewrite length_map in Hlen.
    rewrite Hlen. cbn [length Nat.ltb Nat.leb].
    rewrite meanF_exact. unfold Spec.mean. rewrite length_map, Hlen.
    destruct (map Historical.Score l) as [|a [|b [|c [|d [|e [|? ?]]]]]];
      try (apply Forall2_length in Hscores; discriminate Hscores).
    repeat match goal with
    | Hf : Forall2 _ (_ :: _) (_ :: _) |- _ =>
        apply Forall2_cons_1 in Hf; destruct Hf as [? Hf]
    end.
    unfold Spec.sum. cbn [fold_right length Z.of_nat Pos.of_succ_nat Pos.succ].
    repeat match goal with Hq : (_ == _)%Q |- _ => rewrite Hq; clear Hq end. reflexivity.
  - intros store key l Hl Hscores. unfold Spec.priorTrust. rewrite Hl.
    assert (Hlen : length l = 5%nat)
      by (rewrite <- (length_map Historical.Score), Hscores; reflexivity).
    rewrite Hlen. cbn [length Nat.ltb Nat.leb].
    unfold Spec.meanF, len. rewrite length_map, Hlen, Hscores. vm_compute. reflexivity.
Qed.

Lemma priorTrust_spec_witness :
  let l : list (Historical.Scoring float) :=
    map (fun q => Historical.mkScoring 0 (f_lit q) 0 0 0 0 0 0 0) [0.2; 0.4; 0.6; 0.8; 1.0]%Q in
  let store : gmap string (list (Historical.Scoring float)) := {[ "192.0.2.1" := l ]} in
  store !! "192.0.2.1" = Some l /\
  map Historical.Score l = map (f_lit (F:=float)) [0.2; 0.4; 0.6; 0.8; 1.0]%Q /\
  Spec.priorTrust store "192.0.2.1" = f_lit 0.6.
Proof.
  intros l store.
  assert (Hl : store !! "192.0.2.1" = Some l) by apply lookup_singleton_eq.
  assert (Hs : map Historical.Score l = map (f_lit (F:=float)) [0.2; 0.4; 0.6; 0.8; 1.0]%Q)
    by reflexivity.
  exact (conj Hl (conj Hs
           (proj2 (proj2 (proj2 (proj2 priorTrust_spec))) store "192.0.2.1" l Hl Hs))).
Defined.

(** ** The maintenance sweep *)

Section Sweep.

Context {F : Type} `{Float64 F}.

Lemma index_last {A : Type} (l : list A) :
  l <> [] -> exists a, index l (len l - 1) = Ok a /\ last l = Some a.
Proof.
  intros Hl. unfold index, len.
  assert (Hpos : (0 < length l)%nat) by (destruct l; [congruence|cbn; lia]).
  replace ((0 <=? Z.of_nat (length l) - 1) && (Z.of_nat (length l) - 1 <? Z.of_nat (length l)))
    with true by (symmetry; apply andb_true_iff; split; [apply Z.leb_le|apply Z.ltb_lt]; lia).
  replace (Z.to_nat (Z.of_nat (length l) - 1)) with (pred (length l)) by lia.
  rewrite <- last_lookup.
  destruct (last l) as [a|] eqn:Hlast; [eauto|].
  apply last_None in Hlast. congruence.
Qed.

(** One visit of the loop body, on a key that still holds its entry. *)
Lemma sweepVisit_lookup (now : string -> Time) (st : Historical.State F) (ip : string)
    (scoring : list (Historical.Scoring F)) :
  scoring <> [] ->
  Historical.ipScoring st !! ip = Some scoring ->
  exists st',
    Historical.sweepVisit now (Ok st) (ip, scoring) = Ok st' /\
    Historical.session st' = Historical.session st /\
    forall k,
      Historical.ipScoring st' !! k
      = if decide (ip = k) then Spec.sweepEntry (now ip) scoring
        else Historical.ipScoring st !! k.
Proof.
  intros Hne Hip. unfold Historical.sweepVisit, Spec.sweepEntry.
  cbn [mbind result_bind]. unfold len.
  destruct (100 <? Z.of_nat (length scoring)) eqn:Hbig.
  - apply Z.ltb_lt in Hbig.
    replace (100 <? length scoring)%nat with true by (symmetry; apply Nat.ltb_lt; lia).
    eexists. split; [reflexivity|]. split; [reflexivity|]. intros k.
    cbn [Historical.set_ipScoring Historical.ipScoring].
    rewrite lookup_insert. destruct (decide (ip = k)); [|reflexivity].
    do 2 f_equal. lia.
  - apply Z.ltb_ge in Hbig.
    replace (100 <? length scoring)%nat with false by (symmetry; apply Nat.ltb_ge; lia).
    destruct (index_last scoring Hne) as (newest & Hidx & Hlast).
    unfold len in Hidx. rewrite Hidx, Hlast. cbn [mbind result_bind].
    unfold Time_Before, Time_Add.
    change (5 * 24 * Hour) with Spec.fiveDays.
    destruct (Historical.Timestamp newest + Spec.fiveDays <? now ip).
    + eexists. split; [reflexivity|]. split; [reflexivity|]. intros k.
      cbn [Historical.set_ipScoring Historical.ipScoring Historical.Fprintf].
      rewrite lookup_delete. destruct (decide (ip = k)); reflexivity.
    + eexists. split; [reflexivity|]. split; [reflexivity|]. intros k.
      destruct (decide (ip = k)) as [<-|]; [exact Hip|reflexivity].
Qed.

(** The loop over a list of entries with distinct keys. *)
Lemma sweep_fold (now : string -> Time) (es : list (string * list (Historical.Scoring F))) :
  NoDup es.*1 ->
  forall st : Historical.State F,
    (forall k l, (k, l) ∈ es -> l <> [] /\ Historical.ipScoring st !! k = Some l) ->
    exists st',
      fold_left (Historical.sweepVisit now) es (Ok st) = Ok st' /\
      Historical.session st' = Historical.session st /\
      forall k,
        Historical.ipScoring st' !! k
        = match (list_to_map es : gmap string (list (Historical.Scoring F))) !! k with
          | Some l => Spec.sweepEntry (now k) l
          | None => Historical.ipScoring st !! k
          end.
Proof.
  induction es as [|[ip scoring] es IH]; intros Hnd st Hes.
  - exists st. split; [reflexivity|]. split; [reflexivity|]. intros k.
    cbn [list_to_map foldr]. now rewrite lookup_empty.
  - cbn [fmap list_fmap fst] in Hnd. apply NoDup_cons in Hnd as [Hnotin Hnd].
    destruct (Hes ip scoring) as [Hne Hip]; [left|].
    destruct (sweepVisit_lookup now st ip scoring Hne Hip) as (st1 & Hvisit & Hsess1 & Hmap1).
    cbn [fold_left]. rewrite Hvisit.
    destruct (IH Hnd st1) as (st' & Hfold & Hsess & Hmap).
    { intros k l Hkl. destruct (Hes k l) as [Hl Hk]; [now right|]. split; [exact Hl|].
      rewrite Hmap1. destruct (decide (ip = k)) as [<-|]; [|exact Hk].
      exfalso. apply Hnotin. apply list_elem_of_fmap. exists (ip, l). split; [reflexivity|exact Hkl]. }
    exists st'. split; [exact Hfold|]. split; [congruence|]. intros k.
    rewrite Hmap. cbn [list_to_map foldr uncurry]. cbn [fst snd].
    rewrite lookup_insert. destruct (decide (ip = k)) as [<-|Hk].
    + rewrite (not_elem_of_list_to_map_1 es ip Hnotin). rewrite Hmap1.
      destruct (decide (ip = ip)); [reflexivity|congruence].
    + destruct (list_to_map es !! k); [reflexivity|].
      rewrite Hmap1. destruct (decide (ip = k)); [congruence|reflexivity].
Qed.

Lemma sweep_lookup (now : string -> Time) (st : Historical.State F) :
  (forall k l, Historical.ipScoring st !! k = Some l -> l <> []) ->
  exists st',
    Historical.sweep now st = Ok st' /\
    Historical.session st' = Historical.session st /\
    forall k,
      Historical.ipScoring st' !! k
      = Historical.ipScoring st !! k ≫= Spec.sweepEntry (now k).
Proof.
  intros Hne. unfold Historical.sweep.
  destruct (sweep_fold now (map_to_list (Historical.ipScoring st))
              (NoDup_fst_map_to_list _) st) as (st' & Hfold & Hsess & Hmap).
  { intros k l Hkl. apply elem_of_map_to_list in Hkl. split; [eapply Hne|]; eassumption. }
  exists st'. split; [exact Hfold|]. split; [exact Hsess|]. intros k.
  rewrite Hmap, list_to_map_to_list.
  destruct (Historical.ipScoring st !! k); reflexivity.
Qed.

End Sweep.

(** Appending a summary at disconnect never leaves an empty sequence
    under a key, and no other handler writes to the store. *)
Lemma dispatch_nonempty {F : Type} `{Float64 F} (now : Time) (ev : Event)
    (st st' : Historical.State F) :
  (forall k l, Historical.ipScoring st !! k = Some l -> l <> []) ->
  Historical.dispatch now ev st = Ok st' ->
  forall k l, Historical.ipScoring st' !! k = Some l -> l <> [].
Proof.
  intros Hinv Hstep.
  assert (Hsame : Historical.ipScoring st' = Historical.ipScoring st ->
                  forall k l, Historical.ipScoring st' !! k = Some l -> l <> [])
    by (intros ->; exact Hinv).
  destruct ev; cbn [Historical.dispatch] in Hstep;
    try (unfold Historical.linkIdentifyCb, Historical.linkAuthCb, Historical.linkTLSCb,
           Historical.txResetCb, Historical.txBeginCb, Historical.txMailCb,
           Historical.txRcptCb, Historical.txDataCb, Historical.txCommitCb,
           Historical.txRollbackCb, Historical.withLastTx in Hstep;
         destruct (Historical.skip (Historical.session st));
         [injection Hstep as <-; exact Hinv|];
         cbn [mbind result_bind] in Hstep;
         repeat match type of Hstep with
                | context [index ?l ?i] => destruct (index l i); cbn [mbind result_bind] in Hstep
                end;
         try discriminate Hstep;
         injection Hstep as <-; apply Hsame; reflexivity).
  - unfold Historical.linkConnectCb in Hstep.
    destruct (asTCPAddr src); injection Hstep as <-; apply Hsame; reflexivity.
  - unfold Historical.linkDisconnectCb in Hstep.
    destruct (Historical.skip (Historical.session st)); [injection Hstep as <-; exact Hinv|].
    injection Hstep as <-. intros k l.
    cbn [Historical.Fprintf Historical.set_ipScoring Historical.ipScoring Historical.set_session].
    rewrite lookup_insert. case_decide.
    + intros [= <-]. intros Happ. apply app_eq_nil in Happ as [_ Happ]. discriminate Happ.
    + apply Hinv.
Qed.

(** C4.  One sweep pass over a store whose sequences are non-empty (all
    that appending summaries produces) completes, and for every key: a
    sequence of more than 100 entries is cut to its last 100 entries in
    their order, whatever their timestamps; a sequence of at most 100
    entries whose newest entry is more than 5 days before the clock
    reading is removed with its key, and is kept as it is otherwise. *)
Theorem sweep_spec (F : Type) (HF : Float64 F) (now : string -> Time)
    (st : Historical.State F) :
  (forall k l, Historical.ipScoring st !! k = Some l -> l <> []) ->
  exists st',
    Historical.sweep now st = Ok st' /\
    forall (key : string) (l : list (Historical.Scoring F)),
      Historical.ipScoring st !! key = Some l ->
      ((100 < length l)%nat ->
         exists old kept,
           l = old ++ kept /\ length kept = 100%nat /\
           Historical.ipScoring st' !! key = Some kept) /\
      ((length l <= 100)%nat ->
         forall newest, last l = Some newest ->
           (Historical.Timestamp newest + Spec.fiveDays < now key ->
              Historical.ipScoring st' !! key = None) /\
           (now key <= Historical.Timestamp newest + Spec.fiveDays ->
              Historical.ipScoring st' !! key = Some l)).
Proof.
  intros Hne. destruct (sweep_lookup now st Hne) as (st' & Hsweep & _ & Hmap).
  exists st'. split; [exact Hsweep|]. intros key l Hkey.
  specialize (Hmap key). rewrite Hkey in Hmap. cbn [mbind option_bind] in Hmap.
  unfold Spec.sweepEntry in Hmap. split.
  - intros Hbig. replace (100 <? length l)%nat with true in Hmap
      by (symmetry; apply Nat.ltb_lt; lia).
    exists (take (length l - 100) l), (drop (length l - 100) l).
    split; [symmetry; apply take_drop|]. split; [rewrite length_drop; lia|exact Hmap].
  - intros Hsmall newest Hlast.
    replace (100 <? length l)%nat with false in Hmap by (symmetry; apply Nat.ltb_ge; lia).
    rewrite Hlast in Hmap. split; intros Hts.
    + replace (Historical.Timestamp newest + Spec.fiveDays <? now key) with true in Hmap
        by (symmetry; apply Z.ltb_lt; lia).
      exact Hmap.
    + replace (Historical.Timestamp newest + Spec.fiveDays <? now key) with false in Hmap
        by (symmetry; apply Z.ltb_ge; lia).
      exact Hmap.
Qed.

Lemma sweep_spec_witness :
  let s : Historical.Scoring Q := Historical.mkScoring 0 0.5%Q 0 0 0 0 0 0 0 in
  let st : Historical.State Q :=
    Historical.mkState Historical.zeroSessionData {[ "192.0.2.1" := [s] ]} [] in
  (forall k l, Historical.ipScoring st !! k = Some l -> l <> []) /\
  exists st',
    Historical.sweep (fun _ => 1000000000000000) st = Ok st' /\
    forall (key : string) (l : list (Historical.Scoring Q)),
      Historical.ipScoring st !! key = Some l ->
      ((100 < length l)%nat ->
         exists old kept,
           l = old ++ kept /\ length kept = 100%nat /\
           Historical.ipScoring st' !! key = Some kept) /\
      ((length l <= 100)%nat ->
         forall newest, last l = Some newest ->
           (Historical.Timestamp newest + Spec.fiveDays < 1000000000000000 ->
              Historical.ipScoring st' !! key = None) /\
           (1000000000000000 <= Historical.Timestamp newest + Spec.fiveDays ->
              Historical.ipScoring st' !! key = Some l)).
Proof.
  intros s st.
  assert (Hne : forall k l, Historical.ipScoring st !! k = Some l -> l <> []).
  { intros k l Hk. unfold st in Hk. cbn [Historical.ipScoring] in Hk.
    apply lookup_singleton_Some in Hk as [_ <-]. discriminate. }
  exact (conj Hne (sweep_spec Q _ (fun _ => 1000000000000000) st Hne)).
Defined.

(** ** Rewards and penalties *)

Lemma factor_listed (c : string) (f : Q) :
  Incremental.degradationFactors !! c = Some f ->
  (c, f) ∈ [("IP", 1%Q); ("rDNS", 0.8%Q); ("heloname", 0.6%Q); ("mailFrom", 0.4%Q);
            ("mailDomain", 0.2%Q); ("recipient", 0.5%Q)].
Proof.
  unfold Incremental.degradationFactors. intros Hc.
  apply elem_of_list_to_map_2 in Hc. exact Hc.
Qed.

Lemma factor_range (c : string) (f : Q) :
  Incremental.degradationFactors !! c = Some f -> (0.2 <= f <= 1)%Q.
Proof.
  intros Hc. apply factor_listed in Hc.
  repeat (apply elem_of_cons in Hc as [Hc|Hc]; [injection Hc as -> ->; lra|]).
  apply elem_of_nil in Hc. contradiction.
Qed.

Lemma at_key_Some {F : Type} `{Float64 F} (m : gmap string F) (c : string) (f : F) :
  m !! c = Some f -> Incremental.at_key m c = f.
Proof. intros Hc. unfold Incremental.at_key. now rewrite Hc. Qed.

Lemma at_key_None {F : Type} `{Float64 F} (m : gmap string F) (c : string) :
  m !! c = None -> Incremental.at_key m c = f_lit 0.
Proof. intros Hc. unfold Incremental.at_key. now rewrite Hc. Qed.

(** [clamp] into [0,1], in exact arithmetic. *)
Lemma clamp_cases (x : Q) :
  let y := Incremental.clamp x (f_lit 0) (f_lit 1) in
  ((x < 0 /\ y == 0) \/ (1 < x /\ y == 1) \/ (0 <= x <= 1 /\ y == x))%Q.
Proof.
  unfold Incremental.clamp. cbn [f_ltb f_lit Q_Float64]. q_cases; lra.
Qed.

Lemma applyReward_cases (c : string) (f v : Q) :
  Incremental.degradationFactors !! c = Some f ->
  let y := Incremental.applyReward c v in
  ((v + 0.05 * f < 0 /\ y == 0) \/ (1 < v + 0.05 * f /\ y == 1)
   \/ (0 <= v + 0.05 * f <= 1 /\ y == v + 0.05 * f))%Q.
Proof.
  intros Hf. unfold Incremental.applyReward, Incremental.applyPenalty,
    Incremental.baseReward, Incremental.basePenalty.
  rewrite (at_key_Some _ _ f Hf). cbn [f_add f_sub f_mul f_lit Q_Float64].
  apply clamp_cases.
Qed.

Lemma applyPenalty_cases (c : string) (f v : Q) :
  Incremental.degradationFactors !! c = Some f ->
  let y := Incremental.applyPenalty c v in
  ((v - 0.1 * f < 0 /\ y == 0) \/ (1 < v - 0.1 * f /\ y == 1)
   \/ (0 <= v - 0.1 * f <= 1 /\ y == v - 0.1 * f))%Q.
Proof.
  intros Hf. unfold Incremental.applyReward, Incremental.applyPenalty,
    Incremental.baseReward, Incremental.basePenalty.
  rewrite (at_key_Some _ _ f Hf). cbn [f_add f_sub f_mul f_lit Q_Float64].
  apply clamp_cases.
Qed.

(** A reward followed by a penalty of the same class never ends above
    the starting value. *)
Lemma penalize_reward_le (c : string) (f v : Q) :
  Incremental.degradationFactors !! c = Some f ->
  (0 <= v <= 1)%Q ->
  (Incremental.applyPenalty c (Incremental.applyReward c v) <= v)%Q.
Proof.
  intros Hf Hv. pose proof (factor_range c f Hf) as Hrange.
  pose proof (applyReward_cases c f v Hf) as Hr.
  pose proof (applyPenalty_cases c f (Incremental.applyReward c v) Hf) as Hp.
  cbv zeta in Hr, Hp.
  set (r := Incremental.applyReward c v) in *.
  set (p := Incremental.applyPenalty c r) in *.
  lra.
Qed.

(** C7, as the code has it.  In exact arithmetic, for every class with a
    listed degradation factor and every trust value v in [0,1]: reward and
    penalize stay in [0,1]; reward(c,v) >= v, strictly unless v is 1;
    penalize(c,v) <= v, strictly unless v is 0; and
    penalize(c, reward(c,v)) <= v. *)
Theorem reward_penalize_laws (c : string) (f v : Q) :
  Incremental.degradationFactors !! c = Some f ->
  (0 <= v <= 1)%Q ->
  (0 <= Incremental.applyReward c v <= 1)%Q /\
  (0 <= Incremental.applyPenalty c v <= 1)%Q /\
  (v <= Incremental.applyReward c v)%Q /\
  ((v < 1)%Q -> (v < Incremental.applyReward c v)%Q) /\
  (Incremental.applyPenalty c v <= v)%Q /\
  ((0 < v)%Q -> (Incremental.applyPenalty c v < v)%Q) /\
  (Incremental.applyPenalty c (Incremental.applyReward c v) <= v)%Q.
Proof.
  intros Hf Hv. pose proof (factor_range c f Hf) as Hrange.
  pose proof (penalize_reward_le c f v Hf Hv) as Hpr.
  pose proof (applyReward_cases c f v Hf) as Hr.
  pose proof (applyPenalty_cases c f v Hf) as Hp.
  cbv zeta in Hr, Hp.
  set (r := Incremental.applyReward c v) in *.
  set (p := Incremental.applyPenalty c v) in *.
  repeat split; try lra; intros; lra.
Qed.

Lemma reward_penalize_laws_witness :
  Incremental.degradationFactors (F:=Q) !! "rDNS" = Some 0.8%Q /\
  (0 <= 0.5 <= 1)%Q /\
  (0 <= Incremental.applyReward "rDNS" 0.5 <= 1)%Q /\
  (0 <= Incremental.applyPenalty "rDNS" 0.5 <= 1)%Q /\
  (0.5 <= Incremental.applyReward "rDNS" 0.5)%Q /\
  ((0.5 < 1)%Q -> (0.5 < Incremental.applyReward "rDNS" 0.5)%Q) /\
  (Incremental.applyPenalty "rDNS" 0.5 <= 0.5)%Q /\
  ((0 < 0.5)%Q -> (Incremental.applyPenalty "rDNS" 0.5 < 0.5)%Q) /\
  (Incremental.applyPenalty "rDNS" (Incremental.applyReward "rDNS" 0.5) <= 0.5)%Q.
Proof.
  assert (Hf : Incremental.degradationFactors (F:=Q) !! "rDNS" = Some 0.8%Q) by reflexivity.
  assert (Hv : (0 <= 0.5 <= 1)%Q) by (split; discriminate).
  exact (conj Hf (conj Hv (reward_penalize_laws "rDNS" 0.8 0.5 Hf Hv))).
Defined.

(** C7, as the specification words it, fails: no listed class and no
    value in [0,1] make a reward followed by a penalty end above the
    starting value. *)
Lemma penalize_reward_never_above :
  ~ exists (c : string) (f v : Q),
      Incremental.degradationFactors !! c = Some f /\
      (0 <= v <= 1)%Q /\
      (v < Incremental.applyPenalty c (Incremental.applyReward c v))%Q.
Proof.
  intros (c & f & v & Hf & Hv & Habove).
  pose proof (penalize_reward_le c f v Hf Hv) as Hle. lra.
Qed.

(** ** Classes without a degradation factor *)

Lemma applyReward_unlisted (c : string) (v : Q) :
  Incremental.degradationFactors (F:=Q) !! c = None ->
  (0 <= v <= 1)%Q ->
  (Incremental.applyReward c v == v)%Q.
Proof.
  intros Hc Hv. unfold Incremental.applyReward, Incremental.baseReward.
  rewrite (at_key_None _ _ Hc). cbn [f_add f_mul f_lit Q_Float64].
  pose proof (clamp_cases (v + 0.05 * 0)) as Hcl. cbv zeta in Hcl.
  cbn [f_lit Q_Float64] in Hcl. lra.
Qed.

Lemma applyPenalty_unlisted (c : string) (v : Q) :
  Incremental.degradationFactors (F:=Q) !! c = None ->
  (0 <= v <= 1)%Q ->
  (Incremental.applyPenalty c v == v)%Q.
Proof.
  intros Hc Hv. unfold Incremental.applyPenalty, Incremental.basePenalty.
  rewrite (at_key_None _ _ Hc). cbn [f_sub f_mul f_lit Q_Float64].
  pose proof (clamp_cases (v - 0.1 * 0)) as Hcl. cbv zeta in Hcl.
  cbn [f_lit Q_Float64] in Hcl. lra.
Qed.

Lemma FCrDNS_unlisted {F : Type} `{Float64 F} :
  Incremental.degradationFactors (F:=F) !! "FCrDNS" = None.
Proof. reflexivity. Qed.

Lemma clamp_range (x : Q) : (0 <= Incremental.clamp x (f_lit 0) (f_lit 1) <= 1)%Q.
Proof. pose proof (clamp_cases x) as Hcl. cbv zeta in Hcl. lra. Qed.

Lemma applyReward_range (c : string) (v : Q) : (0 <= Incremental.applyReward c v <= 1)%Q.
Proof. apply clamp_range. Qed.

Lemma applyPenalty_range (c : string) (v : Q) : (0 <= Incremental.applyPenalty c v <= 1)%Q.
Proof. apply clamp_range. Qed.

(** What [linkConnectCb] leaves in the session, for a TCP source. *)
Lemma linkConnectCb_TCP {F : Type} `{Float64 F} {HS : Strings} (st : Incremental.State F) (t : Time)
    (r f : string) (ip : IP) (port : Z) (dest : Addr) :
  let ip0 := Incremental.IPAddress (Incremental.reputation st) ip in
  let rdns0 := Incremental.ReverseDNS (Incremental.reputation st) (ToLower r) in
  let present := negb (String.eqb r "<unknown>") in
  let flag := negb (String.eqb f "ok") in
  exists st',
    Incremental.linkConnectCb t r f (TCPAddr ip port) dest st = Ok st' /\
    Incremental.reputation st' = Incremental.reputation st /\
    Incremental.overallReputation (Incremental.session st')
    = f_div (f_add (f_mul ip0 (f_lit 0.5)) (f_mul rdns0 (f_lit 0.3))) (f_lit 2) /\
    Incremental.ipReputation (Incremental.session st')
    = Spec.adjusted present flag "rDNS" "FCrDNS" ip0 /\
    Incremental.rdnsReputation (Incremental.session st')
    = Spec.adjusted present flag "rDNS" "rDNS" rdns0.
Proof.
  intros ip0 rdns0 present flag. unfold Incremental.linkConnectCb.
  cbn [Incremental.mustTCPAddr mbind result_bind].
  cbn [Incremental.hasReverseDNS Incremental.hasFcReverseDNS Incremental.ip Incremental.rDNS
       Incremental.set_ip Incremental.set_rDNS Incremental.set_hasReverseDNS
       Incremental.set_hasFcReverseDNS].
  fold ip0 rdns0 present flag. unfold Spec.adjusted.
  destruct present, flag; cbn [negb]; eexists; (split; [reflexivity|]); repeat split.
Qed.

(** C10.  In exact arithmetic, for every class without a degradation
    factor and every trust value v in [0,1], applyReward and applyPenalty
    return v; the class FCrDNS used by the connect handler has no factor;
    so the IP trust that the connect handler stores is the IP trust after
    the reverse-DNS adjustment alone. *)
Theorem unlisted_class_noop :
  (forall (c : string) (v : Q),
     Incremental.degradationFactors (F:=Q) !! c = None ->
     (0 <= v <= 1)%Q ->
     (Incremental.applyReward c v == v)%Q /\ (Incremental.applyPenalty c v == v)%Q) /\
  Incremental.degradationFactors (F:=Q) !! "FCrDNS" = None /\
  (forall (HS : Strings) (st : Incremental.State Q) (t : Time) (r f : string) (ip : IP)
          (port : Z) (dest : Addr),
     exists st',
       Incremental.linkConnectCb t r f (TCPAddr ip port) dest st = Ok st' /\
       (Incremental.ipReputation (Incremental.session st')
        == if negb (String.eqb r "<unknown>")
           then Incremental.applyReward "rDNS"
                  (Incremental.IPAddress (Incremental.reputation st) ip)
           else Incremental.applyPenalty "rDNS"
                  (Incremental.IPAddress (Incremental.reputation st) ip))%Q).
Proof.
  split; [|split].
  - intros c v Hc Hv. split; [now apply applyReward_unlisted|now apply applyPenalty_unlisted].
  - apply FCrDNS_unlisted.
  - intros HS st t r f ip port dest.
    destruct (linkConnectCb_TCP st t r f ip port dest) as (st' & Hrun & _ & _ & Hip & _).
    exists st'. split; [exact Hrun|]. rewrite Hip. unfold Spec.adjusted.
    pose proof (FCrDNS_unlisted (F:=Q)) as Hfc.
    destruct (negb (String.eqb r "<unknown>")), (negb (String.eqb f "ok")).
    + apply (applyReward_unlisted _ _ Hfc), applyReward_range.
    + apply (applyPenalty_unlisted _ _ Hfc), applyReward_range.
    + apply (applyReward_unlisted _ _ Hfc), applyPenalty_range.
    + apply (applyPenalty_unlisted _ _ Hfc), applyPenalty_range.
Qed.

Lemma unlisted_class_noop_witness :
  Incremental.degradationFactors (F:=Q) !! "FCrDNS" = None /\
  (0 <= 0.5 <= 1)%Q /\
  (Incremental.applyReward "FCrDNS" 0.5 == 0.5)%Q /\
  (Incremental.applyPenalty "FCrDNS" 0.5 == 0.5)%Q.
Proof.
  assert (Hc : Incremental.degradationFactors (F:=Q) !! "FCrDNS" = None) by reflexivity.
  assert (Hv : (0 <= 0.5 <= 1)%Q) by (split; discriminate).
  exact (conj Hc (conj Hv (proj1 unlisted_class_noop "FCrDNS" 0.5%Q Hc Hv))).
Defined.

(** ** The connect handler of the incremental adjuster *)

(** The flags that [linkConnectCb] sets, for a TCP source. *)
Lemma linkConnectCb_flags {F : Type} `{Float64 F} {HS : Strings} (st : Incremental.State F)
    (t : Time) (r f : string) (ip : IP) (port : Z) (dest : Addr) (st' : Incremental.State F) :
  Incremental.linkConnectCb t r f (TCPAddr ip port) dest st = Ok st' ->
  Incremental.hasReverseDNS (Incremental.session st') = negb (String.eqb r "<unknown>") /\
  Incremental.hasFcReverseDNS (Incremental.session st') = negb (String.eqb f "ok").
Proof.
  unfold Incremental.linkConnectCb. cbn [Incremental.mustTCPAddr mbind result_bind].
  cbn [Incremental.hasReverseDNS Incremental.hasFcReverseDNS Incremental.set_ip
       Incremental.set_rDNS Incremental.set_hasReverseDNS Incremental.set_hasFcReverseDNS].
  destruct (negb (negb _)), (negb (negb _)); intros [= <-]; split; reflexivity.
Qed.

(** C5, as the code has it.  For a connect from a TCP address the handler
    sets the overall trust to half the blend of the looked-up IP trust
    (weight 0.5) and reverse-DNS trust (weight 0.3), both taken before any
    adjustment, the reverse-DNS trust being looked up under
    [strings.ToLower] of the reverse name; the IP and reverse-DNS trusts
    it stores are the looked-up values rewarded when the session's
    reverse-DNS flag is set, which it is unless the reverse name is
    <unknown>, and penalized otherwise (class rDNS), then rewarded once
    more when the session's forward-confirmation flag is set and
    penalized when it is not (class FCrDNS for the IP trust, rDNS for the
    reverse-DNS trust). *)
Theorem connect_trust (F : Type) (HF : Float64 F) (HS : Strings) (st : Incremental.State F)
    (t : Time) (r f : string) (ip : IP) (port : Z) (dest : Addr) :
  let ip0 := Incremental.IPAddress (Incremental.reputation st) ip in
  let rdns0 := Incremental.ReverseDNS (Incremental.reputation st) (ToLower r) in
  exists st',
    Incremental.linkConnectCb t r f (TCPAddr ip port) dest st = Ok st' /\
    let present := Incremental.hasReverseDNS (Incremental.session st') in
    let flag := Incremental.hasFcReverseDNS (Incremental.session st') in
    present = negb (String.eqb r "<unknown>") /\
    Incremental.overallReputation (Incremental.session st')
    = f_div (f_add (f_mul ip0 (f_lit 0.5)) (f_mul rdns0 (f_lit 0.3))) (f_lit 2) /\
    Incremental.ipReputation (Incremental.session st')
    = Spec.adjusted present flag "rDNS" "FCrDNS" ip0 /\
    Incremental.rdnsReputation (Incremental.session st')
    = Spec.adjusted present flag "rDNS" "rDNS" rdns0.
Proof.
  intros ip0 rdns0.
  destruct (linkConnectCb_TCP st t r f ip port dest) as (st' & Hrun & _ & Ho & Hip & Hrdns).
  destruct (linkConnectCb_flags st t r f ip port dest st' Hrun) as [Hpresent Hflag].
  exists st'. split; [exact Hrun|]. cbv zeta. rewrite Hpresent, Hflag.
  split; [reflexivity|]. split; [exact Ho|]. split; [exact Hip|exact Hrdns].
Qed.

(** C5, as the specification words it, fails: on a first connect from
    192.0.2.1 with reverse DNS mail.example.org and forward confirmation
    ok, the overall trust is 0.2, not the blend 0.444 of the adjusted
    trusts, nor the blend of the trusts that the handler stores; in
    binary64 the overall trust is 0.2 as well, below the blend. *)
Lemma connect_overall_not_blend :
  let src := TCPAddr (Some "192.0.2.1") 25 in
  let dest := TCPAddr (Some "192.0.2.2") 25 in
  let st0 : Incremental.State Q :=
    Incremental.mkState Incremental.zeroSessionData Incremental.NewReputation [] in
  let b0 : Incremental.State float :=
    Incremental.mkState Incremental.zeroSessionData Incremental.NewReputation [] in
  (exists st',
     Incremental.linkConnectCb (HS:=ASCIIStrings) 0 "mail.example.org" "ok" src dest st0 = Ok st' /\
     (Incremental.overallReputation (Incremental.session st') == 0.2)%Q /\
     (Spec.connectOverall (HS:=ASCIIStrings) Incremental.NewReputation (Some "192.0.2.1")
        "mail.example.org" "ok"
      == 0.444)%Q /\
     ~ (Incremental.overallReputation (Incremental.session st')
        == Spec.connectOverall (HS:=ASCIIStrings) Incremental.NewReputation (Some "192.0.2.1")
             "mail.example.org" "ok")%Q /\
     ~ (Incremental.overallReputation (Incremental.session st')
        == 0.5 * Incremental.ipReputation (Incremental.session st')
           + 0.3 * Incremental.rdnsReputation (Incremental.session st'))%Q) /\
  (exists b',
     Incremental.linkConnectCb (HS:=ASCIIStrings) 0 "mail.example.org" "ok" src dest b0 = Ok b' /\
     Incremental.overallReputation (Incremental.session b') = f_lit 0.2 /\
     PrimFloat.ltb (Incremental.overallReputation (Incremental.session b'))
       (Spec.connectOverall (HS:=ASCIIStrings) Incremental.NewReputation (Some "192.0.2.1")
          "mail.example.org" "ok") = true).
Proof.
  split.
  - eexists. split; [reflexivity|].
    repeat split; try (vm_compute; reflexivity); vm_compute; discriminate.
  - eexists. split; [reflexivity|]. split; vm_compute; reflexivity.
Qed.

(** ** Feedback at disconnect *)

(** In exact arithmetic [clamp] between 0 and 1 is the clamp into [0,1]. *)
Lemma clamp_clamp01 (x : Q) :
  (Incremental.clamp x (f_lit 0) (f_lit 1) == Spec.clamp01 x)%Q.
Proof.
  pose proof (clamp_cases x) as Hcl. cbv zeta in Hcl.
  set (y := Incremental.clamp x (f_lit 0) (f_lit 1)) in *. unfold Spec.clamp01.
  destruct (Q.min_spec 1 x) as [[H1 E1]|[H1 E1]];
    destruct (Q.max_spec 0 (Qmin 1 x)) as [[H2 E2]|[H2 E2]]; rewrite E2, ?E1; lra.
Qed.

(** C6.  At disconnect Feedback writes the session's new IP, reverse-DNS
    and HELO trust into the trust tables under the session's IP address,
    reverse-DNS name and HELO name, whatever the arithmetic; in exact
    arithmetic these three values are clamp((current + overall * w) / 2,
    0, 1) with w = 0.5, 0.3 and 0.2, the clamp being the one into [0,1];
    and in binary64 a session with overall trust 0.5, IP trust -9,
    reverse-DNS trust 3 and HELO trust 0.5 ends with the trusts 0, 1 and
    0.3, in the session and in the tables. *)
Theorem Feedback_spec :
  (forall (F : Type) (HF : Float64 F) (st : Incremental.State F) (t : Time),
     let s := Incremental.session st in
     let r := Incremental.reputation st in
     exists st',
       Incremental.linkDisconnectCb t st = Ok st' /\
       Incremental.ipAddress (Incremental.reputation st')
       = <[IP_String (Incremental.ip s) := Incremental.ipReputation (Incremental.session st')]>
           (Incremental.ipAddress r) /\
       Incremental.rdns (Incremental.reputation st')
       = <[Incremental.rDNS s := Incremental.rdnsReputation (Incremental.session st')]>
           (Incremental.rdns r) /\
       Incremental.hostname (Incremental.reputation st')
       = <[Incremental.heloname s := Incremental.heloReputation (Incremental.session st')]>
           (Incremental.hostname r)) /\
  (forall (st : Incremental.State Q) (t : Time),
     let s := Incremental.session st in
     let overall := Incremental.overallReputation s in
     exists st',
       Incremental.linkDisconnectCb t st = Ok st' /\
       (Incremental.ipReputation (Incremental.session st')
        == Spec.blended (Incremental.ipReputation s) overall 0.5)%Q /\
       (Incremental.rdnsReputation (Incremental.session st')
        == Spec.blended (Incremental.rdnsReputation s) overall 0.3)%Q /\
       (Incremental.heloReputation (Incremental.session st')
        == Spec.blended (Incremental.heloReputation s) overall 0.2)%Q) /\
  (let s : Incremental.SessionData float :=
     Incremental.set_heloReputation (f_lit 0.5)
       (Incremental.set_rdnsReputation (f_lit 3)
          (Incremental.set_ipReputation (f_lit (-9))
             (Incremental.set_overallReputation (f_lit 0.5) Incremental.zeroSessionData))) in
   exists st',
     Incremental.linkDisconnectCb 0 (Incremental.mkState s Incremental.NewReputation [])
     = Ok st' /\
     Incremental.ipReputation (Incremental.session st') = f_lit 0 /\
     Incremental.rdnsReputation (Incremental.session st') = f_lit 1 /\
     Incremental.heloReputation (Incremental.session st') = f_lit 0.3 /\
     Incremental.IPAddress (Incremental.reputation st') (Incremental.ip s) = f_lit 0 /\
     Incremental.ReverseDNS (Incremental.reputation st') (Incremental.rDNS s) = f_lit 1 /\
     Incremental.Hostname (Incremental.reputation st') (Incremental.heloname s) = f_lit 0.3).
Proof.
  split; [|split].
  - intros F HF st t s r. eexists. split; [reflexivity|]. repeat split.
  - intros st t s overall. eexists. split; [reflexivity|].
    cbn [Incremental.Feedback Incremental.Fprintf Incremental.session
         Incremental.set_ipReputation Incremental.set_rdnsReputation
         Incremental.set_heloReputation Incremental.ipReputation Incremental.rdnsReputation
         Incremental.heloReputation Incremental.overallReputation].
    fold s. unfold Spec.blended, Incremental.ipWeight, Incremental.rdnsWeight,
      Incremental.helonameWeight.
    split; [|split]; apply clamp_clamp01.
  - intros s. eexists. split; [reflexivity|]. repeat split; vm_compute; reflexivity.
Qed.

(** ** Skipped sessions *)

Section Skip.

Context {F : Type} `{Float64 F}.

(** A handler other than connect leaves a skipped session as it is. *)
Lemma dispatch_skipped (now : Time) (ev : Event) (st : Historical.State F) :
  Historical.skip (Historical.session st) = true ->
  isLinkConnect ev = false ->
  Historical.dispatch now ev st = Ok st.
Proof.
  intros Hskip Hev.
  destruct ev; try discriminate Hev; cbn [Historical.dispatch];
    unfold Historical.linkDisconnectCb, Historical.linkIdentifyCb, Historical.linkAuthCb,
      Historical.linkTLSCb, Historical.txResetCb, Historical.txBeginCb, Historical.txMailCb,
      Historical.txRcptCb, Historical.txDataCb, Historical.txCommitCb,
      Historical.txRollbackCb;
    rewrite Hskip; reflexivity.
Qed.

(** Any handler keeps the mark and the store of a skipped session. *)
Lemma dispatch_skipped_store (now : Time) (ev : Event) (st : Historical.State F) :
  Historical.skip (Historical.session st) = true ->
  exists st',
    Historical.dispatch now ev st = Ok st' /\
    Historical.skip (Historical.session st') = true /\
    Historical.ipScoring st' = Historical.ipScoring st.
Proof.
  intros Hskip. destruct (isLinkConnect ev) eqn:Hev.
  - destruct ev; try discriminate Hev. cbn [Historical.dispatch].
    unfold Historical.linkConnectCb.
    destruct (asTCPAddr src); (eexists; split; [reflexivity|]); split;
      first [reflexivity | exact Hskip].
  - exists st. split; [now apply dispatch_skipped|]. split; [exact Hskip|reflexivity].
Qed.

Lemma run_skipped (evs : list (Time * Event)) (st : Historical.State F) :
  Historical.skip (Historical.session st) = true ->
  forallb (fun e => negb (isLinkConnect e.2)) evs = true ->
  Historical.run evs st = Ok st.
Proof.
  intros Hskip. induction evs as [|[now ev] evs IH]; intros Hevs; [reflexivity|].
  cbn [forallb snd] in Hevs. apply andb_true_iff in Hevs as [Hev Hevs].
  apply negb_true_iff in Hev. cbn [Historical.run].
  rewrite (dispatch_skipped now ev st Hskip Hev). cbn [mbind result_bind]. now apply IH.
Qed.

Lemma run_skipped_store (evs : list (Time * Event)) (st : Historical.State F) :
  Historical.skip (Historical.session st) = true ->
  exists st',
    Historical.run evs st = Ok st' /\
    Historical.skip (Historical.session st') = true /\
    Historical.ipScoring st' = Historical.ipScoring st.
Proof.
  revert st. induction evs as [|[now ev] evs IH]; intros st Hskip.
  - exists st. repeat split; assumption.
  - destruct (dispatch_skipped_store now ev st Hskip) as (st1 & Hstep & Hskip1 & Hstore1).
    destruct (IH st1 Hskip1) as (st' & Hrun & Hskip' & Hstore').
    exists st'. cbn [Historical.run]. rewrite Hstep. cbn [mbind result_bind].
    split; [exact Hrun|]. split; [exact Hskip'|congruence].
Qed.

End Skip.

(** C9.  A connect whose source is not a TCP address marks the session
    skip and leaves the store alone; from then on every handler other than
    connect returns with the whole state (session, store, log) unchanged,
    so no summary of the session is recorded at disconnect; and whatever
    events follow, the store keeps its content. *)
Theorem skipped_session_ignored (F : Type) (HF : Float64 F) (st : Historical.State F)
    (t : Time) (r f : string) (src dest : Addr) :
  asTCPAddr src = None ->
  exists st1,
    Historical.linkConnectCb t r f src dest st = Ok st1 /\
    Historical.skip (Historical.session st1) = true /\
    Historical.ipScoring st1 = Historical.ipScoring st /\
    (forall (now : Time) (ev : Event),
       isLinkConnect ev = false -> Historical.dispatch now ev st1 = Ok st1) /\
    (forall evs : list (Time * Event),
       forallb (fun e => negb (isLinkConnect e.2)) evs = true ->
       Historical.run evs st1 = Ok st1) /\
    (forall evs : list (Time * Event),
       exists st2,
         Historical.run evs st1 = Ok st2 /\
         Historical.skip (Historical.session st2) = true /\
         Historical.ipScoring st2 = Historical.ipScoring st).
Proof.
  intros Hsrc. unfold Historical.linkConnectCb. rewrite Hsrc.
  eexists. split; [reflexivity|].
  assert (Hskip : Historical.skip
                    (Historical.session
                       (Historical.set_session
                          (Historical.set_skip true (Historical.session st)) st)) = true)
    by reflexivity.
  split; [exact Hskip|]. split; [reflexivity|]. split; [|split].
  - intros now ev Hev. now apply dispatch_skipped.
  - intros evs Hevs. now apply run_skipped.
  - intros evs. destruct (run_skipped_store evs _ Hskip) as (st2 & Hrun & Hskip2 & Hstore).
    exists st2. split; [exact Hrun|]. split; [exact Hskip2|exact Hstore].
Qed.

Lemma skipped_session_ignored_witness :
  let st : Historical.State Q := Historical.mkState Historical.zeroSessionData ∅ [] in
  let src := UnixAddr "/var/run/smtpd.sock" "unix" in
  asTCPAddr src = None /\
  exists st1,
    Historical.linkConnectCb 0 "localhost" "pass" src src st = Ok st1 /\
    Historical.skip (Historical.session st1) = true /\
    Historical.ipScoring st1 = Historical.ipScoring st /\
    (forall (now : Time) (ev : Event),
       isLinkConnect ev = false -> Historical.dispatch now ev st1 = Ok st1) /\
    (forall evs : list (Time * Event),
       forallb (fun e => negb (isLinkConnect e.2)) evs = true ->
       Historical.run evs st1 = Ok st1) /\
    (forall evs : list (Time * Event),
       exists st2,
         Historical.run evs st1 = Ok st2 /\
         Historical.skip (Historical.session st2) = true /\
         Historical.ipScoring st2 = Historical.ipScoring st).
Proof.
  intros st src.
  assert (Hsrc : asTCPAddr src = None) by reflexivity.
  exact (conj Hsrc (skipped_session_ignored Q _ st 0 "localhost" "pass" src src Hsrc)).
Defined.

(** ** Panics *)

Lemma withLastTx_empty (f : Historical.Transaction -> Historical.Transaction)
    (s : Historical.SessionData) :
  Spec.hasTx s = false ->
  Historical.withLastTx f s = Panic (IndexOutOfRange (-1) 0).
Proof.
  unfold Spec.hasTx, Historical.withLastTx. destruct (Historical.transactions s); [|discriminate].
  reflexivity.
Qed.

Lemma withLastTx_nonempty (f : Historical.Transaction -> Historical.Transaction)
    (s : Historical.SessionData) :
  Spec.hasTx s = true ->
  exists tx s',
    Historical.withLastTx f s = Ok (tx, s') /\
    Historical.skip s' = Historical.skip s /\
    Spec.hasTx s' = true.
Proof.
  unfold Spec.hasTx, Historical.withLastTx. intros Htx.
  destruct (index_last (Historical.transactions s)) as (tx & Hidx & _).
  { intros Hnil. rewrite Hnil in Htx. discriminate. }
  rewrite Hidx. cbn [mbind result_bind]. eexists _, _. split; [reflexivity|].
  split; [reflexivity|]. cbn [Historical.set_transactions Historical.transactions].
  destruct (Historical.transactions s) as [|tx0 txs] eqn:Htxs; [discriminate|].
  destruct (<[Z.to_nat (len (tx0 :: txs) - 1):=f tx]> (tx0 :: txs)) eqn:Hins; [|reflexivity].
  apply (f_equal length) in Hins. rewrite length_insert in Hins. discriminate.
Qed.

Section Totality.

Context {F : Type} `{Float64 F}.

(** The runs of the historical engine that end without a panic. *)
Lemma historical_run_ok (evs : list (Time * Event)) (st : Historical.State F) :
  is_Ok (Historical.run evs st)
  = Spec.txAfterBegin (Historical.skip (Historical.session st))
      (Spec.hasTx (Historical.session st)) evs.*2.
Proof.
  revert st. induction evs as [|[now ev] evs IH]; intros st; [reflexivity|].
  cbn [Historical.run fmap list_fmap snd Spec.txAfterBegin].
  destruct ev; cbn [Historical.dispatch].
  { unfold Historical.linkConnectCb. destruct (asTCPAddr src);
      cbn [mbind result_bind]; rewrite IH; reflexivity. }
  { unfold Historical.linkDisconnectCb.
    destruct (Historical.skip (Historical.session st)) eqn:Hskip;
      cbn [mbind result_bind]; rewrite IH; cbn; rewrite ?Hskip; reflexivity. }
  { unfold Historical.linkIdentifyCb.
    destruct (Historical.skip (Historical.session st)) eqn:Hskip;
      cbn [mbind result_bind]; rewrite IH; [rewrite Hskip; reflexivity|].
    destruct (String.eqb method "HELO"), (String.eqb method "EHLO"); cbn; rewrite ?Hskip;
      reflexivity. }
  { unfold Historical.linkAuthCb.
    destruct (Historical.skip (Historical.session st)) eqn:Hskip;
      cbn [mbind result_bind]; rewrite IH; [rewrite Hskip; reflexivity|].
    destruct (String.eqb result_ "ok"); cbn; rewrite ?Hskip; reflexivity. }
  { unfold Historical.linkTLSCb.
    destruct (Historical.skip (Historical.session st)) eqn:Hskip;
      cbn [mbind result_bind]; rewrite IH; cbn; rewrite ?Hskip; reflexivity. }
  { unfold Historical.txResetCb.
    destruct (Historical.skip (Historical.session st)) eqn:Hskip;
      cbn [mbind result_bind]; rewrite IH; cbn; rewrite ?Hskip; reflexivity. }
  { unfold Historical.txBeginCb.
    destruct (Historical.skip (Historical.session st)) eqn:Hskip;
      cbn [mbind result_bind]; rewrite IH; [rewrite Hskip, orb_false_r; reflexivity|].
    cbn. rewrite Hskip, orb_true_r. unfold Spec.hasTx. cbn.
    destruct (Historical.transactions (Historical.session st)); reflexivity. }
  (* mail, rcpt, data, commit, rollback: the handler returns at once on a
     skipped session, panics without a transaction, and keeps the two
     flags otherwise *)
  all: unfold Historical.txMailCb, Historical.txRcptCb, Historical.txDataCb,
         Historical.txCommitCb, Historical.txRollbackCb;
       destruct (Historical.skip (Historical.session st)) eqn:Hskip;
       [cbn [mbind result_bind]; rewrite IH, Hskip; reflexivity|];
       cbn [Historical.Fprintf Historical.session orb];
       destruct (Spec.hasTx (Historical.session st)) eqn:Htx;
       match goal with
       | |- context [Historical.withLastTx ?f ?s] =>
           first
             [ rewrite (withLastTx_empty f s Htx); reflexivity
             | destruct (withLastTx_nonempty f s Htx) as (tx & s' & Hw & Hs & Ht);
               rewrite Hw; cbn [mbind result_bind]; rewrite IH; cbn;
               rewrite Hs, Hskip, Ht; reflexivity ]
       end.
Qed.

End Totality.

(** Every handler of the incremental adjuster other than connect
    returns; connect returns on a TCP source. *)
Lemma incremental_run_ok {F : Type} `{Float64 F} {HS : Strings} (evs : list Event)
    (st : Incremental.State F) :
  Spec.connectsFromTCP evs = true -> is_Ok (Incremental.run evs st) = true.
Proof.
  revert st. induction evs as [|ev evs IH]; intros st Hevs; [reflexivity|].
  unfold Spec.connectsFromTCP in Hevs. cbn [forallb] in Hevs.
  apply andb_true_iff in Hevs as [Hev Hevs]. cbn [Incremental.run].
  destruct ev; cbn [Incremental.dispatch].
  - apply bool_decide_eq_true_1 in Hev. destruct src; cbn in Hev;
      try (destruct Hev as [? Hev]; discriminate Hev).
    destruct (linkConnectCb_TCP st timestamp rdns fcrdns ip port dest) as (st' & Hrun & _).
    rewrite Hrun. cbn [mbind result_bind]. apply IH. exact Hevs.
  - cbn [Incremental.linkDisconnectCb mbind result_bind]. apply IH. exact Hevs.
  - unfold Incremental.linkIdentifyCb.
    repeat match goal with
           | |- context [if ?b then _ else _] => destruct b
           end; cbn [mbind result_bind]; apply IH; exact Hevs.
  - unfold Incremental.linkAuthCb.
    destruct (negb (String.eqb result_ "ok")); cbn [mbind result_bind]; apply IH; exact Hevs.
  - cbn [Incremental.linkTLSCb mbind result_bind]. apply IH. exact Hevs.
  - cbn [Incremental.txResetCb mbind result_bind]. apply IH. exact Hevs.
  - cbn [Incremental.txBeginCb mbind result_bind]. apply IH. exact Hevs.
  - unfold Incremental.txMailCb.
    destruct (negb (String.eqb result_ "ok")); cbn [mbind result_bind]; apply IH; exact Hevs.
  - unfold Incremental.txRcptCb.
    destruct (negb (String.eqb result_ "ok")); cbn [mbind result_bind]; apply IH; exact Hevs.
  - cbn [Incremental.txDataCb mbind result_bind]. apply IH. exact Hevs.
  - cbn [Incremental.txCommitCb mbind result_bind]. apply IH. exact Hevs.
  - cbn [Incremental.txRollbackCb mbind result_bind]. apply IH. exact Hevs.
Qed.

(** C8, as the code has it.  A run of the historical engine ends without
    a panic exactly when every mail, rcpt, data, commit and rollback event
    of a session not marked skip finds a transaction (a transaction-begin
    since the last TCP connect); a connect from a non-TCP address marks the
    session skip and every later event returns.  A run of the incremental
    adjuster ends without a panic when its connect events come from TCP
    addresses. *)
Theorem handlers_total_when :
  (forall (F : Type) (HF : Float64 F) (evs : list (Time * Event)) (st : Historical.State F),
     is_Ok (Historical.run evs st)
     = Spec.txAfterBegin (Historical.skip (Historical.session st))
         (Spec.hasTx (Historical.session st)) evs.*2) /\
  (forall (F : Type) (HF : Float64 F) (HS : Strings) (evs : list Event)
          (st : Incremental.State F),
     Spec.connectsFromTCP evs = true -> is_Ok (Incremental.run evs st) = true).
Proof.
  split.
  - intros F HF evs st. apply historical_run_ok.
  - intros F HF HS evs st. apply incremental_run_ok.
Qed.

Lemma handlers_total_when_witness :
  let evs :=
    [LinkConnect 0 "mail.example.org" "ok" (TCPAddr (Some "192.0.2.1") 25)
       (TCPAddr (Some "192.0.2.2") 25);
     TxBegin 1 "msg"; TxMail 2 "msg" "ok" "a@example.org"; LinkDisconnect 3] in
  let st : Incremental.State Q :=
    Incremental.mkState Incremental.zeroSessionData Incremental.NewReputation [] in
  Spec.connectsFromTCP evs = true /\ is_Ok (Incremental.run (HS:=ASCIIStrings) evs st) = true.
Proof.
  intros evs st.
  assert (Hevs : Spec.connectsFromTCP evs = true) by reflexivity.
  exact (conj Hevs (proj2 handlers_total_when Q _ ASCIIStrings evs st Hevs)).
Defined.

(** C8, as the specification words it, fails: the connect handler of the
    incremental adjuster panics on a Unix-socket source, and the mail
    handler of the historical engine panics when the session has no
    transaction. *)
Lemma handler_panics :
  Incremental.dispatch (HS:=ASCIIStrings) (F:=Q)
    (LinkConnect 0 "localhost" "pass" (UnixAddr "/var/run/smtpd.sock" "unix")
       (UnixAddr "/var/run/smtpd.sock" "unix"))
    (Incremental.mkState Incremental.zeroSessionData Incremental.NewReputation [])
  = Panic InterfaceConversion /\
  Historical.run (F:=Q)
    [(0, LinkConnect 0 "mail.example.org" "ok" (TCPAddr (Some "192.0.2.1") 25)
           (TCPAddr (Some "192.0.2.2") 25));
     (1, TxMail 1 "msg" "ok" "a@example.org")]
    (Historical.mkState Historical.zeroSessionData ∅ [])
  = Panic (IndexOutOfRange (-1) 0).
Proof. split; reflexivity. Qed.

(** ** Further properties of the historical engine *)

(** A transaction with an accepted sender, no data phase, no commit, no
    accepted recipient and one temp-failed recipient scores 0.2, in exact
    arithmetic and in binary64. *)
Theorem scoreTransaction_tempfail (bt et : Time) :
  (Historical.scoreTransaction (Historical.mkTransaction bt et true 0 1 0 false false)
   == 0.2)%Q /\
  Historical.scoreTransaction (F:=float)
    (Historical.mkTransaction bt et true 0 1 0 false false) = f_lit 0.2.
Proof. split; vm_compute; reflexivity. Qed.

Lemma summarizeSession_Timestamp {F : Type} `{Float64 F} (now : Time)
    (s : Historical.SessionData) :
  Historical.Timestamp (Historical.summarizeSession (F:=F) now s) = now.
Proof.
  unfold Historical.summarizeSession.
  destruct (fold_left Historical.summarizeStep (Historical.transactions s) (0, 0, 0, 0))
    as [[[? ?] ?] ?].
  reflexivity.
Qed.

Lemma summarizeSession_Score {F : Type} `{Float64 F} (now : Time)
    (s : Historical.SessionData) :
  Historical.Score (Historical.summarizeSession (F:=F) now s) = Historical.scoreSession s.
Proof.
  unfold Historical.summarizeSession.
  destruct (fold_left Historical.summarizeStep (Historical.transactions s) (0, 0, 0, 0))
    as [[[? ?] ?] ?].
  reflexivity.
Qed.

(** The disconnect of a session that is not skipped appends one summary,
    taken at the clock reading, to the sequence under the session's
    address (a new sequence when the key is new); the other keys keep
    their sequences and nothing is trimmed. *)
Theorem linkDisconnectCb_appends (F : Type) (HF : Float64 F) (now t : Time)
    (st : Historical.State F) :
  Historical.skip (Historical.session st) = false ->
  let key := IP_String (Historical.addr (Historical.session st)) in
  exists (st' : Historical.State F) (summary : Historical.Scoring F),
    Historical.linkDisconnectCb now t st = Ok st' /\
    Historical.Timestamp summary = now /\
    Historical.Score summary = Historical.scoreSession (Historical.session st) /\
    Historical.ipScoring st' !! key
    = Some (default [] (Historical.ipScoring st !! key) ++ [summary]) /\
    forall k, k <> key -> Historical.ipScoring st' !! k = Historical.ipScoring st !! k.
Proof.
  intros Hskip key. unfold Historical.linkDisconnectCb. rewrite Hskip.
  eexists _, (Historical.summarizeSession now
                (Historical.set_disconnectTime t (Historical.session st))).
  split; [reflexivity|].
  cbn [Historical.Fprintf Historical.set_ipScoring Historical.ipScoring Historical.set_session
       Historical.session Historical.addr Historical.set_disconnectTime].
  fold key. split; [|split; [|split]].
  - apply summarizeSession_Timestamp.
  - rewrite summarizeSession_Score. reflexivity.
  - apply lookup_insert_eq.
  - intros k Hk. apply lookup_insert_ne. congruence.
Qed.

Lemma linkDisconnectCb_appends_witness :
  let st : Historical.State Q := Historical.mkState Historical.zeroSessionData ∅ [] in
  Historical.skip (Historical.session st) = false /\
  exists (st' : Historical.State Q) (summary : Historical.Scoring Q),
    Historical.linkDisconnectCb 7 7 st = Ok st' /\
    Historical.Timestamp summary = 7 /\
    Historical.Score summary = Historical.scoreSession (Historical.session st) /\
    Historical.ipScoring st' !! "<nil>"
    = Some (default [] (Historical.ipScoring st !! "<nil>") ++ [summary]) /\
    forall k, k <> "<nil>" -> Historical.ipScoring st' !! k = Historical.ipScoring st !! k.
Proof.
  intros st.
  assert (Hskip : Historical.skip (Historical.session st) = false) by reflexivity.
  exact (conj Hskip (linkDisconnectCb_appends Q _ 7 7 st Hskip)).
Defined.

Lemma dispatch_nonempty_witness :
  let st : Historical.State Q := Historical.mkState Historical.zeroSessionData ∅ [] in
  (forall k l, Historical.ipScoring st !! k = Some l -> l <> []) /\
  exists st',
    Historical.dispatch 7 (LinkDisconnect 7) st = Ok st' /\
    forall k l, Historical.ipScoring st' !! k = Some l -> l <> [].
Proof.
  intros st.
  assert (Hinv : forall k l, Historical.ipScoring st !! k = Some l -> l <> []).
  { intros k l Hk. unfold st in Hk. cbn [Historical.ipScoring] in Hk.
    rewrite lookup_empty in Hk. discriminate Hk. }
  split; [exact Hinv|]. eexists. split; [reflexivity|].
  exact (dispatch_nonempty 7 (LinkDisconnect 7) st _ Hinv eq_refl).
Defined.

(** ** Binary64

    Laws that hold for every binary64 input, from the specification of
    the primitive floats. *)

Lemma SFcompare_antisym (x y : spec_float) :
  SFcompare y x = option_map CompOpp (SFcompare x y).
Proof.
  destruct x as [[|]|[|]| |[|] mx ex], y as [[|]|[|]| |[|] my ey]; try reflexivity;
    cbn [SFcompare option_map]; f_equal;
    change (Pos.compare_cont Eq my mx) with (Pos.compare_cont (CompOpp Eq) my mx);
    rewrite <- (Pos.compare_cont_antisym mx my Eq), (Z.compare_antisym ex ey);
    destruct (ex ?= ey)%Z; cbn [CompOpp]; try reflexivity;
    destruct (Pos.compare_cont Eq mx my); reflexivity.
Qed.

Lemma b64_not_nan (x : float) : PrimFloat.is_nan x = false -> Prim2SF x <> S754_nan.
Proof.
  unfold PrimFloat.is_nan. rewrite FloatAxioms.eqb_spec. intros Hx Hnan. rewrite Hnan in Hx.
  discriminate Hx.
Qed.

(** Two numbers that are not in the order [x < y] are in the order
    [y <= x]. *)
Lemma b64_ltb_leb (x y : float) :
  PrimFloat.is_nan x = false -> PrimFloat.is_nan y = false ->
  PrimFloat.ltb x y = false -> PrimFloat.leb y x = true.
Proof.
  intros Hx Hy. apply b64_not_nan in Hx, Hy.
  rewrite FloatAxioms.ltb_spec, FloatAxioms.leb_spec. unfold SFltb, SFleb. rewrite (SFcompare_antisym (Prim2SF x) (Prim2SF y)).
  destruct (SFcompare (Prim2SF x) (Prim2SF y)) as [[| |]|] eqn:Hc; cbn; try congruence.
  destruct (Prim2SF x) as [?|?| |? ? ?], (Prim2SF y) as [?|?| |? ? ?]; cbn in Hc; congruence.
Qed.

Lemma b64_clamp_range (v : float) :
  Spec.b64_in_unit (Incremental.clamp v (f_lit 0) (f_lit 1)).
Proof.
  unfold Spec.b64_in_unit, Incremental.clamp. cbn [f_ltb f_lit B64_Float64].
  change (B64.lit 0) with 0%float. change (B64.lit 1) with 1%float.
  destruct (PrimFloat.ltb v 0) eqn:Hlo; [right; split; reflexivity|].
  destruct (PrimFloat.ltb 1 v) eqn:Hhi; [right; split; reflexivity|].
  destruct (PrimFloat.is_nan v) eqn:Hnan; [left; reflexivity|]. right. split.
  - apply b64_ltb_leb; [exact Hnan|reflexivity|exact Hlo].
  - apply b64_ltb_leb; [reflexivity|exact Hnan|exact Hhi].
Qed.

(** No number is both equal to [+Inf] and not above 1. *)
Lemma b64_pos_inf_above (x : float) :
  B64.is_pos_inf x = true -> PrimFloat.ltb 1 x = true.
Proof.
  unfold B64.is_pos_inf. rewrite FloatAxioms.eqb_spec, FloatAxioms.ltb_spec.
  change (Prim2SF PrimFloat.infinity) with (S754_infinity false).
  set (one := Prim2SF 1). vm_compute in one. subst one.
  destruct (Prim2SF x) as [?|[|]| |? ? ?]; cbn; congruence.
Qed.

Lemma b64_Max_Min_range (x : float) :
  Spec.b64_in_unit (f_Max (f_lit 0) (f_Min (f_lit 1) x)).
Proof.
  unfold Spec.b64_in_unit. cbn [f_Max f_Min f_lit B64_Float64].
  change (B64.lit 0) with 0%float. change (B64.lit 1) with 1%float.
  unfold B64.Min.
  change (B64.is_neg_inf 1) with false. change (PrimFloat.is_nan 1) with false.
  change (PrimFloat.is_zero 1) with false. cbn [orb andb].
  destruct (B64.is_neg_inf x); [right; split; reflexivity|].
  destruct (PrimFloat.is_nan x) eqn:Hnan; [left; reflexivity|].
  destruct (PrimFloat.ltb 1 x) eqn:Hhi; [right; split; reflexivity|].
  unfold B64.Max.
  change (B64.is_pos_inf 0) with false. change (PrimFloat.is_nan 0) with false.
  change (PrimFloat.is_zero 0) with true. change (PrimFloat.get_sign 0) with false.
  rewrite Hnan. cbn [orb andb].
  destruct (B64.is_pos_inf x) eqn:Hinf.
  { apply b64_pos_inf_above in Hinf. congruence. }
  destruct (PrimFloat.eqb 0 x); [right; split; reflexivity|].
  destruct (PrimFloat.ltb x 0) eqn:Hlo; [right; split; reflexivity|].
  right. split.
  - apply b64_ltb_leb; [exact Hnan|reflexivity|exact Hlo].
  - apply b64_ltb_leb; [reflexivity|exact Hnan|exact Hhi].
Qed.

(** In binary64 every transaction score and every session score is a
    number of [0,1], or not a number. *)
Theorem b64_scores_in_unit :
  (forall tx : Historical.Transaction, Spec.b64_in_unit (Historical.scoreTransaction tx)) /\
  (forall s : Historical.SessionData, Spec.b64_in_unit (Historical.scoreSession s)).
Proof.
  split; intros; apply b64_Max_Min_range.
Qed.

(** In binary64 a reward and a penalty, of any class and on any value,
    is a number of [0,1], or not a number. *)
Theorem b64_adjustments_in_unit (c : string) (v : float) :
  Spec.b64_in_unit (Incremental.applyReward c v) /\
  Spec.b64_in_unit (Incremental.applyPenalty c v).
Proof.
  split; apply b64_clamp_range.
Qed.

Lemma b64_add_zero (v : float) :
  Prim2SF v <> S754_zero true -> PrimFloat.add v PrimFloat.zero = v.
Proof.
  intros Hv. apply Prim2SF_inj. rewrite FloatAxioms.add_spec.
  change (Prim2SF PrimFloat.zero) with (S754_zero false).
  destruct (Prim2SF v) as [[|]|?| |? ? ?]; try reflexivity. congruence.
Qed.

Lemma b64_sub_zero (v : float) : PrimFloat.sub v PrimFloat.zero = v.
Proof.
  apply Prim2SF_inj. rewrite FloatAxioms.sub_spec.
  change (Prim2SF PrimFloat.zero) with (S754_zero false).
  destruct (Prim2SF v) as [[|]|?| |? ? ?]; reflexivity.
Qed.

(** In binary64, on a value that is neither below 0 nor above 1, a
    penalty of the class FCrDNS returns the value bit for bit, and so
    does a reward unless the value is the negative zero. *)
Theorem b64_unlisted_noop (v : float) :
  PrimFloat.ltb v 0 = false -> PrimFloat.ltb 1 v = false ->
  Incremental.applyPenalty "FCrDNS" v = v /\
  (Prim2SF v <> S754_zero true -> Incremental.applyReward "FCrDNS" v = v).
Proof.
  intros Hlo Hhi. unfold Incremental.applyPenalty, Incremental.applyReward.
  change (f_mul Incremental.basePenalty (Incremental.at_key Incremental.degradationFactors "FCrDNS"))
    with PrimFloat.zero.
  change (f_mul Incremental.baseReward (Incremental.at_key Incremental.degradationFactors "FCrDNS"))
    with PrimFloat.zero.
  cbv zeta. cbn [f_add f_sub B64_Float64]. rewrite b64_sub_zero.
  unfold Incremental.clamp. cbn [f_ltb f_lit B64_Float64].
  change (B64.lit 0) with 0%float. change (B64.lit 1) with 1%float.
  rewrite Hlo, Hhi. split; [reflexivity|].
  intros Hv. rewrite (b64_add_zero v Hv), Hlo, Hhi. reflexivity.
Qed.

Lemma b64_unlisted_noop_witness :
  PrimFloat.ltb 0.5 0 = false /\ PrimFloat.ltb 1 0.5 = false /\
  Incremental.applyPenalty "FCrDNS" 0.5%float = 0.5%float /\
  (Prim2SF 0.5 <> S754_zero true -> Incremental.applyReward "FCrDNS" 0.5%float = 0.5%float).
Proof.
  assert (Hlo : PrimFloat.ltb 0.5 0 = false) by reflexivity.
  assert (Hhi : PrimFloat.ltb 1 0.5 = false) by reflexivity.
  exact (conj Hlo (conj Hhi (b64_unlisted_noop 0.5 Hlo Hhi))).
Defined.

(** ** What the handlers of the historical engine leave alone *)

(** Every handler but connect and disconnect, on a session that is not
    skipped: the result comes from [withLastTx] or is written out. *)
Ltac historical_step Hstep :=
  unfold Historical.linkConnectCb, Historical.linkDisconnectCb, Historical.linkIdentifyCb,
    Historical.linkAuthCb, Historical.linkTLSCb, Historical.txResetCb, Historical.txBeginCb,
    Historical.txMailCb, Historical.txRcptCb, Historical.txDataCb, Historical.txCommitCb,
    Historical.txRollbackCb, Historical.withLastTx in Hstep;
  repeat match type of Hstep with
         | context [if ?b then _ else _] => destruct b eqn:?
         | context [match asTCPAddr ?a with _ => _ end] => destruct (asTCPAddr a) eqn:?
         | context [index ?l ?i] => destruct (index l i) eqn:?; cbn [mbind result_bind] in Hstep
         end;
  cbn [mbind result_bind] in Hstep;
  try discriminate Hstep;
  injection Hstep as <-.

Section Frame.

Context {F : Type} `{Float64 F}.

Lemma store_frame (now : Time) (ev : Event) (st st' : Historical.State F) :
  isLinkDisconnect ev = false ->
  Historical.dispatch now ev st = Ok st' ->
  Historical.ipScoring st' = Historical.ipScoring st.
Proof.
  intros Hev Hstep. destruct ev; try discriminate Hev; cbn [Historical.dispatch] in Hstep;
    historical_step Hstep; reflexivity.
Qed.

Lemma session_frame (now : Time) (ev : Event) (st st' : Historical.State F) :
  isLinkConnect ev = false ->
  Historical.dispatch now ev st = Ok st' ->
  Historical.addr (Historical.session st') = Historical.addr (Historical.session st) /\
  Historical.connectTime (Historical.session st') = Historical.connectTime (Historical.session st) /\
  Historical.rdns (Historical.session st') = Historical.rdns (Historical.session st) /\
  Historical.fcrdns (Historical.session st') = Historical.fcrdns (Historical.session st) /\
  Historical.skip (Historical.session st') = Historical.skip (Historical.session st).
Proof.
  intros Hev Hstep. destruct ev; try discriminate Hev; cbn [Historical.dispatch] in Hstep;
    historical_step Hstep; repeat split; try reflexivity; cbn; congruence.
Qed.

(** The reputation store is written at disconnect and by no other handler:
    a run without a disconnect event leaves it as it was. *)
Theorem store_written_at_disconnect (evs : list (Time * Event)) (st st' : Historical.State F) :
  forallb (fun tev => negb (isLinkDisconnect (snd tev))) evs = true ->
  Historical.run evs st = Ok st' ->
  Historical.ipScoring st' = Historical.ipScoring st.
Proof.
  revert st. induction evs as [|[now ev] evs IH]; intros st Hevs Hrun.
  - injection Hrun as <-. reflexivity.
  - cbn [forallb snd] in Hevs. apply andb_true_iff in Hevs as [Hev Hevs].
    apply negb_true_iff in Hev. cbn [Historical.run] in Hrun.
    destruct (Historical.dispatch now ev st) as [st1|] eqn:Hstep; [|discriminate Hrun].
    cbn [mbind result_bind] in Hrun.
    rewrite (IH st1 Hevs Hrun). exact (store_frame now ev st st1 Hev Hstep).
Qed.

(** The peer's address, the connect time, the reverse-DNS answers and the
    skip mark are set at connect and by no other handler: a run without a
    connect event leaves them as they were. *)
Theorem address_set_at_connect (evs : list (Time * Event)) (st st' : Historical.State F) :
  forallb (fun tev => negb (isLinkConnect (snd tev))) evs = true ->
  Historical.run evs st = Ok st' ->
  Historical.addr (Historical.session st') = Historical.addr (Historical.session st) /\
  Historical.connectTime (Historical.session st') = Historical.connectTime (Historical.session st) /\
  Historical.rdns (Historical.session st') = Historical.rdns (Historical.session st) /\
  Historical.fcrdns (Historical.session st') = Historical.fcrdns (Historical.session st) /\
  Historical.skip (Historical.session st') = Historical.skip (Historical.session st).
Proof.
  revert st. induction evs as [|[now ev] evs IH]; intros st Hevs Hrun.
  - injection Hrun as <-. repeat split.
  - cbn [forallb snd] in Hevs. apply andb_true_iff in Hevs as [Hev Hevs].
    apply negb_true_iff in Hev. cbn [Historical.run] in Hrun.
    destruct (Historical.dispatch now ev st) as [st1|] eqn:Hstep; [|discriminate Hrun].
    cbn [mbind result_bind] in Hrun.
    destruct (IH st1 Hevs Hrun) as (H1 & H2 & H3 & H4 & H5).
    destruct (session_frame now ev st st1 Hev Hstep) as (G1 & G2 & G3 & G4 & G5).
    rewrite H1, H2, H3, H4, H5. repeat split; assumption.
Qed.

End Frame.

Lemma store_written_at_disconnect_witness :
  let st : Historical.State Q := Historical.mkState Historical.zeroSessionData ∅ [] in
  let evs := [(1, LinkTLS 1 "TLSv1.3"); (2, TxReset 2 "4f2a")] in
  forallb (fun tev => negb (isLinkDisconnect (snd tev))) evs = true /\
  exists st', Historical.run evs st = Ok st' /\ Historical.ipScoring st' = Historical.ipScoring st.
Proof.
  intros st evs. split; [reflexivity|]. eexists. split; [reflexivity|].
  exact (store_written_at_disconnect evs st _ eq_refl eq_refl).
Defined.

Lemma address_set_at_connect_witness :
  let st : Historical.State Q := Historical.mkState Historical.zeroSessionData ∅ [] in
  let evs := [(1, LinkTLS 1 "TLSv1.3"); (2, LinkDisconnect 2)] in
  forallb (fun tev => negb (isLinkConnect (snd tev))) evs = true /\
  exists st',
    Historical.run evs st = Ok st' /\
    Historical.addr (Historical.session st') = Historical.addr (Historical.session st) /\
    Historical.connectTime (Historical.session st') = Historical.connectTime (Historical.session st) /\
    Historical.rdns (Historical.session st') = Historical.rdns (Historical.session st) /\
    Historical.fcrdns (Historical.session st') = Historical.fcrdns (Historical.session st) /\
    Historical.skip (Historical.session st') = Historical.skip (Historical.session st).
Proof.
  intros st evs. split; [reflexivity|]. eexists. split; [reflexivity|].
  exact (address_set_at_connect evs st _ eq_refl eq_refl).
Defined.

Section Transactions.

Context {F : Type} `{Float64 F}.

Lemma index_Some {A : Type} (l : list A) (i : Z) (a : A) :
  index l i = Ok a -> 0 <= i < len l /\ l !! Z.to_nat i = Some a.
Proof.
  unfold index. destruct ((0 <=? i) && (i <? len l)) eqn:Hi; [|discriminate].
  apply andb_true_iff in Hi as [H0 H1]. apply Z.leb_le in H0. apply Z.ltb_lt in H1.
  destruct (l !! Z.to_nat i) eqn:Hl; [|discriminate]. intros [= <-]. auto.
Qed.

(** The slice of transactions only grows, by one element at each
    transaction-begin, and every transaction but the last one is frozen. *)
Theorem transactions_append_only (now : Time) (ev : Event) (st st' : Historical.State F) :
  isLinkConnect ev = false ->
  Historical.dispatch now ev st = Ok st' ->
  let txs := Historical.transactions (Historical.session st) in
  let txs' := Historical.transactions (Historical.session st') in
  length txs'
  = (length txs
     + if isTxBegin ev && negb (Historical.skip (Historical.session st)) then 1 else 0)%nat /\
  take (length txs - 1) txs' = take (length txs - 1) txs.
Proof.
  intros Hev Hstep txs txs'. subst txs txs'.
  destruct ev; try discriminate Hev; cbn [Historical.dispatch isTxBegin andb] in *;
    historical_step Hstep;
    cbn [Historical.session Historical.set_session Historical.Fprintf Historical.transactions
         Historical.set_transactions Historical.set_disconnectTime Historical.set_heloname
         Historical.set_cmdHelo Historical.set_cmdEhlo Historical.set_authok
         Historical.set_authfail Historical.set_cmdAuth Historical.set_tlsString
         Historical.set_cmdTLS Historical.set_nResets Historical.set_ipScoring negb];
    rewrite ?length_insert, ?length_app; cbn [length];
    try (split; [lia|]);
    rewrite ?take_insert_ge by (unfold len; lia);
    rewrite ?take_app_le by lia; try reflexivity.
Qed.

End Transactions.

Lemma transactions_append_only_witness :
  let st : Historical.State Q := Historical.mkState Historical.zeroSessionData ∅ [] in
  let ev := TxBegin 5 "4f2a" in
  isLinkConnect ev = false /\
  exists st',
    Historical.dispatch 5 ev st = Ok st' /\
    length (Historical.transactions (Historical.session st')) = 1%nat.
Proof.
  intros st ev. split; [reflexivity|]. eexists. split; [reflexivity|].
  exact (proj1 (transactions_append_only 5 ev st _ eq_refl eq_refl)).
Defined.

Section Flags.

Context {F : Type} `{Float64 F}.

(** No handler clears a flag of a transaction or changes its begin time:
    in particular a rollback that follows a commit leaves the
    transaction committed. *)
Theorem flags_never_cleared (now : Time) (ev : Event) (st st' : Historical.State F) :
  isLinkConnect ev = false ->
  Historical.dispatch now ev st = Ok st' ->
  forall (i : nat) (tx : Historical.Transaction),
    Historical.transactions (Historical.session st) !! i = Some tx ->
    exists tx',
      Historical.transactions (Historical.session st') !! i = Some tx' /\
      Historical.beginTime tx' = Historical.beginTime tx /\
      (Historical.mailFromOK tx = true -> Historical.mailFromOK tx' = true) /\
      (Historical.sawData tx = true -> Historical.sawData tx' = true) /\
      (Historical.committed tx = true -> Historical.committed tx' = true).
Proof.
  intros Hev Hstep i tx Hi.
  destruct ev; try discriminate Hev; cbn [Historical.dispatch] in Hstep;
    historical_step Hstep;
    cbn [Historical.session Historical.set_session Historical.Fprintf Historical.transactions
         Historical.set_transactions Historical.set_disconnectTime Historical.set_heloname
         Historical.set_cmdHelo Historical.set_cmdEhlo Historical.set_authok
         Historical.set_authfail Historical.set_cmdAuth Historical.set_tlsString
         Historical.set_cmdTLS Historical.set_nResets Historical.set_ipScoring];
    try (exists tx; split; [exact Hi|]; tauto);
    try (exists tx; split; [rewrite lookup_app_l by (eapply lookup_lt_Some; exact Hi); exact Hi|];
         tauto);
    match goal with
    | Hidx : index _ _ = Ok ?t |- _ =>
        apply index_Some in Hidx as [Hrange Hlast]; unfold len in *;
        cbn [Historical.session Historical.Fprintf Historical.transactions] in *;
        match goal with
        | |- context [(<[?k := ?x]> ?l) !! i] =>
            destruct (decide (i = k)) as [->|Hne];
            [ rewrite list_lookup_insert_eq by lia;
              rewrite Hlast in Hi; injection Hi as ->;
              eexists; split; [reflexivity|]; cbn; tauto
            | rewrite list_lookup_insert_ne by congruence;
              exists tx; split; [exact Hi|]; tauto ]
        end
    end.
Qed.

End Flags.

Lemma flags_never_cleared_witness :
  let tx := Historical.mkTransaction 1 2 true 1 0 0 true true in
  let s := Historical.set_transactions [tx] Historical.zeroSessionData in
  let st : Historical.State Q := Historical.mkState s ∅ [] in
  let ev := TxRollback 3 "4f2a" in
  isLinkConnect ev = false /\
  exists st',
    Historical.dispatch 3 ev st = Ok st' /\
    exists tx',
      Historical.transactions (Historical.session st') !! 0%nat = Some tx' /\
      Historical.beginTime tx' = Historical.beginTime tx /\
      (Historical.mailFromOK tx = true -> Historical.mailFromOK tx' = true) /\
      (Historical.sawData tx = true -> Historical.sawData tx' = true) /\
      (Historical.committed tx = true -> Historical.committed tx' = true).
Proof.
  intros tx s st ev. split; [reflexivity|]. eexists. split; [reflexivity|].
  exact (flags_never_cleared 3 ev st _ eq_refl eq_refl 0%nat tx eq_refl).
Defined.

(** ** Counters *)

Lemma wrap_range (z : Z) : in_int (wrap z).
Proof.
  unfold in_int, minInt, maxInt, wrap.
  pose proof (Z.mod_pos_bound (z + 2 ^ 63) (2 ^ 64) ltac:(lia)). lia.
Qed.

Lemma wrap_add_l (a b : Z) : wrap (wrap a + b) = wrap (a + b).
Proof.
  unfold wrap. f_equal.
  replace ((a + 2 ^ 63) mod 2 ^ 64 - 2 ^ 63 + b + 2 ^ 63)
    with ((a + 2 ^ 63) mod 2 ^ 64 + b) by lia.
  rewrite Zplus_mod_idemp_l. f_equal. lia.
Qed.

Lemma wrap_add_r (a b : Z) : wrap (a + wrap b) = wrap (a + b).
Proof. rewrite (Z.add_comm a (wrap b)), wrap_add_l. f_equal. lia. Qed.

Lemma countZ_bounds {A : Type} (p : A -> bool) (l : list A) : 0 <= countZ p l <= len l.
Proof.
  unfold len. induction l as [|x l IH]; cbn [countZ length]; [lia|]. destruct (p x); lia.
Qed.

Lemma countZ_negb {A : Type} (p : A -> bool) (l : list A) :
  countZ p l + countZ (fun x => negb (p x)) l = len l.
Proof.
  unfold len. induction l as [|x l IH]; cbn [countZ length]; [lia|]. destruct (p x); cbn; lia.
Qed.

Section Counters.

Context {F : Type} `{Float64 F}.

Lemma counters_step (now : Time) (ev : Event) (st st' : Historical.State F) :
  Historical.skip (Historical.session st) = false ->
  isLinkConnect ev = false ->
  Historical.dispatch now ev st = Ok st' ->
  Historical.skip (Historical.session st') = false /\
  Historical.authok (Historical.session st')
  = (if isAuthOk ev then int_incr (Historical.authok (Historical.session st))
     else Historical.authok (Historical.session st)) /\
  Historical.authfail (Historical.session st')
  = (if isAuthFail ev then int_incr (Historical.authfail (Historical.session st))
     else Historical.authfail (Historical.session st)) /\
  Historical.nResets (Historical.session st')
  = (if isTxReset ev then int_incr (Historical.nResets (Historical.session st))
     else Historical.nResets (Historical.session st)).
Proof.
  intros Hskip Hev Hstep.
  destruct ev; try discriminate Hev; cbn [Historical.dispatch] in Hstep;
    historical_step Hstep; try congruence;
    cbn [isAuthOk isAuthFail isTxReset]; rewrite ?Heqb0; cbn; auto.
Qed.

(** Over the events of a session that is not skipped, [authok] counts
    the authentications that succeeded, [authfail] the others and
    [nResets] the resets, each as a 64-bit counter. *)
Theorem session_counters (evs : list (Time * Event)) (st st' : Historical.State F) :
  Historical.skip (Historical.session st) = false ->
  forallb (fun e => negb (isLinkConnect e.2)) evs = true ->
  in_int (Historical.authok (Historical.session st)) ->
  in_int (Historical.authfail (Historical.session st)) ->
  in_int (Historical.nResets (Historical.session st)) ->
  Historical.run evs st = Ok st' ->
  Historical.authok (Historical.session st')
  = wrap (Historical.authok (Historical.session st) + countZ isAuthOk evs.*2) /\
  Historical.authfail (Historical.session st')
  = wrap (Historical.authfail (Historical.session st) + countZ isAuthFail evs.*2) /\
  Historical.nResets (Historical.session st')
  = wrap (Historical.nResets (Historical.session st) + countZ isTxReset evs.*2).
Proof.
  revert st. induction evs as [|[now ev] evs IH]; intros st Hskip Hevs Hok Hfail Hres Hrun.
  - injection Hrun as <-. cbn [fmap list_fmap countZ]. rewrite !Z.add_0_r.
    rewrite !wrap_in_int by assumption. auto.
  - cbn [forallb snd] in Hevs. apply andb_true_iff in Hevs as [Hev Hevs].
    apply negb_true_iff in Hev. cbn [Historical.run] in Hrun.
    destruct (Historical.dispatch now ev st) as [st1|] eqn:Hstep; [|discriminate Hrun].
    cbn [mbind result_bind] in Hrun.
    destruct (counters_step now ev st st1 Hskip Hev Hstep) as (Hskip1 & Hok1 & Hfail1 & Hres1).
    assert (Hin : in_int (Historical.authok (Historical.session st1)) /\
                  in_int (Historical.authfail (Historical.session st1)) /\
                  in_int (Historical.nResets (Historical.session st1))).
    { rewrite Hok1, Hfail1, Hres1.
      destruct (isAuthOk ev), (isAuthFail ev), (isTxReset ev);
        (split; [|split]); first [assumption | apply wrap_range]. }
    destruct Hin as (Hin1 & Hin2 & Hin3).
    destruct (IH st1 Hskip1 Hevs Hin1 Hin2 Hin3 Hrun) as (-> & -> & ->).
    rewrite Hok1, Hfail1, Hres1. cbn [fmap list_fmap snd countZ]. unfold int_incr, int_add.
    destruct (isAuthOk ev), (isAuthFail ev), (isTxReset ev);
      rewrite ?wrap_add_l; (split; [|split]); f_equal; lia.
Qed.

End Counters.

Lemma session_counters_witness :
  let st : Historical.State Q := Historical.mkState Historical.zeroSessionData ∅ [] in
  let evs := [(1, LinkAuth 1 "ok" "alice"); (2, LinkAuth 2 "fail" "bob"); (3, TxReset 3 "4f2a");
              (4, LinkAuth 4 "fail" "bob")] in
  Historical.skip (Historical.session st) = false /\
  forallb (fun e => negb (isLinkConnect e.2)) evs = true /\
  in_int (Historical.authok (Historical.session st)) /\
  in_int (Historical.authfail (Historical.session st)) /\
  in_int (Historical.nResets (Historical.session st)) /\
  exists st',
    Historical.run evs st = Ok st' /\
    Historical.authok (Historical.session st') = wrap (0 + 1) /\
    Historical.authfail (Historical.session st') = wrap (0 + 2) /\
    Historical.nResets (Historical.session st') = wrap (0 + 1).
Proof.
  intros st evs.
  assert (Hz : in_int 0) by (split; discriminate).
  split; [reflexivity|]. split; [reflexivity|]. split; [exact Hz|]. split; [exact Hz|].
  split; [exact Hz|].
  destruct (Historical.run evs st) as [st'|p] eqn:Hrun; [|vm_compute in Hrun; discriminate Hrun].
  exists st'. split; [reflexivity|].
  exact (session_counters evs st st' eq_refl eq_refl Hz Hz Hz Hrun).
Defined.

(** ** Summaries *)

Lemma summarize_fold (txs : list Historical.Transaction) (r d c b : Z) :
  in_int r -> in_int d -> in_int c -> in_int b ->
  fold_left Historical.summarizeStep txs (r, d, c, b)
  = (wrap (r + sumZ rcptTotal txs),
     wrap (d + countZ Historical.sawData txs),
     wrap (c + countZ Historical.committed txs),
     wrap (b + countZ notCommitted txs)).
Proof.
  revert r d c b. induction txs as [|tx txs IH]; intros r d c b Hr Hd Hc Hb.
  - cbn [fold_left sumZ countZ]. rewrite !Z.add_0_r, !wrap_in_int by assumption. reflexivity.
  - cbn [fold_left sumZ countZ]. unfold Historical.summarizeStep at 2.
    unfold int_incr, int_add.
    rewrite (wrap_add_l (Historical.rcptToOK tx + Historical.rcptToTempfail tx)), wrap_add_r.
    unfold notCommitted in *.
    destruct (Historical.sawData tx), (Historical.committed tx); cbn [negb];
      rewrite IH by (first [assumption | apply wrap_range]);
      rewrite ?wrap_add_l; unfold rcptTotal;
      repeat match goal with
             | |- (_, _) = (_, _) => apply f_equal2
             end;
      apply (f_equal wrap); lia.
Qed.

Section Summaries.

Context {F : Type} `{Float64 F}.

(** The summary of a session counts all recipients, and each
    transaction once: as committed when its flag is set, as rolled back
    otherwise, whether or not a rollback was seen. *)
Theorem summarizeSession_counts (now : Time) (s : Historical.SessionData) :
  len (Historical.transactions s) <= maxInt ->
  let sm := Historical.summarizeSession (F:=F) now s in
  Historical.RcptCount sm = wrap (sumZ rcptTotal (Historical.transactions s)) /\
  Historical.DataCount sm = countZ Historical.sawData (Historical.transactions s) /\
  Historical.CommitCount sm = countZ Historical.committed (Historical.transactions s) /\
  Historical.RollbackCount sm = countZ notCommitted (Historical.transactions s) /\
  Historical.CommitCount sm + Historical.RollbackCount sm = len (Historical.transactions s) /\
  Historical.AuthSuccesses sm = Historical.authok s /\
  Historical.AuthFailures sm = Historical.authfail s /\
  Historical.Resets sm = Historical.nResets s.
Proof.
  intros Hlen sm. subst sm. unfold Historical.summarizeSession.
  assert (H0 : in_int 0) by (unfold in_int, minInt, maxInt; lia).
  rewrite (summarize_fold _ 0 0 0 0 H0 H0 H0 H0).
  cbn [Historical.RcptCount Historical.DataCount Historical.CommitCount
       Historical.RollbackCount Historical.AuthSuccesses Historical.AuthFailures
       Historical.Resets].
  pose proof (countZ_bounds Historical.sawData (Historical.transactions s)) as Hd.
  pose proof (countZ_bounds Historical.committed (Historical.transactions s)) as Hc.
  pose proof (countZ_bounds notCommitted (Historical.transactions s)) as Hb.
  pose proof (countZ_negb Historical.committed (Historical.transactions s)) as Hsum.
  fold notCommitted in Hsum.
  rewrite !Z.add_0_l.
  rewrite (wrap_in_int (countZ Historical.sawData _)),
    (wrap_in_int (countZ Historical.committed _)),
    (wrap_in_int (countZ notCommitted _))
    by (unfold in_int, minInt, maxInt in *; lia).
  repeat split; try reflexivity. exact Hsum.
Qed.

End Summaries.

Lemma summarizeSession_counts_witness :
  let txs := [Historical.mkTransaction 1 2 true 2 1 0 true true;
              Historical.mkTransaction 3 4 true 0 0 1 false false] in
  let s := Historical.set_transactions txs Historical.zeroSessionData in
  let sm := Historical.summarizeSession (F:=Q) 9 s in
  len (Historical.transactions s) <= maxInt /\
  Historical.RcptCount sm = wrap 4 /\
  Historical.DataCount sm = 1 /\
  Historical.CommitCount sm = 1 /\
  Historical.RollbackCount sm = 1 /\
  Historical.CommitCount sm + Historical.RollbackCount sm = 2.
Proof.
  intros txs s sm.
  assert (Hlen : len (Historical.transactions s) <= maxInt) by discriminate.
  split; [exact Hlen|].
  destruct (summarizeSession_counts (F:=Q) 9 s Hlen) as (H1 & H2 & H3 & H4 & H5 & _).
  exact (conj H1 (conj H2 (conj H3 (conj H4 H5)))).
Defined.

(** ** Aggregation *)

Section Aggregate.

Context {F : Type} `{Float64 F}.

Lemma aggregate_fold_counts (l : list (Historical.Scoring F)) (a : Historical.Scoring F) :
  in_int (Historical.AuthFailures a) -> in_int (Historical.AuthSuccesses a) ->
  in_int (Historical.Resets a) -> in_int (Historical.RcptCount a) ->
  in_int (Historical.DataCount a) -> in_int (Historical.CommitCount a) ->
  in_int (Historical.RollbackCount a) ->
  let r := fold_left Historical.aggregateStep l a in
  Historical.Timestamp r = Historical.Timestamp a /\
  Historical.AuthFailures r = wrap (Historical.AuthFailures a + sumZ Historical.AuthFailures l) /\
  Historical.AuthSuccesses r
  = wrap (Historical.AuthSuccesses a + sumZ Historical.AuthSuccesses l) /\
  Historical.Resets r = wrap (Historical.Resets a + sumZ Historical.Resets l) /\
  Historical.RcptCount r = wrap (Historical.RcptCount a + sumZ Historical.RcptCount l) /\
  Historical.DataCount r = wrap (Historical.DataCount a + sumZ Historical.DataCount l) /\
  Historical.CommitCount r = wrap (Historical.CommitCount a + sumZ Historical.CommitCount l) /\
  Historical.RollbackCount r
  = wrap (Historical.RollbackCount a + sumZ Historical.RollbackCount l).
Proof.
  revert a. induction l as [|s l IH]; intros a H1 H2 H3 H4 H5 H6 H7; cbv zeta.
  - cbn [fold_left sumZ]. rewrite !Z.add_0_r, !wrap_in_int by assumption. repeat split.
  - cbn [fold_left sumZ].
    specialize (IH (Historical.aggregateStep a s)). cbv zeta in IH.
    cbn [Historical.aggregateStep Historical.Timestamp Historical.AuthFailures
         Historical.AuthSuccesses Historical.Resets Historical.RcptCount Historical.DataCount
         Historical.CommitCount Historical.RollbackCount] in IH.
    unfold int_add in IH.
    destruct IH as (-> & -> & -> & -> & -> & -> & -> & ->); try apply wrap_range.
    rewrite !wrap_add_l, !Z.add_assoc. repeat split.
Qed.

(** The aggregate of a list of summaries carries the zero timestamp and
    the sum of each counter, as a 64-bit integer; of the empty list it is
    the zero summary. *)
Theorem aggregateScoring_counts (l : list (Historical.Scoring F)) :
  let r := Historical.aggregateScoring l in
  Historical.Timestamp r = 0 /\
  Historical.AuthFailures r = wrap (sumZ Historical.AuthFailures l) /\
  Historical.AuthSuccesses r = wrap (sumZ Historical.AuthSuccesses l) /\
  Historical.Resets r = wrap (sumZ Historical.Resets l) /\
  Historical.RcptCount r = wrap (sumZ Historical.RcptCount l) /\
  Historical.DataCount r = wrap (sumZ Historical.DataCount l) /\
  Historical.CommitCount r = wrap (sumZ Historical.CommitCount l) /\
  Historical.RollbackCount r = wrap (sumZ Historical.RollbackCount l) /\
  (l = [] -> r = Historical.zeroScoring).
Proof.
  cbv zeta. unfold Historical.aggregateScoring.
  assert (H0 : in_int 0) by (unfold in_int, minInt, maxInt; lia).
  destruct (len l =? 0) eqn:Hlen.
  - apply Z.eqb_eq in Hlen. destruct l; [|unfold len in Hlen; cbn in Hlen; lia].
    cbn. repeat split.
  - pose proof (aggregate_fold_counts l Historical.zeroScoring H0 H0 H0 H0 H0 H0 H0) as Hf.
    cbv zeta in Hf. cbn [Historical.zeroScoring Historical.Timestamp Historical.AuthFailures
         Historical.AuthSuccesses Historical.Resets Historical.RcptCount Historical.DataCount
         Historical.CommitCount Historical.RollbackCount] in Hf.
    rewrite !Z.add_0_l in Hf.
    cbn [Historical.set_Score Historical.Timestamp Historical.AuthFailures
         Historical.AuthSuccesses Historical.Resets Historical.RcptCount Historical.DataCount
         Historical.CommitCount Historical.RollbackCount].
    destruct Hf as (? & ? & ? & ? & ? & ? & ? & ?).
    repeat split; try assumption.
    intros ->. discriminate Hlen.
Qed.

End Aggregate.

(** ** Scores stay in the unit interval *)

Lemma sum_range (l : list Q) :
  Forall unitQ l -> (0 <= Spec.sum l <= inject_Z (Z.of_nat (length l)))%Q.
Proof.
  induction 1 as [|x l Hx Hl IH]; unfold Spec.sum; cbn [fold_right length].
  - change (inject_Z (Z.of_nat 0)) with 0%Q. lra.
  - fold (Spec.sum l). rewrite Nat2Z.inj_succ, <- Z.add_1_r, inject_Z_plus.
    unfold unitQ in Hx. change (inject_Z 1) with 1%Q. lra.
Qed.

Lemma mean_range (l : list Q) : l <> [] -> Forall unitQ l -> unitQ (Spec.mean l).
Proof.
  intros Hne Hl. pose proof (sum_range l Hl) as Hs. unfold unitQ, Spec.mean.
  assert (Hn : (0 < inject_Z (Z.of_nat (length l)))%Q).
  { change 0%Q with (inject_Z 0). rewrite <- Zlt_Qlt. destruct l; [congruence|cbn; lia]. }
  split.
  - apply Qle_shift_div_l; [exact Hn|lra].
  - apply Qle_shift_div_r; [exact Hn|lra].
Qed.

Lemma scoreSession_unit (s : Historical.SessionData) : unitQ (Historical.scoreSession s).
Proof. unfold unitQ. rewrite scoreSession_exact. apply clamp01_range. Qed.

Lemma linkDisconnectCb_store {F : Type} `{Float64 F} (now t : Time)
    (st st' : Historical.State F) :
  Historical.linkDisconnectCb now t st = Ok st' ->
  let key := IP_String (Historical.addr (Historical.session st)) in
  Historical.ipScoring st'
  = if Historical.skip (Historical.session st) then Historical.ipScoring st
    else <[key := default [] (Historical.ipScoring st !! key)
                  ++ [Historical.summarizeSession now
                        (Historical.set_disconnectTime t (Historical.session st))]]>
           (Historical.ipScoring st).
Proof.
  unfold Historical.linkDisconnectCb.
  destruct (Historical.skip (Historical.session st)); intros [= <-]; reflexivity.
Qed.

(** Every handler keeps every stored score in [0,1]: the summary that a
    disconnect appends carries the session score, which is clamped. *)
Theorem dispatch_scoresInUnit (now : Time) (ev : Event) (st st' : Historical.State Q) :
  scoresInUnit (Historical.ipScoring st) ->
  Historical.dispatch now ev st = Ok st' ->
  scoresInUnit (Historical.ipScoring st').
Proof.
  intros Hinv Hstep. destruct (isLinkDisconnect ev) eqn:Hev.
  - destruct ev; try discriminate Hev. cbn [Historical.dispatch] in Hstep.
    apply linkDisconnectCb_store in Hstep. cbv zeta in Hstep. rewrite Hstep.
    destruct (Historical.skip (Historical.session st)); [exact Hinv|].
    intros k l. rewrite lookup_insert. case_decide; [|apply Hinv].
    intros [= <-]. apply Forall_app. split.
    + destruct (Historical.ipScoring st !! _) as [l0|] eqn:Hl0; cbv [default from_option id];
        [eapply Hinv; exact Hl0|constructor].
    + constructor; [|constructor]. rewrite summarizeSession_Score. apply scoreSession_unit.
  - rewrite (store_frame now ev st st' Hev Hstep). exact Hinv.
Qed.

(** With every stored score in [0,1], the score that the connect handler
    computes lies in [0,1]. *)
Theorem connect_score_unit (st : Historical.State Q) (t : Time) (r f : string) (ip : IP)
    (port : Z) (dest : Addr) :
  scoresInUnit (Historical.ipScoring st) ->
  exists st' score,
    Historical.linkConnectCb t r f (TCPAddr ip port) dest st = Ok st' /\
    Historical.stderr st' = Historical.stderr st ++ [Historical.LogConnect (IP_String ip) score] /\
    unitQ score.
Proof.
  intros Hinv. eexists _, _. split; [apply linkConnectCb_score|]. split; [reflexivity|].
  unfold Spec.priorTrust.
  destruct (Historical.ipScoring st !! IP_String ip) as [l|] eqn:Hl;
    [|unfold unitQ; cbn [f_lit Q_Float64]; lra].
  destruct (length l <? 5)%nat eqn:Hlen; [unfold unitQ; cbn [f_lit Q_Float64]; lra|].
  apply Nat.ltb_ge in Hlen. unfold unitQ. rewrite meanF_exact. apply mean_range.
  - destruct l; [cbn in Hlen; lia|discriminate].
  - apply Forall_fmap. eapply Forall_impl; [eapply Hinv; exact Hl|]. auto.
Qed.

Lemma dispatch_scoresInUnit_witness :
  let st : Historical.State Q := Historical.mkState Historical.zeroSessionData ∅ [] in
  scoresInUnit (Historical.ipScoring st) /\
  exists st',
    Historical.dispatch 7 (LinkDisconnect 7) st = Ok st' /\
    scoresInUnit (Historical.ipScoring st').
Proof.
  intros st.
  assert (Hinv : scoresInUnit (Historical.ipScoring st)).
  { intros k l Hk. unfold st in Hk. cbn [Historical.ipScoring] in Hk.
    rewrite lookup_empty in Hk. discriminate Hk. }
  split; [exact Hinv|]. eexists. split; [reflexivity|].
  exact (dispatch_scoresInUnit 7 (LinkDisconnect 7) st _ Hinv eq_refl).
Defined.

Lemma connect_score_unit_witness :
  let st : Historical.State Q := Historical.mkState Historical.zeroSessionData ∅ [] in
  scoresInUnit (Historical.ipScoring st) /\
  exists st' score,
    Historical.linkConnectCb 1 "mx.example.org" "pass" (TCPAddr (Some "192.0.2.1") 25)
      (TCPAddr (Some "192.0.2.2") 25) st = Ok st' /\
    Historical.stderr st'
    = Historical.stderr st ++ [Historical.LogConnect (IP_String (Some "192.0.2.1")) score] /\
    unitQ score.
Proof.
  intros st.
  assert (Hinv : scoresInUnit (Historical.ipScoring st)).
  { intros k l Hk. unfold st in Hk. cbn [Historical.ipScoring] in Hk.
    rewrite lookup_empty in Hk. discriminate Hk. }
  exact (conj Hinv (connect_score_unit st 1 "mx.example.org" "pass" (Some "192.0.2.1") 25
                      (TCPAddr (Some "192.0.2.2") 25) Hinv)).
Defined.

(** ** What a sweep pass keeps *)

Section SweepInvariants.

Context {F : Type} `{Float64 F}.

Lemma sweepEntry_suffix (now : Time) (l l' : list (Historical.Scoring F)) :
  l <> [] -> Spec.sweepEntry now l = Some l' ->
  l' <> [] /\ (length l' <= 100)%nat /\ l' `suffix_of` l /\ last l' = last l.
Proof.
  intros Hne. unfold Spec.sweepEntry. destruct (100 <? length l)%nat eqn:Hbig.
  - apply Nat.ltb_lt in Hbig. intros [= <-].
    assert (Hlen : length (drop (length l - 100) l) = 100%nat) by (rewrite length_drop; lia).
    split; [intros Hnil; rewrite Hnil in Hlen; discriminate Hlen|].
    split; [lia|]. split; [apply suffix_drop|].
    rewrite !last_lookup, length_drop, lookup_drop. f_equal. lia.
  - apply Nat.ltb_ge in Hbig.
    destruct (last l) as [newest|] eqn:Hlast.
    + destruct (Historical.Timestamp newest + Spec.fiveDays <? now); [discriminate|].
      intros [= <-]. split; [exact Hne|]. split; [exact Hbig|]. split; [reflexivity|exact Hlast].
    + intros [= <-]. split; [exact Hne|]. split; [exact Hbig|]. split; [reflexivity|exact Hlast].
Qed.

Lemma sweep_suffixes (now : string -> Time) (st : Historical.State F) :
  nonEmptyEntries (Historical.ipScoring st) ->
  exists st',
    Historical.sweep now st = Ok st' /\
    Historical.session st' = Historical.session st /\
    (forall k, Historical.ipScoring st' !! k
               = Historical.ipScoring st !! k ≫= Spec.sweepEntry (now k)) /\
    forall k l',
      Historical.ipScoring st' !! k = Some l' ->
      l' <> [] /\ (length l' <= 100)%nat /\
      exists l, Historical.ipScoring st !! k = Some l /\ l' `suffix_of` l /\ last l' = last l.
Proof.
  intros Hne. destruct (sweep_lookup now st Hne) as (st' & Hsweep & Hsess & Hmap).
  exists st'. split; [exact Hsweep|]. split; [exact Hsess|]. split; [exact Hmap|].
  intros k l' Hk. rewrite Hmap in Hk.
  destruct (Historical.ipScoring st !! k) as [l|] eqn:Hl; [|discriminate Hk].
  cbn [mbind option_bind] in Hk.
  destruct (sweepEntry_suffix (now k) l l' (Hne k l Hl) Hk) as (H1 & H2 & H3 & H4).
  split; [exact H1|]. split; [exact H2|]. exists l. auto.
Qed.

(** After a pass every sequence is non-empty, at most 100 long, and a
    suffix of the sequence its key held before: a pass adds no key, adds
    no entry and keeps the order and the newest entry. *)
Theorem sweep_keeps_suffixes (now : string -> Time) (st : Historical.State F) :
  nonEmptyEntries (Historical.ipScoring st) ->
  exists st',
    Historical.sweep now st = Ok st' /\
    Historical.session st' = Historical.session st /\
    forall k l',
      Historical.ipScoring st' !! k = Some l' ->
      l' <> [] /\ (length l' <= 100)%nat /\
      exists l, Historical.ipScoring st !! k = Some l /\ l' `suffix_of` l /\ last l' = last l.
Proof.
  intros Hne. destruct (sweep_suffixes now st Hne) as (st' & H1 & H2 & _ & H4).
  exists st'. auto.
Qed.

(** A sequence of more than 100 entries whose newest entry is older
    than 5 days survives one pass, cut to 100 entries, and is deleted by
    the next pass. *)
Theorem stale_oversized_two_passes (now1 now2 : string -> Time) (st : Historical.State F)
    (k : string) (l : list (Historical.Scoring F)) (newest : Historical.Scoring F) :
  nonEmptyEntries (Historical.ipScoring st) ->
  Historical.ipScoring st !! k = Some l ->
  (100 < length l)%nat ->
  last l = Some newest ->
  Historical.Timestamp newest + Spec.fiveDays < now2 k ->
  exists st1 st2 kept,
    Historical.sweep now1 st = Ok st1 /\
    Historical.ipScoring st1 !! k = Some kept /\ length kept = 100%nat /\
    Historical.sweep now2 st1 = Ok st2 /\
    Historical.ipScoring st2 !! k = None.
Proof.
  intros Hne Hk Hbig Hlast Hstale.
  destruct (sweep_suffixes now1 st Hne) as (st1 & Hs1 & _ & Hmap1 & Hinv1).
  assert (Hne1 : nonEmptyEntries (Historical.ipScoring st1)).
  { intros k' l' Hk'. apply (Hinv1 k' l' Hk'). }
  destruct (sweep_suffixes now2 st1 Hne1) as (st2 & Hs2 & _ & Hmap2 & _).
  assert (Hk1 : Historical.ipScoring st1 !! k = Some (drop (length l - 100) l)).
  { rewrite Hmap1, Hk. cbn [mbind option_bind]. unfold Spec.sweepEntry.
    replace (100 <? length l)%nat with true by (symmetry; apply Nat.ltb_lt; lia). reflexivity. }
  exists st1, st2, (drop (length l - 100) l).
  split; [exact Hs1|]. split; [exact Hk1|]. split; [rewrite length_drop; lia|].
  split; [exact Hs2|].
  rewrite Hmap2, Hk1. cbn [mbind option_bind]. unfold Spec.sweepEntry.
  rewrite length_drop.
  replace (100 <? length l - (length l - 100))%nat with false
    by (symmetry; apply Nat.ltb_ge; lia).
  assert (Hlast' : last (drop (length l - 100) l) = Some newest).
  { rewrite <- Hlast, !last_lookup, length_drop, lookup_drop. f_equal. lia. }
  rewrite Hlast'.
  replace (Historical.Timestamp newest + Spec.fiveDays <? now2 k) with true
    by (symmetry; apply Z.ltb_lt; lia).
  reflexivity.
Qed.

(** A disconnect on an address that already holds 100 or more summaries,
    followed by a pass: the key holds exactly 100 summaries, the new one
    last, after the 99 newest of the old ones. *)
Theorem disconnect_then_sweep (now t : Time) (clock : string -> Time)
    (st : Historical.State F) (l0 : list (Historical.Scoring F)) :
  nonEmptyEntries (Historical.ipScoring st) ->
  Historical.skip (Historical.session st) = false ->
  Historical.ipScoring st !! IP_String (Historical.addr (Historical.session st)) = Some l0 ->
  (100 <= length l0)%nat ->
  exists st1 st2 summary,
    Historical.linkDisconnectCb now t st = Ok st1 /\
    Historical.sweep clock st1 = Ok st2 /\
    Historical.Timestamp summary = now /\
    Historical.ipScoring st2 !! IP_String (Historical.addr (Historical.session st))
    = Some (drop (length l0 - 99) l0 ++ [summary]) /\
    length (drop (length l0 - 99) l0 ++ [summary]) = 100%nat.
Proof.
  intros Hne Hskip Hkey Hlen.
  set (key := IP_String (Historical.addr (Historical.session st))) in *.
  set (summary := Historical.summarizeSession now
                    (Historical.set_disconnectTime t (Historical.session st))).
  destruct (Historical.linkDisconnectCb now t st) as [st1|p] eqn:Hd;
    [|unfold Historical.linkDisconnectCb in Hd; rewrite Hskip in Hd; discriminate Hd].
  pose proof (linkDisconnectCb_store now t st st1 Hd) as Hstore. cbv zeta in Hstore.
  rewrite Hskip in Hstore. fold key in Hstore. rewrite Hkey in Hstore.
  cbv [default from_option id] in Hstore. fold summary in Hstore.
  assert (Hne1 : nonEmptyEntries (Historical.ipScoring st1)).
  { intros k l. rewrite Hstore, lookup_insert. case_decide; [|apply Hne].
    intros [= <-] Happ. apply app_eq_nil in Happ as [_ Happ]. discriminate Happ. }
  destruct (sweep_suffixes clock st1 Hne1) as (st2 & Hs2 & _ & Hmap2 & _).
  exists st1, st2, summary. split; [reflexivity|]. split; [exact Hs2|].
  split; [apply summarizeSession_Timestamp|].
  split.
  - rewrite Hmap2, Hstore, lookup_insert_eq. cbn [mbind option_bind].
    unfold Spec.sweepEntry. rewrite length_app. cbn [length].
    replace (100 <? length l0 + 1)%nat with true by (symmetry; apply Nat.ltb_lt; lia).
    rewrite drop_app_le by lia.
    replace (length l0 + 1 - 100)%nat with (length l0 - 99)%nat by lia. reflexivity.
  - rewrite length_app, length_drop. cbn [length]. lia.
Qed.

End SweepInvariants.

(** A pass keeps every stored score in [0,1]. *)
Theorem sweep_scoresInUnit (now : string -> Time) (st st' : Historical.State Q) :
  nonEmptyEntries (Historical.ipScoring st) ->
  scoresInUnit (Historical.ipScoring st) ->
  Historical.sweep now st = Ok st' ->
  scoresInUnit (Historical.ipScoring st').
Proof.
  intros Hne Hinv Hsweep.
  destruct (sweep_suffixes now st Hne) as (st1 & Hs1 & _ & _ & Hsuf).
  rewrite Hs1 in Hsweep. injection Hsweep as <-.
  intros k l' Hk. destruct (Hsuf k l' Hk) as (_ & _ & l & Hl & [pre ->] & _).
  apply (Hinv k) in Hl. apply Forall_app in Hl. apply Hl.
Qed.

Lemma sweep_keeps_suffixes_witness :
  let oldest : Historical.Scoring Q := Historical.mkScoring 0 0.25%Q 0 0 0 0 0 0 0 in
  let newer : Historical.Scoring Q := Historical.mkScoring 5 0.5%Q 0 0 0 0 0 0 0 in
  let st : Historical.State Q :=
    Historical.mkState Historical.zeroSessionData
      {[ "192.0.2.1" := oldest :: replicate 100 newer ]} [] in
  nonEmptyEntries (Historical.ipScoring st) /\
  exists st',
    Historical.sweep (fun _ => 8) st = Ok st' /\
    Historical.ipScoring st' !! "192.0.2.1" = Some (replicate 100 newer) /\
    replicate 100 newer <> [] /\ (length (replicate 100 newer) <= 100)%nat /\
    exists l,
      Historical.ipScoring st !! "192.0.2.1" = Some l /\
      replicate 100 newer `suffix_of` l /\ last (replicate 100 newer) = last l.
Proof.
  intros oldest newer st.
  assert (Hne : nonEmptyEntries (Historical.ipScoring st)).
  { intros k l Hk. unfold st in Hk. cbn [Historical.ipScoring] in Hk.
    apply lookup_singleton_Some in Hk as [_ <-]. discriminate. }
  destruct (sweep_keeps_suffixes (fun _ => 8) st Hne) as (st' & Hrun & _ & Hkeep).
  assert (Hk : Historical.ipScoring st' !! "192.0.2.1" = Some (replicate 100 newer)).
  { destruct (sweep_suffixes (fun _ => 8) st Hne) as (st1 & Hs1 & _ & Hlook & _).
    rewrite Hs1 in Hrun. injection Hrun as <-. rewrite Hlook. unfold st.
    cbn [Historical.ipScoring]. rewrite lookup_singleton_eq. reflexivity. }
  split; [exact Hne|]. exists st'. split; [exact Hrun|]. split; [exact Hk|].
  exact (Hkeep "192.0.2.1" (replicate 100 newer) Hk).
Defined.

Lemma stale_oversized_two_passes_witness :
  let s : Historical.Scoring Q := Historical.mkScoring 0 0.5%Q 0 0 0 0 0 0 0 in
  let l := replicate 101 s in
  let st : Historical.State Q :=
    Historical.mkState Historical.zeroSessionData {[ "192.0.2.1" := l ]} [] in
  let clock : string -> Time := fun _ => 1000000000000000 in
  nonEmptyEntries (Historical.ipScoring st) /\
  Historical.ipScoring st !! "192.0.2.1" = Some l /\
  (100 < length l)%nat /\
  last l = Some s /\
  Historical.Timestamp s + Spec.fiveDays < clock "192.0.2.1" /\
  exists st1 st2 kept,
    Historical.sweep clock st = Ok st1 /\
    Historical.ipScoring st1 !! "192.0.2.1" = Some kept /\ length kept = 100%nat /\
    Historical.sweep clock st1 = Ok st2 /\
    Historical.ipScoring st2 !! "192.0.2.1" = None.
Proof.
  intros s l st clock.
  assert (Hne : nonEmptyEntries (Historical.ipScoring st)).
  { intros k l' Hk. unfold st in Hk. cbn [Historical.ipScoring] in Hk.
    apply lookup_singleton_Some in Hk as [_ <-]. discriminate. }
  assert (Hk : Historical.ipScoring st !! "192.0.2.1" = Some l) by apply lookup_singleton_eq.
  assert (Hlen : (100 < length l)%nat) by (vm_compute; lia).
  assert (Hlast : last l = Some s) by reflexivity.
  assert (Hold : Historical.Timestamp s + Spec.fiveDays < clock "192.0.2.1") by reflexivity.
  exact (conj Hne (conj Hk (conj Hlen (conj Hlast (conj Hold
    (stale_oversized_two_passes clock clock st "192.0.2.1" l s Hne Hk Hlen Hlast Hold)))))).
Defined.

Lemma disconnect_then_sweep_witness :
  let s : Historical.Scoring Q := Historical.mkScoring 0 0.5%Q 0 0 0 0 0 0 0 in
  let l0 := replicate 100 s in
  let st : Historical.State Q :=
    Historical.mkState Historical.zeroSessionData {[ "<nil>" := l0 ]} [] in
  let clock : string -> Time := fun _ => 8 in
  nonEmptyEntries (Historical.ipScoring st) /\
  Historical.skip (Historical.session st) = false /\
  Historical.ipScoring st !! IP_String (Historical.addr (Historical.session st)) = Some l0 /\
  (100 <= length l0)%nat /\
  exists st1 st2 summary,
    Historical.linkDisconnectCb 7 7 st = Ok st1 /\
    Historical.sweep clock st1 = Ok st2 /\
    Historical.Timestamp summary = 7 /\
    Historical.ipScoring st2 !! IP_String (Historical.addr (Historical.session st))
    = Some (drop (length l0 - 99) l0 ++ [summary]) /\
    length (drop (length l0 - 99) l0 ++ [summary]) = 100%nat.
Proof.
  intros s l0 st clock.
  assert (Hne : nonEmptyEntries (Historical.ipScoring st)).
  { intros k l' Hk. unfold st in Hk. cbn [Historical.ipScoring] in Hk.
    apply lookup_singleton_Some in Hk as [_ <-]. discriminate. }
  assert (Hskip : Historical.skip (Historical.session st) = false) by reflexivity.
  assert (Hk : Historical.ipScoring st !! IP_String (Historical.addr (Historical.session st))
               = Some l0) by apply lookup_singleton_eq.
  assert (Hlen : (100 <= length l0)%nat) by (vm_compute; lia).
  exact (conj Hne (conj Hskip (conj Hk (conj Hlen
    (disconnect_then_sweep 7 7 clock st l0 Hne Hskip Hk Hlen))))).
Defined.

Lemma sweep_scoresInUnit_witness :
  let oldest : Historical.Scoring Q := Historical.mkScoring 0 0.25%Q 0 0 0 0 0 0 0 in
  let newer : Historical.Scoring Q := Historical.mkScoring 5 0.5%Q 0 0 0 0 0 0 0 in
  let st : Historical.State Q :=
    Historical.mkState Historical.zeroSessionData
      {[ "192.0.2.1" := oldest :: replicate 100 newer ]} [] in
  nonEmptyEntries (Historical.ipScoring st) /\
  scoresInUnit (Historical.ipScoring st) /\
  exists st',
    Historical.sweep (fun _ => 8) st = Ok st' /\
    Historical.ipScoring st' !! "192.0.2.1" = Some (replicate 100 newer) /\
    scoresInUnit (Historical.ipScoring st') /\
    Forall (fun s => unitQ (Historical.Score s)) (replicate 100 newer).
Proof.
  intros oldest newer st.
  assert (Hne : nonEmptyEntries (Historical.ipScoring st)).
  { intros k l Hk. unfold st in Hk. cbn [Historical.ipScoring] in Hk.
    apply lookup_singleton_Some in Hk as [_ <-]. discriminate. }
  assert (Hinv : scoresInUnit (Historical.ipScoring st)).
  { intros k l Hk. unfold st in Hk. cbn [Historical.ipScoring] in Hk.
    apply lookup_singleton_Some in Hk as [_ <-].
    apply Forall_cons. split; [split; discriminate|].
    apply Forall_replicate. split; discriminate. }
  destruct (sweep_suffixes (fun _ => 8) st Hne) as (st' & Hrun & _ & Hlook & _).
  assert (Hk : Historical.ipScoring st' !! "192.0.2.1" = Some (replicate 100 newer)).
  { rewrite Hlook. unfold st. cbn [Historical.ipScoring]. rewrite lookup_singleton_eq.
    reflexivity. }
  pose proof (sweep_scoresInUnit (fun _ => 8) st st' Hne Hinv Hrun) as Hinv'.
  split; [exact Hne|]. split; [exact Hinv|]. exists st'. split; [exact Hrun|].
  split; [exact Hk|]. split; [exact Hinv'|]. exact (Hinv' "192.0.2.1" _ Hk).
Defined.

(** ** Monotony of the scorers *)

Lemma clamp01_monotone (x y : Q) : (x <= y)%Q -> (Spec.clamp01 x <= Spec.clamp01 y)%Q.
Proof.
  intros Hxy. unfold Spec.clamp01.
  destruct (Q.min_spec 1 x) as [[? ->]|[? ->]], (Q.min_spec 1 y) as [[? ->]|[? ->]];
    repeat match goal with
           | |- context [Qmax 0 ?a] =>
               let Hm := fresh "Hm" in
               destruct (Q.max_spec 0 a) as [[? Hm]|[? Hm]]; rewrite Hm; clear Hm
           end; lra.
Qed.

(** A transaction that has at least the flags and accepted recipients of
    another and at most its failed recipients scores at least as much. *)
Theorem scoreTransaction_monotone (tx tx' : Historical.Transaction) :
  in_int (Historical.rcptToTempfail tx + Historical.rcptToPermfail tx) ->
  in_int (Historical.rcptToTempfail tx' + Historical.rcptToPermfail tx') ->
  leb_bool (Historical.mailFromOK tx) (Historical.mailFromOK tx') ->
  leb_bool (Historical.sawData tx) (Historical.sawData tx') ->
  leb_bool (Historical.committed tx) (Historical.committed tx') ->
  Historical.rcptToOK tx <= Historical.rcptToOK tx' ->
  Historical.rcptToTempfail tx' + Historical.rcptToPermfail tx'
  <= Historical.rcptToTempfail tx + Historical.rcptToPermfail tx ->
  (Historical.scoreTransaction tx <= Historical.scoreTransaction tx')%Q.
Proof.
  intros Hin Hin' Hm Hd Hc Hok Hfail.
  rewrite (scoreTransaction_exact tx Hin), (scoreTransaction_exact tx' Hin').
  apply clamp01_monotone. unfold Spec.weight, leb_bool in *.
  rewrite <- !inject_Z_plus.
  rewrite Zle_Qle in Hok, Hfail.
  destruct (Historical.mailFromOK tx), (Historical.mailFromOK tx');
    try (specialize (Hm eq_refl); discriminate Hm);
    destruct (Historical.sawData tx), (Historical.sawData tx');
    try (specialize (Hd eq_refl); discriminate Hd);
    destruct (Historical.committed tx), (Historical.committed tx');
    try (specialize (Hc eq_refl); discriminate Hc); lra.
Qed.

(** With the same transactions, a session with at least the successful
    authentications and flags of another, and at most its failed
    authentications and resets, scores at least as much. *)
Theorem scoreSession_monotone (s s' : Historical.SessionData) :
  Historical.transactions s = Historical.transactions s' ->
  Historical.authok s <= Historical.authok s' ->
  Historical.authfail s' <= Historical.authfail s ->
  Historical.nResets s' <= Historical.nResets s ->
  leb_bool (Historical.cmdTLS s) (Historical.cmdTLS s') ->
  leb_bool (Historical.rdns s) (Historical.rdns s') ->
  leb_bool (Historical.fcrdns s) (Historical.fcrdns s') ->
  (Historical.scoreSession s <= Historical.scoreSession s')%Q.
Proof.
  intros Htx Hok Hfail Hres Ht Hr Hf.
  rewrite (scoreSession_exact s), (scoreSession_exact s').
  apply clamp01_monotone. unfold Spec.sessionScore, Spec.weight, leb_bool in *.
  rewrite Htx.
  rewrite Zle_Qle in Hok, Hfail, Hres.
  destruct (Historical.cmdTLS s), (Historical.cmdTLS s');
    try (specialize (Ht eq_refl); discriminate Ht);
    destruct (Historical.rdns s), (Historical.rdns s');
    try (specialize (Hr eq_refl); discriminate Hr);
    destruct (Historical.fcrdns s), (Historical.fcrdns s');
    try (specialize (Hf eq_refl); discriminate Hf); lra.
Qed.

Lemma scoreTransaction_monotone_witness :
  let tx := Historical.mkTransaction 1 2 true 1 1 0 false false in
  let tx' := Historical.mkTransaction 1 2 true 2 0 0 true false in
  in_int (Historical.rcptToTempfail tx + Historical.rcptToPermfail tx) /\
  in_int (Historical.rcptToTempfail tx' + Historical.rcptToPermfail tx') /\
  (Historical.scoreTransaction tx <= Historical.scoreTransaction tx')%Q.
Proof.
  intros tx tx'.
  assert (H1 : in_int (Historical.rcptToTempfail tx + Historical.rcptToPermfail tx))
    by (split; discriminate).
  assert (H2 : in_int (Historical.rcptToTempfail tx' + Historical.rcptToPermfail tx'))
    by (split; discriminate).
  refine (conj H1 (conj H2 (scoreTransaction_monotone tx tx' H1 H2 _ _ _ _ _))).
  - intros E; exact E.
  - intros E; discriminate E.
  - intros E; exact E.
  - discriminate.
  - discriminate.
Defined.

Lemma scoreSession_monotone_witness :
  let s := Historical.set_authfail 2 Historical.zeroSessionData in
  let s' := Historical.set_cmdTLS true (Historical.set_authfail 1 Historical.zeroSessionData) in
  Historical.transactions s = Historical.transactions s' /\
  (Historical.scoreSession s <= Historical.scoreSession s')%Q.
Proof.
  intros s s'.
  refine (conj eq_refl (scoreSession_monotone s s' eq_refl _ _ _ _ _ _)).
  - discriminate.
  - discriminate.
  - discriminate.
  - intros E; discriminate E.
  - intros E; exact E.
  - intros E; exact E.
Defined.

(** ** What the handlers of the incremental adjuster leave alone *)

Ltac incremental_step Hstep :=
  unfold Incremental.linkDisconnectCb, Incremental.linkIdentifyCb, Incremental.linkAuthCb,
    Incremental.linkTLSCb, Incremental.txResetCb, Incremental.txBeginCb, Incremental.txMailCb,
    Incremental.txRcptCb, Incremental.txDataCb, Incremental.txCommitCb,
    Incremental.txRollbackCb in Hstep;
  repeat match type of Hstep with
         | context [if ?b then _ else _] => destruct b eqn:?
         end;
  injection Hstep as <-.

Section IncrementalFrame.

Context {F : Type} `{Float64 F} {HS : Strings}.

Lemma tables_frame (ev : Event) (st st' : Incremental.State F) :
  isLinkDisconnect ev = false ->
  Incremental.dispatch ev st = Ok st' ->
  Incremental.reputation st' = Incremental.reputation st.
Proof.
  intros Hev Hstep. destruct ev; try discriminate Hev; cbn [Incremental.dispatch] in Hstep.
  - unfold Incremental.linkConnectCb in Hstep.
    destruct (Incremental.mustTCPAddr src); [|discriminate Hstep].
    cbn [mbind result_bind] in Hstep.
    repeat match type of Hstep with
           | context [if ?b then _ else _] => destruct b eqn:?
           end; injection Hstep as <-; reflexivity.
  - incremental_step Hstep; reflexivity.
  - incremental_step Hstep; reflexivity.
  - incremental_step Hstep; reflexivity.
  - incremental_step Hstep; reflexivity.
  - incremental_step Hstep; reflexivity.
  - incremental_step Hstep; reflexivity.
  - incremental_step Hstep; reflexivity.
  - incremental_step Hstep; reflexivity.
  - incremental_step Hstep; reflexivity.
  - incremental_step Hstep; reflexivity.
Qed.

(** What a handler other than connect keeps of the session: the address,
    the reverse-DNS name and its flags; and the HELO name unless the
    handler is identify. *)
Lemma identity_kept (ev : Event) (st st' : Incremental.State F) :
  isLinkConnect ev = false ->
  Incremental.dispatch ev st = Ok st' ->
  Incremental.ip (Incremental.session st') = Incremental.ip (Incremental.session st) /\
  Incremental.rDNS (Incremental.session st') = Incremental.rDNS (Incremental.session st) /\
  Incremental.hasReverseDNS (Incremental.session st')
  = Incremental.hasReverseDNS (Incremental.session st) /\
  Incremental.heloname (Incremental.session st')
  = match ev with
    | LinkIdentify _ _ h => ToLower h
    | _ => Incremental.heloname (Incremental.session st)
    end.
Proof.
  intros Hev Hstep. destruct ev; try discriminate Hev; cbn [Incremental.dispatch] in Hstep;
    incremental_step Hstep; repeat split.
Qed.

Lemma Feedback_tables (t : Time) (st : Incremental.State F) :
  let s := Incremental.session st in
  exists st',
    Incremental.linkDisconnectCb t st = Ok st' /\
    Incremental.IPAddress (Incremental.reputation st') (Incremental.ip s)
    = Incremental.ipReputation (Incremental.session st') /\
    Incremental.ReverseDNS (Incremental.reputation st') (Incremental.rDNS s)
    = Incremental.rdnsReputation (Incremental.session st') /\
    Incremental.Hostname (Incremental.reputation st') (Incremental.heloname s)
    = Incremental.heloReputation (Incremental.session st') /\
    (forall ip2, IP_String ip2 <> IP_String (Incremental.ip s) ->
       Incremental.IPAddress (Incremental.reputation st') ip2
       = Incremental.IPAddress (Incremental.reputation st) ip2) /\
    (forall name, name <> Incremental.rDNS s ->
       Incremental.ReverseDNS (Incremental.reputation st') name
       = Incremental.ReverseDNS (Incremental.reputation st) name) /\
    (forall name, name <> Incremental.heloname s ->
       Incremental.Hostname (Incremental.reputation st') name
       = Incremental.Hostname (Incremental.reputation st) name).
Proof.
  intros s. eexists. split; [reflexivity|].
  unfold Incremental.IPAddress, Incremental.ReverseDNS, Incremental.Hostname.
  cbn [Incremental.Feedback Incremental.Fprintf Incremental.reputation Incremental.session
       Incremental.ipAddress Incremental.rdns Incremental.hostname
       Incremental.set_ipReputation Incremental.set_rdnsReputation
       Incremental.set_heloReputation Incremental.ip Incremental.rDNS Incremental.heloname
       Incremental.ipReputation Incremental.rdnsReputation Incremental.heloReputation].
  fold s. rewrite !lookup_insert_eq. repeat split; try reflexivity.
  - intros ip2 Hne. rewrite lookup_insert_ne by congruence. reflexivity.
  - intros name Hne. rewrite lookup_insert_ne by congruence. reflexivity.
  - intros name Hne. rewrite lookup_insert_ne by congruence. reflexivity.
Qed.

(** The trust tables are written at disconnect and by no other handler: a
    run without a disconnect event leaves them as they were. *)
Theorem tables_written_at_disconnect (evs : list Event) (st st' : Incremental.State F) :
  forallb (fun ev => negb (isLinkDisconnect ev)) evs = true ->
  Incremental.run evs st = Ok st' ->
  Incremental.reputation st' = Incremental.reputation st.
Proof.
  revert st. induction evs as [|ev evs IH]; intros st Hevs Hrun.
  - injection Hrun as <-. reflexivity.
  - cbn [forallb] in Hevs. apply andb_true_iff in Hevs as [Hev Hevs].
    apply negb_true_iff in Hev. cbn [Incremental.run] in Hrun.
    destruct (Incremental.dispatch ev st) as [st1|] eqn:Hstep; [|discriminate Hrun].
    cbn [mbind result_bind] in Hrun.
    rewrite (IH st1 Hevs Hrun). exact (tables_frame ev st st1 Hev Hstep).
Qed.

End IncrementalFrame.

Lemma tables_written_at_disconnect_witness :
  let st : Incremental.State Q :=
    Incremental.mkState Incremental.zeroSessionData Incremental.NewReputation [] in
  let evs := [LinkConnect 1 "mx.example.org" "ok" (TCPAddr (Some "192.0.2.1") 25)
                (TCPAddr (Some "192.0.2.2") 25);
              TxMail 2 "4f2a" "ok" "alice@example.org"] in
  forallb (fun ev => negb (isLinkDisconnect ev)) evs = true /\
  exists st',
    Incremental.run (HS:=ASCIIStrings) evs st = Ok st' /\
    Incremental.reputation st' = Incremental.reputation st.
Proof.
  intros st evs. split; [reflexivity|]. eexists. split; [reflexivity|].
  exact (tables_written_at_disconnect (HS:=ASCIIStrings) evs st _ eq_refl eq_refl).
Defined.

(** ** Trust values stay in the unit interval *)

Lemma lookups_unit (r : Incremental.Reputation Q) :
  tablesInUnit r ->
  (forall ip, unitQ (Incremental.IPAddress r ip)) /\
  (forall n, unitQ (Incremental.ReverseDNS r n)) /\
  (forall n, unitQ (Incremental.Hostname r n)).
Proof.
  intros (Hi & Hr & Hh).
  assert (Hhalf : unitQ (f_lit 0.5)) by (unfold unitQ; cbn [f_lit Q_Float64]; lra).
  unfold Incremental.IPAddress, Incremental.ReverseDNS, Incremental.Hostname.
  split; [|split]; intros k.
  - destruct (Incremental.ipAddress r !! IP_String k) eqn:Hv; [eapply Hi; exact Hv|exact Hhalf].
  - destruct (Incremental.rdns r !! k) eqn:Hv; [eapply Hr; exact Hv|exact Hhalf].
  - destruct (Incremental.hostname r !! k) eqn:Hv; [eapply Hh; exact Hv|exact Hhalf].
Qed.

Lemma clamp_unit (x : Q) : unitQ (Incremental.clamp x (f_lit 0) (f_lit 1)).
Proof. apply clamp_range. Qed.

Lemma insert_unit (m : gmap string Q) (k : string) (v : Q) :
  tableInUnit m -> unitQ v -> tableInUnit (<[k := v]> m).
Proof.
  intros Hm Hv k' v'. rewrite lookup_insert. case_decide; [intros [= <-]; exact Hv|apply Hm].
Qed.

Lemma applyReward_unit (c : string) (v : Q) : unitQ (Incremental.applyReward c v).
Proof. apply clamp_range. Qed.

Lemma applyPenalty_unit (c : string) (v : Q) : unitQ (Incremental.applyPenalty c v).
Proof. apply clamp_range. Qed.

Lemma linkConnectCb_helo {F : Type} `{Float64 F} {HS : Strings} (st : Incremental.State F)
    (t : Time)
    (r f : string) (ip : IP) (port : Z) (dest : Addr) (st' : Incremental.State F) :
  Incremental.linkConnectCb t r f (TCPAddr ip port) dest st = Ok st' ->
  Incremental.heloReputation (Incremental.session st')
  = Incremental.heloReputation (Incremental.session st) /\
  Incremental.heloname (Incremental.session st') = Incremental.heloname (Incremental.session st).
Proof.
  unfold Incremental.linkConnectCb. cbn [Incremental.mustTCPAddr mbind result_bind].
  cbn [Incremental.hasReverseDNS Incremental.hasFcReverseDNS Incremental.set_ip
       Incremental.set_rDNS Incremental.set_hasReverseDNS Incremental.set_hasFcReverseDNS].
  destruct (negb (negb _)), (negb (negb _)); intros [= <-]; split; reflexivity.
Qed.

(** Every handler keeps the trust tables and the trust values of the
    session in [0,1]. *)
Theorem dispatch_trustInUnit {HS : Strings} (ev : Event) (st st' : Incremental.State Q) :
  tablesInUnit (Incremental.reputation st) ->
  sessionInUnit (Incremental.session st) ->
  Incremental.dispatch ev st = Ok st' ->
  tablesInUnit (Incremental.reputation st') /\ sessionInUnit (Incremental.session st').
Proof.
  intros Htab Hses Hstep.
  destruct (lookups_unit _ Htab) as (Hip & Hrd & Hho).
  pose proof Htab as (Ti & Tr & Th).
  destruct Hses as (Ho & Hi & Hr & Hh).
  destruct ev; cbn [Incremental.dispatch] in Hstep.
  - (* connect *)
    destruct (Incremental.mustTCPAddr src) as [ip|] eqn:Hsrc;
      [|unfold Incremental.linkConnectCb in Hstep; rewrite Hsrc in Hstep; discriminate Hstep].
    destruct src; try discriminate Hsrc. injection Hsrc as ->.
    destruct (linkConnectCb_TCP st timestamp rdns fcrdns ip port dest)
      as (st1 & Hrun & Hrep & Hov & Hipr & Hrdr).
    pose proof (linkConnectCb_helo st timestamp rdns fcrdns ip port dest st1 Hrun) as [Hhelo _].
    cbv zeta in Hov, Hipr, Hrdr. rewrite Hrun in Hstep. injection Hstep as <-.
    split; [rewrite Hrep; exact Htab|].
    unfold sessionInUnit. rewrite Hov, Hipr, Hrdr, Hhelo.
    split; [|split; [|split]].
    + specialize (Hip ip). specialize (Hrd (ToLower rdns)). unfold unitQ in *.
      cbn [f_add f_mul f_div f_lit Q_Float64].
      set (a := Incremental.IPAddress _ _) in *. set (b := Incremental.ReverseDNS _ _) in *.
      unfold Qdiv. change (/ 2)%Q with (1 # 2)%Q. split; lra.
    + unfold Spec.adjusted. destruct (negb _), (negb _); apply clamp_unit.
    + unfold Spec.adjusted. destruct (negb _), (negb _); apply clamp_unit.
    + exact Hh.
  - (* disconnect *)
    injection Hstep as <-.
    cbn [Incremental.Feedback Incremental.Fprintf Incremental.reputation Incremental.session
         Incremental.ipAddress Incremental.rdns Incremental.hostname
         Incremental.set_ipReputation Incremental.set_rdnsReputation
         Incremental.set_heloReputation Incremental.ip Incremental.rDNS Incremental.heloname
         Incremental.ipReputation Incremental.rdnsReputation Incremental.heloReputation
         Incremental.overallReputation].
    split.
    + split; [|split]; cbn [Incremental.ipAddress Incremental.rdns Incremental.hostname];
        apply insert_unit; first [assumption | apply clamp_unit].
    + unfold sessionInUnit.
      cbn [Incremental.ipReputation Incremental.rdnsReputation Incremental.heloReputation
           Incremental.overallReputation].
      split; [exact Ho|]. split; [|split]; apply clamp_unit.
  - (* identify *)
    unfold Incremental.linkIdentifyCb in Hstep.
    cbn [Incremental.hasReverseDNS Incremental.set_heloname Incremental.set_hasEHLO
         Incremental.rDNS Incremental.ip Incremental.heloname] in Hstep.
    specialize (Hip (Incremental.ip (Incremental.session st))).
    specialize (Hrd (Incremental.rDNS (Incremental.session st))).
    specialize (Hho (ToLower hostname)).
    set (a := Incremental.IPAddress _ _) in *. set (b := Incremental.ReverseDNS _ _) in *.
    set (c := Incremental.Hostname _ _) in *.
    pose proof (applyPenalty_unit "heloname" a) as Hpa.
    pose proof (applyPenalty_unit "heloname" b) as Hpb.
    pose proof (applyPenalty_unit "heloname" c) as Hpc.
    pose proof (applyReward_unit "heloname" a) as Hra.
    pose proof (applyReward_unit "heloname" b) as Hrb.
    pose proof (applyReward_unit "heloname" c) as Hrc.
    destruct (Incremental.hasReverseDNS (Incremental.session st));
      [destruct (negb _)|]; injection Hstep as <-;
      (split; [exact Htab|]); unfold sessionInUnit;
      cbn [Incremental.session Incremental.set_session Incremental.Fprintf
           Incremental.overallReputation Incremental.ipReputation Incremental.rdnsReputation
           Incremental.heloReputation Incremental.set_overallReputation
           Incremental.set_heloReputation Incremental.set_heloname Incremental.set_hasEHLO];
      (split; [|split; [exact Hi|split; [exact Hr|assumption]]]);
      unfold unitQ in *; cbn [f_add f_mul f_div f_lit Q_Float64];
      unfold Qdiv; change (/ 3)%Q with (1 # 3)%Q;
      match goal with
      | |- (0 <= (?x * _ + ?y * _ + ?z * _) * _ <= 1)%Q =>
          generalize dependent x; generalize dependent y; generalize dependent z; intros; lra
      end.
  - (* auth *)
    incremental_step Hstep; exact (conj Htab (conj Ho (conj Hi (conj Hr Hh)))).
  - incremental_step Hstep; exact (conj Htab (conj Ho (conj Hi (conj Hr Hh)))).
  - incremental_step Hstep; exact (conj Htab (conj Ho (conj Hi (conj Hr Hh)))).
  - incremental_step Hstep; exact (conj Htab (conj Ho (conj Hi (conj Hr Hh)))).
  - (* mail *)
    incremental_step Hstep; (split; [exact Htab|]); unfold sessionInUnit;
      cbn [Incremental.session Incremental.set_session Incremental.Fprintf
           Incremental.overallReputation Incremental.ipReputation Incremental.rdnsReputation
           Incremental.heloReputation Incremental.set_overallReputation
           Incremental.set_failedMail Incremental.set_txMailFrom];
      (split; [apply clamp_unit|split; [exact Hi|split; [exact Hr|exact Hh]]]).
  - (* rcpt *)
    incremental_step Hstep; (split; [exact Htab|]); unfold sessionInUnit;
      cbn [Incremental.session Incremental.set_session Incremental.Fprintf
           Incremental.overallReputation Incremental.ipReputation Incremental.rdnsReputation
           Incremental.heloReputation Incremental.set_overallReputation
           Incremental.set_failedRcpt Incremental.set_txRcptTo];
      (split; [apply clamp_unit|split; [exact Hi|split; [exact Hr|exact Hh]]]).
  - incremental_step Hstep; exact (conj Htab (conj Ho (conj Hi (conj Hr Hh)))).
  - incremental_step Hstep; exact (conj Htab (conj Ho (conj Hi (conj Hr Hh)))).
  - incremental_step Hstep; exact (conj Htab (conj Ho (conj Hi (conj Hr Hh)))).
Qed.

Lemma dispatch_trustInUnit_witness :
  let st : Incremental.State Q :=
    Incremental.mkState Incremental.zeroSessionData Incremental.NewReputation [] in
  let ev := TxRcpt 2 "4f2a" "ok" "bob@example.org" in
  tablesInUnit (Incremental.reputation st) /\
  sessionInUnit (Incremental.session st) /\
  exists st',
    Incremental.dispatch (HS:=ASCIIStrings) ev st = Ok st' /\
    tablesInUnit (Incremental.reputation st') /\ sessionInUnit (Incremental.session st').
Proof.
  intros st ev.
  assert (Htab : tablesInUnit (Incremental.reputation st)).
  { split; [|split]; intros k v Hk; unfold st, Incremental.NewReputation in Hk;
      cbn [Incremental.reputation Incremental.ipAddress Incremental.rdns Incremental.hostname]
        in Hk; rewrite lookup_empty in Hk; discriminate Hk. }
  assert (Hses : sessionInUnit (Incremental.session st)).
  { split; [|split; [|split]]; split; discriminate. }
  split; [exact Htab|]. split; [exact Hses|]. eexists. split; [reflexivity|].
  exact (dispatch_trustInUnit (HS:=ASCIIStrings) ev st _ Htab Hses eq_refl).
Defined.

(** ** A whole session of the incremental adjuster *)

Section IncrementalSession.

Context {F : Type} `{Float64 F} {HS : Strings}.

Lemma incremental_run_app (evs1 evs2 : list Event) (st : Incremental.State F) :
  Incremental.run (evs1 ++ evs2) st
  = (st1 ← Incremental.run evs1 st; Incremental.run evs2 st1).
Proof.
  revert st. induction evs1 as [|ev evs1 IH]; intros st; [reflexivity|].
  cbn [app Incremental.run]. destruct (Incremental.dispatch ev st); cbn [mbind result_bind];
    [apply IH|reflexivity].
Qed.

Lemma linkConnectCb_identity (st : Incremental.State F) (t : Time)
    (r f : string) (ip : IP) (port : Z) (dest : Addr) (st' : Incremental.State F) :
  Incremental.linkConnectCb t r f (TCPAddr ip port) dest st = Ok st' ->
  Incremental.ip (Incremental.session st') = ip /\
  Incremental.rDNS (Incremental.session st') = ToLower r /\
  Incremental.heloname (Incremental.session st') = Incremental.heloname (Incremental.session st) /\
  Incremental.reputation st' = Incremental.reputation st.
Proof.
  unfold Incremental.linkConnectCb. cbn [Incremental.mustTCPAddr mbind result_bind].
  cbn [Incremental.hasReverseDNS Incremental.hasFcReverseDNS Incremental.set_ip
       Incremental.set_rDNS Incremental.set_hasReverseDNS Incremental.set_hasFcReverseDNS].
  destruct (negb (negb _)), (negb (negb _)); intros [= <-]; repeat split.
Qed.

Lemma run_within_session (evs : list Event) (st st' : Incremental.State F) :
  forallb withinSession evs = true ->
  Incremental.run evs st = Ok st' ->
  Incremental.ip (Incremental.session st') = Incremental.ip (Incremental.session st) /\
  Incremental.rDNS (Incremental.session st') = Incremental.rDNS (Incremental.session st) /\
  Incremental.heloname (Incremental.session st')
  = lastHelo evs (Incremental.heloname (Incremental.session st)) /\
  Incremental.reputation st' = Incremental.reputation st.
Proof.
  revert st. induction evs as [|ev evs IH]; intros st Hevs Hrun.
  - injection Hrun as <-. repeat split.
  - cbn [forallb] in Hevs. apply andb_true_iff in Hevs as [Hev Hevs].
    apply andb_true_iff in Hev as [Hc Hd].
    apply negb_true_iff in Hc. apply negb_true_iff in Hd.
    cbn [Incremental.run] in Hrun.
    destruct (Incremental.dispatch ev st) as [st1|] eqn:Hstep; [|discriminate Hrun].
    cbn [mbind result_bind] in Hrun.
    destruct (identity_kept ev st st1 Hc Hstep) as (Hip & Hrd & _ & Hhe).
    pose proof (tables_frame ev st st1 Hd Hstep) as Hrep.
    destruct (IH st1 Hevs Hrun) as (Hip' & Hrd' & Hhe' & Hrep').
    rewrite Hip', Hrd', Hhe', Hrep', Hip, Hrd, Hhe, Hrep.
    repeat split. destruct ev; reflexivity.
Qed.

(** A session that connects from a TCP address and disconnects: afterwards
    the three tables answer, under the connecting address, the lower-cased
    reverse name and the last announced HELO name, with the session's final
    per-resource trust; every other key answers as before the session. *)
Theorem session_feedback_keys (st st' : Incremental.State F) (t t' : Time)
    (r f : string) (ip : IP) (port : Z) (dest : Addr) (evs : list Event) :
  forallb withinSession evs = true ->
  Incremental.run (LinkConnect t r f (TCPAddr ip port) dest :: evs ++ [LinkDisconnect t']) st
  = Ok st' ->
  let helo := lastHelo evs (Incremental.heloname (Incremental.session st)) in
  Incremental.IPAddress (Incremental.reputation st') ip
  = Incremental.ipReputation (Incremental.session st') /\
  Incremental.ReverseDNS (Incremental.reputation st') (ToLower r)
  = Incremental.rdnsReputation (Incremental.session st') /\
  Incremental.Hostname (Incremental.reputation st') helo
  = Incremental.heloReputation (Incremental.session st') /\
  (forall ip2, IP_String ip2 <> IP_String ip ->
     Incremental.IPAddress (Incremental.reputation st') ip2
     = Incremental.IPAddress (Incremental.reputation st) ip2) /\
  (forall name, name <> ToLower r ->
     Incremental.ReverseDNS (Incremental.reputation st') name
     = Incremental.ReverseDNS (Incremental.reputation st) name) /\
  (forall name, name <> helo ->
     Incremental.Hostname (Incremental.reputation st') name
     = Incremental.Hostname (Incremental.reputation st) name).
Proof.
  intros Hevs Hrun helo. cbn [Incremental.run Incremental.dispatch] in Hrun.
  destruct (Incremental.linkConnectCb t r f (TCPAddr ip port) dest st) as [st1|] eqn:Hconn;
    [|discriminate Hrun].
  cbn [mbind result_bind] in Hrun. rewrite incremental_run_app in Hrun.
  destruct (Incremental.run evs st1) as [st2|] eqn:Hmid; [|discriminate Hrun].
  cbn [mbind result_bind Incremental.run Incremental.dispatch] in Hrun.
  destruct (linkConnectCb_identity _ _ _ _ _ _ _ _ Hconn) as (Hip1 & Hrd1 & Hhe1 & Hrep1).
  destruct (run_within_session _ _ _ Hevs Hmid) as (Hip2 & Hrd2 & Hhe2 & Hrep2).
  destruct (Feedback_tables t' st2) as (st3 & Hdis & Ha & Hb & Hc & Hd & He & Hf).
  rewrite Hdis in Hrun. cbn [mbind result_bind] in Hrun. injection Hrun as <-.
  rewrite Hip2, Hip1 in Ha, Hd. rewrite Hrd2, Hrd1 in Hb, He.
  rewrite Hhe2, Hhe1 in Hc, Hf. rewrite Hrep2, Hrep1 in Hd, He, Hf.
  repeat split; assumption.
Qed.

End IncrementalSession.

Lemma session_feedback_keys_witness :
  let st : Incremental.State Q :=
    Incremental.mkState Incremental.zeroSessionData Incremental.NewReputation [] in
  let evs := [LinkIdentify 2 "EHLO" "MX.Example.Org"; TxBegin 3 "4f2a"] in
  forallb withinSession evs = true /\
  exists st',
    Incremental.run (HS:=ASCIIStrings)
      (LinkConnect 1 "MX.example.org" "ok" (TCPAddr (Some "192.0.2.1") 25)
                       (TCPAddr (Some "192.0.2.2") 25) :: evs ++ [LinkDisconnect 4]) st
    = Ok st' /\
    Incremental.IPAddress (Incremental.reputation st') (Some "192.0.2.1")
    = Incremental.ipReputation (Incremental.session st') /\
    Incremental.ReverseDNS (Incremental.reputation st') "mx.example.org"
    = Incremental.rdnsReputation (Incremental.session st') /\
    Incremental.Hostname (Incremental.reputation st') "mx.example.org"
    = Incremental.heloReputation (Incremental.session st').
Proof.
  intros st evs. split; [reflexivity|].
  destruct (Incremental.run (HS:=ASCIIStrings) _ st) as [st'|p] eqn:Hrun;
    [|vm_compute in Hrun; discriminate Hrun].
  exists st'. split; [reflexivity|].
  destruct (session_feedback_keys (HS:=ASCIIStrings) st st' 1 4 "MX.example.org" "ok"
              (Some "192.0.2.1") 25
              (TCPAddr (Some "192.0.2.2") 25) evs eq_refl Hrun) as (H1 & H2 & H3 & _).
  exact (conj H1 (conj H2 H3)).
Defined.

(** ** Ceilings and repetition of the adjustments *)

(** The overall trust of a session never reaches the neutral 0.5 at
    connect or at identify: with every table entry in [0,1] it is at most
    0.4 after a connect and at most 1/3 after an identify. *)
Theorem overall_ceiling {HS : Strings} (ev : Event) (st st' : Incremental.State Q) :
  tablesInUnit (Incremental.reputation st) ->
  Incremental.dispatch ev st = Ok st' ->
  (isLinkConnect ev = true ->
   (0 <= Incremental.overallReputation (Incremental.session st') <= 0.4)%Q) /\
  (isLinkIdentify ev = true ->
   (0 <= Incremental.overallReputation (Incremental.session st') <= 1 # 3)%Q).
Proof.
  intros Htab Hstep.
  destruct (lookups_unit _ Htab) as (Hip & Hrd & Hho).
  destruct ev; cbn [Incremental.dispatch] in Hstep;
    (split; intros Hev; [try discriminate Hev|try discriminate Hev]).
  - destruct (Incremental.mustTCPAddr src) as [ip|] eqn:Hsrc;
      [|unfold Incremental.linkConnectCb in Hstep; rewrite Hsrc in Hstep; discriminate Hstep].
    destruct src; try discriminate Hsrc. injection Hsrc as ->.
    destruct (linkConnectCb_TCP st timestamp rdns fcrdns ip port dest)
      as (st1 & Hrun & _ & Hov & _).
    cbv zeta in Hov. rewrite Hrun in Hstep. injection Hstep as <-. rewrite Hov.
    specialize (Hip ip). specialize (Hrd (ToLower rdns)). unfold unitQ in *.
    cbn [f_add f_mul f_div f_lit Q_Float64].
    set (a := Incremental.IPAddress _ _) in *. set (b := Incremental.ReverseDNS _ _) in *.
    unfold Qdiv. change (/ 2)%Q with (1 # 2)%Q. split; lra.
  - unfold Incremental.linkIdentifyCb in Hstep.
    cbn [Incremental.hasReverseDNS Incremental.set_heloname Incremental.set_hasEHLO
         Incremental.rDNS Incremental.ip Incremental.heloname] in Hstep.
    specialize (Hip (Incremental.ip (Incremental.session st))).
    specialize (Hrd (Incremental.rDNS (Incremental.session st))).
    specialize (Hho (ToLower hostname)).
    set (a := Incremental.IPAddress _ _) in *. set (b := Incremental.ReverseDNS _ _) in *.
    set (c := Incremental.Hostname _ _) in *.
    pose proof (applyPenalty_unit "heloname" a) as Hpa.
    pose proof (applyPenalty_unit "heloname" b) as Hpb.
    pose proof (applyPenalty_unit "heloname" c) as Hpc.
    pose proof (applyReward_unit "heloname" a) as Hra.
    pose proof (applyReward_unit "heloname" b) as Hrb.
    pose proof (applyReward_unit "heloname" c) as Hrc.
    destruct (Incremental.hasReverseDNS (Incremental.session st));
      [destruct (negb _)|]; injection Hstep as <-;
      cbn [Incremental.session Incremental.set_session Incremental.Fprintf
           Incremental.overallReputation Incremental.set_overallReputation];
      unfold unitQ in *; cbn [f_add f_mul f_div f_lit Q_Float64];
      unfold Qdiv; change (/ 3)%Q with (1 # 3)%Q;
      match goal with
      | |- (0 <= (?x * _ + ?y * _ + ?z * _) * _ <= _)%Q =>
          generalize dependent x; generalize dependent y; generalize dependent z; intros; lra
      end.
Qed.

(** [n] penalties in a row take [n] times the class's penalty off the
    trust, down to 0 at most; [n] rewards in a row add [n] times the
    class's reward, up to 1 at most. *)
Theorem repeated_adjustment (c : string) (f v : Q) (n : nat) :
  Incremental.degradationFactors !! c = Some f ->
  (0 <= v <= 1)%Q ->
  (Nat.iter n (Incremental.applyPenalty c) v
   == Qmax 0 (v - inject_Z (Z.of_nat n) * (0.1 * f)))%Q /\
  (Nat.iter n (Incremental.applyReward c) v
   == Qmin 1 (v + inject_Z (Z.of_nat n) * (0.05 * f)))%Q.
Proof.
  intros Hf Hv. pose proof (factor_range c f Hf) as Hrange.
  induction n as [|n [IHp IHr]].
  - cbv [Nat.iter nat_rect]. cbn [Z.of_nat]. change (inject_Z 0) with 0%Q.
    destruct (Q.max_spec 0 (v - 0 * (0.1 * f))) as [[? ->]|[? ->]];
    destruct (Q.min_spec 1 (v + 0 * (0.05 * f))) as [[? ->]|[? ->]]; split; lra.
  - rewrite !Nat.iter_succ. rewrite Nat2Z.inj_succ. unfold Z.succ. rewrite inject_Z_plus.
    change (inject_Z 1) with 1%Q.
    assert (Hn : (0 <= inject_Z (Z.of_nat n))%Q).
    { change 0%Q with (inject_Z 0). rewrite <- Zle_Qle. lia. }
    set (k := inject_Z (Z.of_nat n)) in *.
    pose proof (applyPenalty_cases c f (Nat.iter n (Incremental.applyPenalty c) v) Hf) as Hp.
    pose proof (applyReward_cases c f (Nat.iter n (Incremental.applyReward c) v) Hf) as Hr.
    cbv zeta in Hp, Hr.
    set (p := Nat.iter n (Incremental.applyPenalty c) v) in *.
    set (r := Nat.iter n (Incremental.applyReward c) v) in *.
    set (p' := Incremental.applyPenalty c p) in *.
    set (r' := Incremental.applyReward c r) in *.
    destruct (Q.max_spec 0 (v - k * (0.1 * f))) as [[? Hm1]|[? Hm1]]; rewrite Hm1 in IHp;
    destruct (Q.max_spec 0 (v - (k + 1) * (0.1 * f))) as [[? ->]|[? ->]];
    destruct (Q.min_spec 1 (v + k * (0.05 * f))) as [[? Hm2]|[? Hm2]]; rewrite Hm2 in IHr;
    destruct (Q.min_spec 1 (v + (k + 1) * (0.05 * f))) as [[? ->]|[? ->]];
    split; nra.
Qed.

Lemma overall_ceiling_witness :
  let st : Incremental.State Q :=
    Incremental.mkState Incremental.zeroSessionData Incremental.NewReputation [] in
  let ev := LinkIdentify 2 "EHLO" "mx.example.org" in
  tablesInUnit (Incremental.reputation st) /\
  exists st',
    Incremental.dispatch (HS:=ASCIIStrings) ev st = Ok st' /\
    (0 <= Incremental.overallReputation (Incremental.session st') <= 1 # 3)%Q.
Proof.
  intros st ev.
  assert (Htab : tablesInUnit (Incremental.reputation st)).
  { split; [|split]; intros k v Hk; unfold st, Incremental.NewReputation in Hk;
      cbn [Incremental.reputation Incremental.ipAddress Incremental.rdns Incremental.hostname]
        in Hk; rewrite lookup_empty in Hk; discriminate Hk. }
  split; [exact Htab|]. eexists. split; [reflexivity|].
  exact (proj2 (overall_ceiling (HS:=ASCIIStrings) ev st _ Htab eq_refl) eq_refl).
Defined.

Lemma repeated_adjustment_witness :
  Incremental.degradationFactors (F:=Q) !! "recipient" = Some 0.5%Q /\
  (0 <= 0.5 <= 1)%Q /\
  (Nat.iter 3 (Incremental.applyPenalty "recipient") 0.5
   == Qmax 0 (0.5 - inject_Z (Z.of_nat 3) * (0.1 * 0.5)))%Q /\
  (Nat.iter 3 (Incremental.applyReward "recipient") 0.5
   == Qmin 1 (0.5 + inject_Z (Z.of_nat 3) * (0.05 * 0.5)))%Q.
Proof.
  assert (Hc : Incremental.degradationFactors (F:=Q) !! "recipient" = Some 0.5%Q) by reflexivity.
  assert (Hv : (0 <= 0.5 <= 1)%Q) by (split; discriminate).
  exact (conj Hc (conj Hv (repeated_adjustment "recipient" 0.5%Q 0.5%Q 3 Hc Hv))).
Defined.

(** ** The counters of the incremental adjuster *)

Section IncrementalCounters.

Context {F : Type} `{Float64 F} {HS : Strings}.

(** A field that every handler either increments, on the events picked by
    [p], or leaves alone, counts those events over a run. *)
Lemma counter_run (get : Incremental.SessionData F -> Z) (p : Event -> bool) :
  (forall ev (st st' : Incremental.State F),
     Incremental.dispatch ev st = Ok st' ->
     get (Incremental.session st')
     = if p ev then int_incr (get (Incremental.session st)) else get (Incremental.session st)) ->
  forall evs (st st' : Incremental.State F),
    in_int (get (Incremental.session st)) ->
    Incremental.run evs st = Ok st' ->
    get (Incremental.session st') = wrap (get (Incremental.session st) + countZ p evs).
Proof.
  intros Hstep evs. induction evs as [|ev evs IH]; intros st st' Hin Hrun.
  - injection Hrun as <-. cbn [countZ]. rewrite Z.add_0_r, wrap_in_int by exact Hin. reflexivity.
  - cbn [Incremental.run] in Hrun.
    destruct (Incremental.dispatch ev st) as [st1|] eqn:Hd; [|discriminate Hrun].
    cbn [mbind result_bind] in Hrun. specialize (Hstep ev st st1 Hd).
    assert (Hin1 : in_int (get (Incremental.session st1))).
    { rewrite Hstep. destruct (p ev); [apply wrap_range|exact Hin]. }
    rewrite (IH st1 st' Hin1 Hrun), Hstep. cbn [countZ]. unfold int_incr, int_add.
    destruct (p ev); rewrite ?wrap_add_l; f_equal; lia.
Qed.

(** Over any run the ten counters of the session count the events they
    are named after, each as a 64-bit counter: the begun transactions,
    the sender and recipient commands and those among them that were
    refused, the data phases, commits, rollbacks and resets, and the
    failed authentications.  A connect event resets none of them. *)
Theorem incremental_counters (evs : list Event) (st st' : Incremental.State F) :
  let s := Incremental.session st in
  let s' := Incremental.session st' in
  Forall in_int [Incremental.txBegin s; Incremental.txMailFrom s; Incremental.failedMail s;
                 Incremental.txRcptTo s; Incremental.failedRcpt s; Incremental.txData s;
                 Incremental.txCommit s; Incremental.txRollback s; Incremental.rsetCount s;
                 Incremental.failedAuth s] ->
  Incremental.run evs st = Ok st' ->
  Incremental.txBegin s' = wrap (Incremental.txBegin s + countZ isTxBegin evs) /\
  Incremental.txMailFrom s' = wrap (Incremental.txMailFrom s + countZ isTxMail evs) /\
  Incremental.failedMail s' = wrap (Incremental.failedMail s + countZ isTxMailFail evs) /\
  Incremental.txRcptTo s' = wrap (Incremental.txRcptTo s + countZ isTxRcpt evs) /\
  Incremental.failedRcpt s' = wrap (Incremental.failedRcpt s + countZ isTxRcptFail evs) /\
  Incremental.txData s' = wrap (Incremental.txData s + countZ isTxData evs) /\
  Incremental.txCommit s' = wrap (Incremental.txCommit s + countZ isTxCommit evs) /\
  Incremental.txRollback s' = wrap (Incremental.txRollback s + countZ isTxRollback evs) /\
  Incremental.rsetCount s' = wrap (Incremental.rsetCount s + countZ isTxReset evs) /\
  Incremental.failedAuth s' = wrap (Incremental.failedAuth s + countZ isAuthFail evs).
Proof.
  intros s s' Hin Hrun. subst s s'.
  repeat match goal with
         | H : Forall _ (_ :: _) |- _ => apply Forall_cons in H as [? H]
         end.
  repeat match goal with
         | |- _ /\ _ => split
         end;
    match goal with
    | |- ?get (Incremental.session st') = wrap (_ + countZ ?p evs) =>
        apply (counter_run get p); [|assumption|exact Hrun]
    end;
    intros ev st0 st1 Hd; destruct ev; cbn [Incremental.dispatch] in Hd;
    try (unfold Incremental.linkConnectCb in Hd;
         destruct (Incremental.mustTCPAddr src); [|discriminate Hd];
         cbn [mbind result_bind] in Hd);
    incremental_step Hd;
    cbn [isTxBegin isTxMail isTxMailFail isTxRcpt isTxRcptFail isTxData isTxCommit
         isTxRollback isTxReset isAuthFail];
    repeat match goal with
           | Hb : ?b = _ |- context [if ?b then _ else _] => rewrite Hb
           end;
    reflexivity.
Qed.

End IncrementalCounters.

Lemma incremental_counters_witness :
  let st : Incremental.State Q :=
    Incremental.mkState Incremental.zeroSessionData Incremental.NewReputation [] in
  let evs := [TxBegin 1 "4f2a"; TxMail 2 "4f2a" "ok" "alice@example.org";
              TxRcpt 3 "4f2a" "permfail" "bob@example.org";
              TxRcpt 4 "4f2a" "ok" "carol@example.org"; TxRollback 5 "4f2a"] in
  exists st',
    Incremental.run (HS:=ASCIIStrings) evs st = Ok st' /\
    Incremental.txRcptTo (Incremental.session st') = wrap (0 + 2) /\
    Incremental.failedRcpt (Incremental.session st') = wrap (0 + 1).
Proof.
  intros st evs.
  assert (Hz : in_int 0) by (split; discriminate).
  assert (Hin : Forall in_int [0; 0; 0; 0; 0; 0; 0; 0; 0; 0])
    by (repeat (constructor; [exact Hz|]); constructor).
  destruct (Incremental.run (HS:=ASCIIStrings) evs st) as [st'|p] eqn:Hrun;
    [|vm_compute in Hrun; discriminate Hrun].
  exists st'. split; [reflexivity|].
  destruct (incremental_counters (HS:=ASCIIStrings) evs st st' Hin Hrun)
    as (_ & _ & _ & H4 & H5 & _).
  exact (conj H4 H5).
Defined.

(** ** Which events move the overall trust, and which way *)

(** An accepted sender or recipient never lowers the overall trust of the
    session and a refused one never raises it; authentication, TLS, reset,
    begin, data, commit, rollback and disconnect events leave it as it
    is. *)
Theorem overall_moved_by {HS : Strings} (ev : Event) (st st' : Incremental.State Q) :
  unitQ (Incremental.overallReputation (Incremental.session st)) ->
  Incremental.dispatch ev st = Ok st' ->
  let v := Incremental.overallReputation (Incremental.session st) in
  let v' := Incremental.overallReputation (Incremental.session st') in
  match ev with
  | LinkConnect _ _ _ _ _ | LinkIdentify _ _ _ => True
  | TxMail _ _ r _ | TxRcpt _ _ r _ => if String.eqb r "ok" then (v <= v')%Q else (v' <= v)%Q
  | _ => v' = v
  end.
Proof.
  intros Hv Hstep v v'. subst v v'. unfold unitQ in Hv.
  destruct ev; cbn [Incremental.dispatch] in Hstep; try exact I;
    incremental_step Hstep; try reflexivity;
    cbn [Incremental.session Incremental.set_session Incremental.Fprintf
         Incremental.overallReputation Incremental.set_overallReputation
         Incremental.set_failedMail Incremental.set_txMailFrom
         Incremental.set_failedRcpt Incremental.set_txRcptTo];
    set (v := Incremental.overallReputation (Incremental.session st)) in *;
    match goal with
    | Hb : negb (String.eqb ?r "ok") = _ |- _ =>
        destruct (String.eqb r "ok"); try discriminate Hb
    end.
  - pose proof (applyPenalty_cases "mailFrom" 0.4 v eq_refl) as Hc. cbv zeta in Hc.
    set (y := Incremental.applyPenalty _ _) in *. lra.
  - pose proof (applyReward_cases "mailFrom" 0.4 v eq_refl) as Hc. cbv zeta in Hc.
    set (y := Incremental.applyReward _ _) in *. lra.
  - pose proof (applyPenalty_cases "recipient" 0.5 v eq_refl) as Hc. cbv zeta in Hc.
    set (y := Incremental.applyPenalty _ _) in *. lra.
  - pose proof (applyReward_cases "recipient" 0.5 v eq_refl) as Hc. cbv zeta in Hc.
    set (y := Incremental.applyReward _ _) in *. lra.
Qed.

Lemma overall_moved_by_witness :
  let s := Incremental.set_overallReputation 0.2%Q Incremental.zeroSessionData in
  let st : Incremental.State Q := Incremental.mkState s Incremental.NewReputation [] in
  unitQ (Incremental.overallReputation (Incremental.session st)) /\
  exists st',
    Incremental.dispatch (HS:=ASCIIStrings) (TxRcpt 3 "4f2a" "permfail" "bob@example.org") st
    = Ok st' /\
    (Incremental.overallReputation (Incremental.session st')
     <= Incremental.overallReputation (Incremental.session st))%Q.
Proof.
  intros s st.
  assert (Hv : unitQ (Incremental.overallReputation (Incremental.session st)))
    by (split; discriminate).
  split; [exact Hv|]. eexists. split; [reflexivity|].
  exact (overall_moved_by (HS:=ASCIIStrings) (TxRcpt 3 "4f2a" "permfail" "bob@example.org")
           st _ Hv eq_refl).
Defined.
